(** * AndroidSdkInstaller: a shallow embedding and its properties

    The Android SDK installer of the dependency installer
    ([class AndroidSdkInstaller extends InstallerBase]) is embedded as
    functions over an explicit installer object, an event log of every call
    the code makes to a collaborator (file system, child processes, the
    download helper, telemetry) and an oracle that answers those calls.

    Layout:
    - [Js]      the JavaScript string primitives the class relies on;
    - [Posix]   Node's [path.posix] ([normalize], [join], [basename],
                [resolve]);
    - [Node]    the host ([os], [process]), errors, promises, events, oracle;
    - [AndroidSdkInstaller]  the class, method by method;
    - [InstallerBase]        the four-stage engine that drives it;
    - the properties. *)

From Stdlib Require Import String Ascii List ZArith Bool Lia.
Import ListNotations.

Local Open Scope string_scope.
Local Open Scope list_scope.

(** String concatenation, JavaScript's [+] on strings; [++] is kept for
    lists. *)
Infix "+++" := String.append (right associativity, at level 60).

(* ===================================================================== *)
(** ** JavaScript strings *)
(* ===================================================================== *)

Module Js.

(** Characters that cannot be written inside a string literal. *)
Definition LF : string := String "010"%char EmptyString.
Definition CR : string := String "013"%char EmptyString.
Definition DQ : string := String "034"%char EmptyString.

(** [if (s)] on a string: the empty string is the only falsy one. *)
Definition truthy (s : string) : bool := negb (s =? "")%string.

(** [s.charAt(0) === c]. *)
Definition startsWithChar (c : ascii) (s : string) : bool :=
  match s with
  | String a _ => Ascii.eqb a c
  | EmptyString => false
  end.

(** [s.substr(-1) === c]. *)
Fixpoint endsWithChar (c : ascii) (s : string) : bool :=
  match s with
  | EmptyString => false
  | String a EmptyString => Ascii.eqb a c
  | String _ rest => endsWithChar c rest
  end.

(** [pat] occurs in [s]: what [RegExp.prototype.test] computes for a
    pattern that is a literal. *)
Fixpoint includes (pat s : string) : bool :=
  String.prefix pat s ||
  match s with
  | EmptyString => false
  | String _ rest => includes pat rest
  end.

(** Pushes a character onto the first piece of a split. *)
Definition cons_head (c : ascii) (pieces : list string) : list string :=
  match pieces with
  | p :: ps => String c p :: ps
  | [] => [String c EmptyString]
  end.

(** [split_from sep skip s]: the pieces of [s] between occurrences of the
    non-empty separator [sep], scanning left to right; [skip] counts the
    characters of a separator just matched that are still to be dropped. *)
Fixpoint split_from (sep : string) (skip : nat) (s : string) : list string :=
  match s with
  | EmptyString => [EmptyString]
  | String c rest =>
      match skip with
      | S k => split_from sep k rest
      | O =>
          if String.prefix sep s
          then EmptyString :: split_from sep (String.length sep - 1) rest
          else cons_head c (split_from sep 0 rest)
      end
  end.

Fixpoint chars (s : string) : list string :=
  match s with
  | EmptyString => []
  | String c rest => String c EmptyString :: chars rest
  end.

(** [s.split(sep)]. *)
Definition split (sep s : string) : list string :=
  if (sep =? "")%string then chars s else split_from sep 0 s.

(** [pieces.join(sep)]. *)
Definition join (sep : string) (pieces : list string) : string :=
  String.concat sep pieces.

(** *** [parseInt(x, 10)]

    The argument is a property of [process.env]: a string, or [undefined]
    (which [parseInt] reads as the text "undefined").  [None] stands for
    [NaN].  Strings are byte strings here, so only the ASCII white space
    is skipped, and the value is the exact integer (a JavaScript number
    rounds beyond 2^53). *)

Definition isWhiteSpace (c : ascii) : bool :=
  let n := nat_of_ascii c in
  (n =? 9)%nat || (n =? 10)%nat || (n =? 11)%nat || (n =? 12)%nat
  || (n =? 13)%nat || (n =? 32)%nat.

Fixpoint trimStart (s : string) : string :=
  match s with
  | String c rest => if isWhiteSpace c then trimStart rest else s
  | EmptyString => EmptyString
  end.

Definition digit (c : ascii) : option Z :=
  let n := nat_of_ascii c in
  if ((48 <=? n)%nat && (n <=? 57)%nat)%bool
  then Some (Z.of_nat (n - 48)) else None.

(** The value of the longest prefix of decimal digits, [acc] being the
    value read so far; [seen] tells whether a digit was read. *)
Fixpoint digits (s : string) (seen : bool) (acc : Z) : option Z :=
  match s with
  | String c rest =>
      match digit c with
      | Some d => digits rest true (10 * acc + d)%Z
      | None => if seen then Some acc else None
      end
  | EmptyString => if seen then Some acc else None
  end.

Definition parseInt10 (x : option string) : option Z :=
  match x with
  | None => None
  | Some s =>
      match trimStart s with
      | String "-"%char rest => option_map Z.opp (digits rest false 0%Z)
      | String "+"%char rest => digits rest false 0%Z
      | t => digits t false 0%Z
      end
  end.

End Js.

(* ===================================================================== *)
(** ** Node's [path] module, POSIX flavour *)
(* ===================================================================== *)

(** The part of the [path] interface the installer uses.  [resolve] takes
    the working directory it falls back on as its first argument. *)
Record PathModule : Type := {
  path_join : list string -> string;
  path_basename : string -> string;
  path_resolve : string -> list string -> string
}.

Module Posix.

Definition isAbsolute (p : string) : bool := Js.startsWithChar "/"%char p.

(** [normalizeArray(parts, allowAboveRoot)]; [res] is the array built so
    far, last element first. *)
Fixpoint normalizeArray_loop (allowAboveRoot : bool) (res parts : list string)
  : list string :=
  match parts with
  | [] => rev res
  | p :: rest =>
      if ((p =? "") || (p =? "."))%string then
        normalizeArray_loop allowAboveRoot res rest
      else if (p =? "..")%string then
        match res with
        | last :: res' =>
            if negb (last =? "..")%string
            then normalizeArray_loop allowAboveRoot res' rest
            else if allowAboveRoot
                 then normalizeArray_loop allowAboveRoot (".." :: res) rest
                 else normalizeArray_loop allowAboveRoot res rest
        | [] =>
            if allowAboveRoot
            then normalizeArray_loop allowAboveRoot [".."] rest
            else normalizeArray_loop allowAboveRoot res rest
        end
      else normalizeArray_loop allowAboveRoot (p :: res) rest
  end.

Definition normalizeArray (parts : list string) (allowAboveRoot : bool)
  : list string :=
  normalizeArray_loop allowAboveRoot [] parts.

(** [posix.normalize(path)]. *)
Definition normalize (p : string) : string :=
  let isAbs := isAbsolute p in
  let trailingSlash := Js.endsWithChar "/"%char p in
  let p1 := Js.join "/" (normalizeArray (Js.split "/" p) (negb isAbs)) in
  let p2 := if negb (Js.truthy p1) && negb isAbs then "." else p1 in
  let p3 := if Js.truthy p2 && trailingSlash then p2 +++ "/" else p2 in
  (if isAbs then "/" else "") +++ p3.

(** The loop of [posix.join]: non-empty arguments glued with a slash. *)
Fixpoint join_loop (path : string) (args : list string) : string :=
  match args with
  | [] => path
  | segment :: rest =>
      if Js.truthy segment then
        if negb (Js.truthy path)
        then join_loop (path +++ segment) rest
        else join_loop (path +++ "/" +++ segment) rest
      else join_loop path rest
  end.

(** [posix.join(...args)]. *)
Definition join (args : list string) : string :=
  normalize (join_loop "" args).

(** Drops the slashes a string ends with. *)
Fixpoint dropTrailingSlashes (s : string) : string :=
  match s with
  | EmptyString => EmptyString
  | String c rest =>
      match dropTrailingSlashes rest with
      | EmptyString => if Ascii.eqb c "/" then EmptyString
                       else String c EmptyString
      | r => String c r
      end
  end.

(** [posix.basename(path)]: the last portion of the path, trailing
    slashes ignored. *)
Definition basename (p : string) : string :=
  last (Js.split "/" (dropTrailingSlashes p)) "".

(** The loop of [posix.resolve]: arguments are taken from the last to the
    first ([rargs] is the argument list reversed) until the path built is
    absolute, the working directory coming after the first argument. *)
Fixpoint resolve_loop (cwd : string) (rargs : list string)
  (resolvedPath : string) : string * bool :=
  match rargs with
  | [] =>
      if Js.truthy cwd
      then (cwd +++ "/" +++ resolvedPath, isAbsolute cwd)
      else (resolvedPath, false)
  | p :: rest =>
      if Js.truthy p then
        let rp := p +++ "/" +++ resolvedPath in
        if isAbsolute p then (rp, true) else resolve_loop cwd rest rp
      else resolve_loop cwd rest resolvedPath
  end.

(** [posix.resolve(...args)] with [process.cwd() = cwd]. *)
Definition resolve (cwd : string) (args : list string) : string :=
  let '(resolvedPath, resolvedAbsolute) := resolve_loop cwd (rev args) "" in
  let body :=
    Js.join "/" (normalizeArray (Js.split "/" resolvedPath)
                   (negb resolvedAbsolute)) in
  let r := (if resolvedAbsolute then "/" else "") +++ body in
  if Js.truthy r then r else ".".

Definition path : PathModule := {|
  path_join := join;
  path_basename := basename;
  path_resolve := resolve
|}.

End Posix.

(* ===================================================================== *)
(** ** The Node host and the collaborators *)
(* ===================================================================== *)

Module Node.

(** Error objects.  [ResourceError key] is
    [new Error(resources.getString(key))], [MessageError m] is
    [new Error(m)], [TypeError m] is raised by Node itself, and
    [ExternalError tag] is an error object handed over by a collaborator
    (the file system, a child process, the download helper). *)
Inductive JsError : Type :=
| ResourceError (key : string)
| MessageError (message : string)
| TypeError (message : string)
| ExternalError (tag : string).

(** The state a Q promise ends in; [Pending] is a promise that is never
    settled. *)
Inductive Promise : Type :=
| Fulfilled
| Rejected (e : JsError)
| Pending.

(** [deferred.resolve] and [deferred.reject] act on a pending promise
    only. *)
Definition settle (deferred outcome : Promise) : Promise :=
  match deferred with
  | Pending => outcome
  | _ => deferred
  end.

Inductive TelemetryValue : Type :=
| TString (s : string)
| TNumber (n : Z).

(** The [uid] and [gid] options of [childProcess.spawn]; [None] is
    [NaN]. *)
Record SpawnOptions : Type := {
  uid : option Z;
  gid : option Z
}.

(** Every call the installer makes to a collaborator. *)
Inductive Event : Type :=
| E_downloadFile (uri method destination : string) (bytes : Z) (sha1 : string)
| E_existsSync (p : string)
| E_mkdirSyncRecursive (p : string) (mode : Z)
| E_admZip (archive : option string)
| E_extractAllTo (destination : string)
| E_chownSyncRecursive (p : string) (uid gid : option Z)
| E_chownSync (p : string) (uid gid : option Z)
| E_exec (command : string)
| E_spawn (command : string) (args : list string) (options : option SpawnOptions)
| E_stdin_write (data : string)
| E_stdin_end
| E_telemetry_add (key : string) (value : TelemetryValue) (isPii : bool)
| E_telemetry_addError (e : JsError)
| E_setEnvironmentVariableIfNeededWin32 (name value : string)
| E_addToPathIfNeededWin32 (entries : list string).

(** What a spawned child process delivers to its listeners, in order:
    chunks of its two output streams, ['error'] with an error object and
    ['exit'] with the exit code (the listeners declare it a number). *)
Inductive ChildEvent : Type :=
| StdoutData (data : string)
| StderrData (data : string)
| ChildError (err : JsError)
| ChildExit (code : Z).

(** How [childProcess.exec] calls back. *)
Inductive ExecOutcome : Type :=
| ExecOk
| ExecFailed (error : JsError)
| ExecNoCallback.

(** The process-wide values the installer reads: [os.platform()],
    [process.env], [process.cwd()], the base class's static
    [installerCache], and Node's [path.win32], which is left open (no
    property below looks inside it). *)
Record Host : Type := {
  os_platform : string;
  process_env : string -> option string;
  process_cwd : string;
  installerCache : string;
  path_win32 : PathModule
}.

(** [os.EOL]. *)
Definition os_EOL (h : Host) : string :=
  if (os_platform h =? "win32")%string then Js.CR +++ Js.LF else Js.LF.

(** [require("path")]. *)
Definition path (h : Host) : PathModule :=
  if (os_platform h =? "win32")%string then path_win32 h else Posix.path.

(** The collaborators' answers.  Each may depend on everything done so
    far (the log at the time of the call), which covers a file system or
    a process table that changes under the installer's hands. *)
Record World : Type := {
  (** the exception a synchronous call raises, if any *)
  throws : list Event -> Event -> option JsError;
  (** [fs.existsSync(p)] *)
  existsSync : list Event -> string -> bool;
  (** the promise [installerUtils.downloadFile] returns *)
  downloadFile : list Event -> string -> string -> Promise;
  (** the callback of [childProcess.exec(command, callback)] *)
  exec : list Event -> string -> ExecOutcome;
  (** the events of the child [childProcess.spawn] started *)
  spawn : list Event -> string -> list string -> option SpawnOptions
          -> list ChildEvent;
  (** the promises of [installerUtilsWin32] *)
  setEnvironmentVariableIfNeededWin32 : list Event -> string -> string -> Promise;
  addToPathIfNeededWin32 : list Event -> list string -> Promise
}.

End Node.

Import Node.

(* ===================================================================== *)
(** ** class AndroidSdkInstaller *)
(* ===================================================================== *)

(** [DependencyInstallerInterfaces.IInstallerData]. *)
Record IInstallerData : Type := {
  installSource : string;
  sha1 : string;
  bytes : Z
}.

(** Modelled from the spec: [StepFlags], the record of lifecycle stages
    already completed for this SDK and version (the declaration of
    [DependencyInstallerInterfaces.IStepsDeclaration], the type of the
    [steps] argument of the constructor, is not part of the sources). *)
Record StepFlags : Type := {
  downloaded : bool;
  installed : bool;
  variablesSet : bool;
  postInstalled : bool
}.

(** The fields of an installer object: those of [InstallerBase] the class
    reads, and its own two, [undefined] until a stage assigns them. *)
Record Installer : Type := {
  installerInfo : IInstallerData;
  softwareVersion : string;
  installDestination : string;
  steps : StepFlags;
  installerArchive : option string;
  androidHomeValue : option string
}.

(** The installer object together with the log of the calls made so far. *)
Record State : Type := {
  this : Installer;
  log : list Event
}.

(** A computation either completes with a value or throws. *)
Inductive Completion (A : Type) : Type :=
| Normal (a : A)
| Thrown (e : JsError).
Arguments Normal {A} a.
Arguments Thrown {A} e.

Definition M (A : Type) : Type := State -> Completion A * State.

Definition ret {A} (a : A) : M A := fun st => (Normal a, st).

Definition bind {A B} (m : M A) (k : A -> M B) : M B :=
  fun st =>
    match m st with
    | (Normal a, st') => k a st'
    | (Thrown e, st') => (Thrown e, st')
    end.

Definition throw {A} (e : JsError) : M A := fun st => (Thrown e, st).

Declare Scope js_scope.
Delimit Scope js_scope with js.
Notation "x <- m ;; k" := (bind m (fun x => k))
  (at level 61, m at next level, right associativity) : js_scope.
Notation "m ;; k" := (bind m (fun _ => k))
  (at level 61, right associativity) : js_scope.
Local Open Scope js_scope.

Definition get_this : M Installer := fun st => (Normal (this st), st).

Definition get_log : M (list Event) := fun st => (Normal (log st), st).

Definition set_this (i : Installer) : M unit :=
  fun st => (Normal tt, {| this := i; log := log st |}).

(** Records a call that cannot fail (telemetry, writes to a stream). *)
Definition emit (ev : Event) : M unit :=
  fun st => (Normal tt, {| this := this st; log := log st ++ [ev] |}).

(** [promise.then(callback)]: the callback runs once the promise is
    fulfilled, and what it throws rejects the promise returned. *)
Definition then_ (p : M Promise) (callback : M Promise) : M Promise :=
  r <- p ;;
  match r with
  | Fulfilled =>
      fun st =>
        match callback st with
        | (Normal q, st') => (Normal q, st')
        | (Thrown e, st') => (Normal (Rejected e), st')
        end
  | Rejected e => ret (Rejected e)
  | Pending => ret Pending
  end.

(** A callback the event loop runs later (a listener of a child, the
    callback of [childProcess.exec]): the code that registered it has
    returned by then, so what the callback throws does not reach it.  The
    exception is uncaught, and [fallback] is what the callback leaves
    behind. *)
Definition uncaught {A} (fallback : A) (m : M A) : M A :=
  fun st =>
    match m st with
    | (Normal a, st') => (Normal a, st')
    | (Thrown _, st') => (Normal fallback, st')
    end.

Module AndroidSdkInstaller.

Definition ANDROID_HOME_NAME : string := "ANDROID_HOME".

Definition ANDROID_PACKAGES : list string :=
  [ "tools"; "platform-tools"; "extra-android-support";
    "extra-android-m2repository"; "build-tools-19.1.0";
    "build-tools-21.1.2"; "build-tools-22.0.1"; "android-19";
    "android-21"; "android-22" ].

(** [this.installerArchive = archive]. *)
Definition set_installerArchive (archive : string) : M unit :=
  i <- get_this ;;
  set_this {| installerInfo := installerInfo i;
              softwareVersion := softwareVersion i;
              installDestination := installDestination i;
              steps := steps i;
              installerArchive := Some archive;
              androidHomeValue := androidHomeValue i |}.

(** [this.androidHomeValue = home]. *)
Definition set_androidHomeValue (home : string) : M unit :=
  i <- get_this ;;
  set_this {| installerInfo := installerInfo i;
              softwareVersion := softwareVersion i;
              installDestination := installDestination i;
              steps := steps i;
              installerArchive := installerArchive i;
              androidHomeValue := Some home |}.

Section Methods.

Variable h : Host.
Variable w : World.

Definition androidCommand : string :=
  if (os_platform h =? "win32")%string then "android.bat" else "android".

(** *** Calls to the collaborators *)

(** A synchronous call: logged, and it throws when the world says so. *)
Definition call (ev : Event) : M unit :=
  fun st =>
    let st' := {| this := this st; log := log st ++ [ev] |} in
    match throws w (log st) ev with
    | Some e => (Thrown e, st')
    | None => (Normal tt, st')
    end.

Definition fs_existsSync (p : string) : M bool :=
  fun st =>
    (Normal (existsSync w (log st) p),
     {| this := this st; log := log st ++ [E_existsSync p] |}).

Definition installerUtils_downloadFile
  (uri method destination : string) (bytes : Z) (sha1 : string) : M Promise :=
  history <- get_log ;;
  call (E_downloadFile uri method destination bytes sha1) ;;
  ret (downloadFile w history uri destination).

Definition childProcess_exec (command : string) : M ExecOutcome :=
  history <- get_log ;;
  call (E_exec command) ;;
  ret (exec w history command).

Definition childProcess_spawn
  (command : string) (args : list string) (options : option SpawnOptions)
  : M (list ChildEvent) :=
  history <- get_log ;;
  call (E_spawn command args options) ;;
  ret (spawn w history command args options).

(** [path.join] on values that may be [undefined]: Node refuses an
    argument that is not a string. *)
Definition path_join_js (args : list (option string)) : M string :=
  if forallb (fun a => match a with Some _ => true | None => false end) args
  then ret (path_join (path h)
              (flat_map (fun a => match a with Some s => [s] | None => [] end) args))
  else throw (TypeError "Arguments to path.join must be strings").

Definition SUDO_UID : option Z := Js.parseInt10 (process_env h "SUDO_UID").
Definition SUDO_GID : option Z := Js.parseInt10 (process_env h "SUDO_GID").

(** *** Download *)

Definition downloadDefault : M Promise :=
  i <- get_this ;;
  let archive :=
    path_join (path h)
      [ installerCache h; "androidSdk"; os_platform h; softwareVersion i;
        path_basename (path h) (installSource (installerInfo i)) ] in
  set_installerArchive archive ;;
  installerUtils_downloadFile
    (installSource (installerInfo i)) "GET" archive
    (bytes (installerInfo i)) (sha1 (installerInfo i)).

Definition downloadWin32 : M Promise := downloadDefault.
Definition downloadDarwin : M Promise := downloadDefault.

(** *** Install *)

#[using="h w"]
Definition installDefault : M Promise :=
  i <- get_this ;;
  if negb (Js.truthy (installDestination i)) then
    emit (E_telemetry_add "error.description"
            (TString "NeedInstallDestination on installDefault") false) ;;
    ret (Rejected (ResourceError "NeedInstallDestination"))
  else
    call (E_admZip (installerArchive i)) ;;
    exists_ <- fs_existsSync (installDestination i) ;;
    (if negb exists_
     then call (E_mkdirSyncRecursive (installDestination i) 511)
     else ret tt) ;;
    call (E_extractAllTo (installDestination i)) ;;
    ret Fulfilled.

#[using="h w"]
Definition installWin32 : M Promise := installDefault.

(** The [pathSegments.some(...)] loop of [installDarwin]: the first
    prefix of the segments, joined, that does not exist. *)
Fixpoint firstNonExistentDir (pathSegments : list string) (pathSoFar : string)
  : M (option string) :=
  match pathSegments with
  | [] => ret None
  | dir :: rest =>
      let pathSoFar' := path_join (path h) [pathSoFar; dir] in
      exists_ <- fs_existsSync pathSoFar' ;;
      if negb exists_ then ret (Some pathSoFar')
      else firstNonExistentDir rest pathSoFar'
  end.

Definition installDarwin : M Promise :=
  i <- get_this ;;
  let pathSegments :=
    Js.split (os_EOL h)
      (path_resolve (path h) (process_cwd h) [installDestination i]) in
  firstNonExistent <- firstNonExistentDir pathSegments "" ;;
  then_ installDefault
    (match firstNonExistent with
     | Some dir =>
         if Js.truthy dir
         then call (E_chownSyncRecursive dir SUDO_UID SUDO_GID) ;; ret Fulfilled
         else ret Fulfilled
     | None => ret Fulfilled
     end).

(** *** Update variables *)

Definition updateVariablesWin32 : M Promise :=
  i <- get_this ;;
  let androidHomeValue :=
    path_join (path h) [installDestination i; "android-sdk-windows"] in
  let addToPathTools := path_join (path h) [androidHomeValue; "tools"] in
  let addToPathPlatformTools :=
    path_join (path h) [androidHomeValue; "platform-tools"] in
  set_androidHomeValue androidHomeValue ;;
  then_
    (history <- get_log ;;
     call (E_setEnvironmentVariableIfNeededWin32 ANDROID_HOME_NAME androidHomeValue) ;;
     ret (setEnvironmentVariableIfNeededWin32 w history
            ANDROID_HOME_NAME androidHomeValue))
    (history <- get_log ;;
     call (E_addToPathIfNeededWin32 [addToPathTools; addToPathPlatformTools]) ;;
     ret (addToPathIfNeededWin32 w history
            [addToPathTools; addToPathPlatformTools])).

(** The text [updateVariablesDarwin] appends to the profile. *)
Definition appendToBashProfile (androidHomeValue : string) : string :=
  let addToPathTools := "$" +++ ANDROID_HOME_NAME +++ "/tools/" in
  let addToPathPlatformTools :=
    "$" +++ ANDROID_HOME_NAME +++ "/platform-tools/" in
  let newPath :=
    Js.DQ +++ "$PATH:" +++ addToPathTools +++ ":"
    +++ addToPathPlatformTools +++ Js.DQ in
  Js.LF +++ "# Android SDK" +++ Js.LF +++ "export ANDROID_HOME="
  +++ androidHomeValue +++ Js.LF +++ "export PATH=" +++ newPath.

(** The shell command that appends it. *)
Definition updateCommand (androidHomeValue bashProfilePath : string) : string :=
  "echo '" +++ appendToBashProfile androidHomeValue +++ "' >> '"
  +++ bashProfilePath +++ "'".

Definition updateVariablesDarwin : M Promise :=
  i <- get_this ;;
  let androidHomeValue :=
    path_join (path h) [installDestination i; "android-sdk-macosx"] in
  bashProfilePath <-
    path_join_js [process_env h "HOME"; Some ".bash_profile"] ;;
  exists_ <- fs_existsSync bashProfilePath ;;
  let mustChown := negb exists_ in
  set_androidHomeValue androidHomeValue ;;
  outcome <- childProcess_exec (updateCommand androidHomeValue bashProfilePath) ;;
  match outcome with
  | ExecFailed error =>
      emit (E_telemetry_add "error.description"
              (TString "ErrorOnChildProcess on updateVariablesDarwin") false) ;;
      emit (E_telemetry_addError error) ;;
      ret (Rejected error)
  | ExecOk =>
      (* inside the callback: when [chownSync] throws, [deferred.resolve]
         is not reached and the promise is never settled *)
      uncaught Pending
        ((if mustChown
          then call (E_chownSync bashProfilePath SUDO_UID SUDO_GID)
          else ret tt) ;;
         ret Fulfilled)
  | ExecNoCallback => ret Pending
  end.

(** *** Post-install *)

Definition addExecutePermission : M Promise :=
  i <- get_this ;;
  target <- path_join_js [androidHomeValue i; Some "tools"; Some "android"] ;;
  outcome <- childProcess_exec ("chmod a+x " +++ target) ;;
  match outcome with
  | ExecFailed error =>
      emit (E_telemetry_add "error.description"
              (TString "ErrorOnChildProcess on addExecutePermission") false) ;;
      emit (E_telemetry_addError error) ;;
      ret (Rejected error)
  | ExecOk => ret Fulfilled
  | ExecNoCallback => ret Pending
  end.

(** The listeners of [killAdb], applied to one event of the child;
    [deferred] is the state of the promise returned. *)
Definition killAdb_on (deferred : Promise) (ev : ChildEvent) : M Promise :=
  match ev with
  | ChildError error =>
      emit (E_telemetry_add "error.description"
              (TString "ErrorOnKillingAdb in killAdb") false) ;;
      emit (E_telemetry_addError error) ;;
      ret (settle deferred (Rejected error))
  | ChildExit code => ret (settle deferred Fulfilled)
  | StdoutData _ | StderrData _ => ret deferred
  end.

Fixpoint killAdb_listen (deferred : Promise) (events : list ChildEvent)
  : M Promise :=
  match events with
  | [] => ret deferred
  | ev :: rest =>
      deferred' <- killAdb_on deferred ev ;;
      killAdb_listen deferred' rest
  end.

Definition killAdb : M Promise :=
  i <- get_this ;;
  adb <- path_join_js [androidHomeValue i; Some "platform-tools"; Some "adb"] ;;
  events <- childProcess_spawn adb ["kill-server"] None ;;
  killAdb_listen Pending events.

(** The variables the listeners of [installAndroidPackages] share, and
    whether [cp.stdin.end()] has been called: a stream that has been ended
    refuses to be written to. *)
Record Supervision : Type := {
  errorOutput : string;
  deferred : Promise;
  stdinEnded : bool
}.

(** The listeners of [installAndroidPackages], applied to one event.  The
    answer to a prompt is written whether or not the standard input of the
    child is still open; [write] on a stream that has been ended throws
    [write after end], so [end] is not reached a second time. *)
Definition installAndroidPackages_on (s : Supervision) (ev : ChildEvent)
  : M Supervision :=
  match ev with
  | StdoutData stringData =>
      if Js.includes "[y/n]:" stringData then
        emit (E_stdin_write ("y" +++ os_EOL h)) ;;
        (if stdinEnded s then
           (* the stream emits ['error'], which nobody listens to *)
           throw (MessageError "write after end")
         else
           emit E_stdin_end ;;
           ret {| errorOutput := errorOutput s;
                  deferred := deferred s;
                  stdinEnded := true |})
      else ret s
  | StderrData data =>
      ret {| errorOutput := errorOutput s +++ data;
             deferred := deferred s;
             stdinEnded := stdinEnded s |}
  | ChildError err =>
      emit (E_telemetry_add "error.description"
              (TString "ErrorOnChildProcess on postInstallDefault") false) ;;
      emit (E_telemetry_addError err) ;;
      ret {| errorOutput := errorOutput s;
             deferred := settle (deferred s) (Rejected err);
             stdinEnded := stdinEnded s |}
  | ChildExit code =>
      if Js.truthy (errorOutput s) then
        emit (E_telemetry_add "error.description"
                (TString "ErrorOnExitOfChildProcess on postInstallDefault") false) ;;
        emit (E_telemetry_add "error.code" (TNumber code) false) ;;
        emit (E_telemetry_add "error.message" (TString (errorOutput s)) true) ;;
        ret {| errorOutput := errorOutput s;
               deferred := settle (deferred s)
                             (Rejected (MessageError (errorOutput s)));
               stdinEnded := stdinEnded s |}
      else
        ret {| errorOutput := errorOutput s;
               deferred := settle (deferred s) Fulfilled;
               stdinEnded := stdinEnded s |}
  end.

(** The events of the child, one after the other.  An exception out of a
    listener is uncaught: the variables stay as they were, and the events
    delivered after it, if any, are handled as usual. *)
Fixpoint installAndroidPackages_listen (s : Supervision)
  (events : list ChildEvent) : M Supervision :=
  match events with
  | [] => ret s
  | ev :: rest =>
      s' <- uncaught s (installAndroidPackages_on s ev) ;;
      installAndroidPackages_listen s' rest
  end.

Definition installAndroidPackages_args : list string :=
  [ "update"; "sdk"; "-u"; "-a"; "--filter"; Js.join "," ANDROID_PACKAGES ].

(** The promise returned is read once the child has delivered all its
    events: what comes after the event that settles it can change the log
    but not the outcome. *)
Definition installAndroidPackages : M Promise :=
  i <- get_this ;;
  command <- path_join_js [androidHomeValue i; Some "tools"; Some androidCommand] ;;
  let options :=
    if (os_platform h =? "darwin")%string
    then Some {| uid := SUDO_UID; gid := SUDO_GID |}
    else None in
  events <- childProcess_spawn command installAndroidPackages_args options ;;
  s <- installAndroidPackages_listen
         {| errorOutput := ""; deferred := Pending; stdinEnded := false |}
         events ;;
  ret (deferred s).

Definition postInstallDefault : M Promise :=
  then_ installAndroidPackages killAdb.

Definition postInstallWin32 : M Promise := postInstallDefault.

Definition postInstallDarwin : M Promise :=
  then_ addExecutePermission postInstallDefault.

End Methods.

End AndroidSdkInstaller.

(* ===================================================================== *)
(** ** class InstallerBase: the lifecycle engine *)
(* ===================================================================== *)

Module InstallerBase.

(** Modelled from the spec: the four named stages of the lifecycle, in
    their fixed order (the source of [InstallerBase] is not part of the
    sources). *)
Inductive Stage : Type := Download | Install | UpdateVariables | PostInstall.

(** Modelled from the spec: the flag of [StepFlags] that corresponds to a
    stage ([InstallerBase], missing, reads it before each stage). *)
Definition satisfied (s : Stage) (f : StepFlags) : bool :=
  match s with
  | Download => downloaded f
  | Install => installed f
  | UpdateVariables => variablesSet f
  | PostInstall => postInstalled f
  end.

(** Modelled from the spec: "on success set the flag true"
    ([InstallerBase], missing); no flag is ever reset. *)
Definition mark (s : Stage) (f : StepFlags) : StepFlags :=
  match s with
  | Download =>
      {| downloaded := true; installed := installed f;
         variablesSet := variablesSet f; postInstalled := postInstalled f |}
  | Install =>
      {| downloaded := downloaded f; installed := true;
         variablesSet := variablesSet f; postInstalled := postInstalled f |}
  | UpdateVariables =>
      {| downloaded := downloaded f; installed := installed f;
         variablesSet := true; postInstalled := postInstalled f |}
  | PostInstall =>
      {| downloaded := downloaded f; installed := installed f;
         variablesSet := variablesSet f; postInstalled := true |}
  end.

(** Modelled from the spec: the assignment of the flag to the installer's
    [steps] ([InstallerBase], missing). *)
Definition set_satisfied (s : Stage) : M unit :=
  i <- get_this ;;
  set_this {| installerInfo := installerInfo i;
              softwareVersion := softwareVersion i;
              installDestination := installDestination i;
              steps := mark s (steps i);
              installerArchive := installerArchive i;
              androidHomeValue := androidHomeValue i |}.

(** Modelled from the spec: the platforms of the "two-way switch on host
    platform identity" ([InstallerBase], missing). *)
Inductive Platform : Type := Win32 | Darwin.

(** Modelled from the spec: the switch itself; any other platform is
    unrecognized. *)
Definition platformOf (h : Host) : option Platform :=
  if (os_platform h =? "win32")%string then Some Win32
  else if (os_platform h =? "darwin")%string then Some Darwin
  else None.

Section Engine.

Variable h : Host.
Variable w : World.

(** Modelled from the spec: the platform-dispatched implementation of a
    stage, which [InstallerBase] (missing) selects among the
    [...Win32] and [...Darwin] methods of the subclass. *)
Definition body (p : Platform) (s : Stage) : M Promise :=
  match p, s with
  | Win32, Download => AndroidSdkInstaller.downloadWin32 h w
  | Win32, Install => AndroidSdkInstaller.installWin32 h w
  | Win32, UpdateVariables => AndroidSdkInstaller.updateVariablesWin32 h w
  | Win32, PostInstall => AndroidSdkInstaller.postInstallWin32 h w
  | Darwin, Download => AndroidSdkInstaller.downloadDarwin h w
  | Darwin, Install => AndroidSdkInstaller.installDarwin h w
  | Darwin, UpdateVariables => AndroidSdkInstaller.updateVariablesDarwin h w
  | Darwin, PostInstall => AndroidSdkInstaller.postInstallDarwin h w
  end.

(** Modelled from the spec: one stage of [InstallerBase.run] (missing):
    "if the corresponding flag is already true, skip it; otherwise
    invoke the platform-dispatched implementation, and on success set
    the flag true before proceeding". *)
Definition runStage (p : Platform) (s : Stage) : M Promise :=
  i <- get_this ;;
  if satisfied s (steps i) then ret Fulfilled
  else then_ (body p s) (set_satisfied s ;; ret Fulfilled).

(** Modelled from the spec: [InstallerBase.run] (missing): the four
    stages in fixed order, a failure aborting the pipeline; "an
    unrecognized platform is a configuration error reported before any
    stage runs". *)
Definition run : M Promise :=
  match platformOf h with
  | None => ret (Rejected (ResourceError "UnsupportedPlatform"))
  | Some p =>
      then_ (then_ (then_ (then_ (ret Fulfilled)
        (runStage p Download))
        (runStage p Install))
        (runStage p UpdateVariables))
        (runStage p PostInstall)
  end.

End Engine.

(** Modelled from the spec: the constructor.  That of
    [AndroidSdkInstaller] hands its arguments to the constructor of
    [InstallerBase] (missing), which is taken to store them in the fields
    the methods read; the two fields of the subclass are [undefined], and
    nothing has been called yet. *)
Definition construct (installerInfo : IInstallerData)
  (softwareVersion installTo : string) (steps : StepFlags) : State :=
  {| this := {| installerInfo := installerInfo;
                softwareVersion := softwareVersion;
                installDestination := installTo;
                steps := steps;
                installerArchive := None;
                androidHomeValue := None |};
     log := [] |}.

End InstallerBase.

(* ===================================================================== *)
(** ** Sample hosts, worlds and installers *)
(* ===================================================================== *)

Module Sample.

Definition env (name : string) : option string :=
  if (name =? "HOME")%string then Some "/Users/dev"
  else if (name =? "SUDO_UID")%string then Some "501"
  else if (name =? "SUDO_GID")%string then Some "20"
  else None.

Definition darwin : Host := {|
  os_platform := "darwin";
  process_env := env;
  process_cwd := "/Users/dev/project";
  installerCache := "/Users/dev/.taco_home/third-party-installers";
  path_win32 := Posix.path
|}.

Definition linux : Host := {|
  os_platform := "linux";
  process_env := env;
  process_cwd := "/home/dev/project";
  installerCache := "/home/dev/.taco_home/third-party-installers";
  path_win32 := Posix.path
|}.

(** A world in which nothing exists yet, every call succeeds and every
    child behaves as [children] says. *)
Definition quiet (children : string -> list ChildEvent) : World := {|
  throws := fun _ _ => None;
  existsSync := fun _ _ => false;
  downloadFile := fun _ _ _ => Fulfilled;
  exec := fun _ _ => ExecOk;
  spawn := fun _ command _ _ => children command;
  setEnvironmentVariableIfNeededWin32 := fun _ _ _ => Fulfilled;
  addToPathIfNeededWin32 := fun _ _ => Fulfilled
|}.

Definition exits (code : Z) : string -> list ChildEvent :=
  fun _ => [ChildExit code].

Definition info : IInstallerData := {|
  installSource := "http://x/sdk.zip";
  sha1 := "abc";
  bytes := 1024
|}.

Definition noneDone : StepFlags := {|
  downloaded := false; installed := false;
  variablesSet := false; postInstalled := false
|}.

Definition fresh (installTo : string) (steps : StepFlags) : State :=
  InstallerBase.construct info "24.3.4" installTo steps.

(** The stages a caller marks as satisfied when only post-install is left,
    and when download and update-variables are. *)
Definition onlyPostInstallLeft : StepFlags := {|
  downloaded := true; installed := true;
  variablesSet := true; postInstalled := false
|}.

Definition downloadAndVariablesDone : StepFlags := {|
  downloaded := true; installed := false;
  variablesSet := true; postInstalled := false
|}.

Definition home : string := "/opt/sdk/android-sdk-macosx".

(** An installer whose first three stages have run in this process. *)
Definition ready : State := {|
  this := {| installerInfo := info;
             softwareVersion := "24.3.4";
             installDestination := "/opt/sdk";
             steps := {| downloaded := true; installed := true;
                         variablesSet := true; postInstalled := false |};
             installerArchive :=
               Some "/Users/dev/.taco_home/third-party-installers/androidSdk/darwin/24.3.4/sdk.zip";
             androidHomeValue := Some home |};
  log := []
|}.

(** A package manager that asks twice for a license and exits with 0. *)
Definition asksTwice : list ChildEvent :=
  [ StdoutData "Do you accept the license 'android-sdk-license-5be876d5' [y/n]: ";
    StdoutData "Do you accept the license 'android-sdk-preview-license-52d11cd2' [y/n]: ";
    ChildExit 0 ].

(** A package manager that complains on its standard error and exits
    with 0. *)
Definition complains : list ChildEvent :=
  [ StdoutData "Installing Archives:";
    StderrData "Error: ";
    StderrData "Missing SDK tools directory";
    ChildExit 0 ].

(** A child that could not be started. *)
Definition cannotStart : list ChildEvent :=
  [ ChildError (ExternalError "spawn ENOENT") ].

End Sample.

(* ===================================================================== *)
(** ** Predicates used in the statements *)
(* ===================================================================== *)

(** A path segment proper: not empty, and neither "." nor "..". *)
Definition isSegment (p : string) : bool :=
  negb ((p =? "") || (p =? ".") || (p =? ".."))%string.

(** The character [c] does not occur in [s]. *)
Definition lacks (c : ascii) (s : string) : bool :=
  negb (Js.includes (String c "") s).

(** A file or directory name: a segment proper without a slash. *)
Definition isName (p : string) : bool := isSegment p && lacks "/" p.

(** A directory path in normal form that names at least one directory:
    [normalize] keeps it, it does not end in a slash (so it is not the
    root) and it is not ".". *)
Definition isDirectoryPath (p : string) : bool :=
  (Posix.normalize p =? p)%string
  && negb (Js.endsWithChar "/" p)
  && negb (p =? ".")%string.

(** A chunk of output of a child, as opposed to its ['error'] and ['exit']
    events. *)
Definition isOutput (ev : ChildEvent) : bool :=
  match ev with
  | StdoutData _ | StderrData _ => true
  | ChildError _ | ChildExit _ => false
  end.

(** The text a child wrote to its standard error, chunk after chunk. *)
Fixpoint capturedStderr (events : list ChildEvent) : string :=
  match events with
  | [] => ""
  | StderrData data :: rest => data +++ capturedStderr rest
  | _ :: rest => capturedStderr rest
  end.

(** A chunk of standard output that shows the yes/no prompt. *)
Definition showsPrompt (ev : ChildEvent) : bool :=
  match ev with
  | StdoutData data => Js.includes "[y/n]:" data
  | _ => false
  end.

(** A call on the standard input of a child. *)
Definition isStdinCall (ev : Event) : bool :=
  match ev with
  | E_stdin_write _ | E_stdin_end => true
  | _ => false
  end.

Definition isSpawn (ev : Event) : bool :=
  match ev with
  | E_spawn _ _ _ => true
  | _ => false
  end.

Definition isStdinWrite (ev : Event) : bool :=
  match ev with
  | E_stdin_write _ => true
  | _ => false
  end.

Definition isStdinEnd (ev : Event) : bool :=
  match ev with
  | E_stdin_end => true
  | _ => false
  end.

(** The error descriptions handed to telemetry, in order. *)
Fixpoint descriptions (events : list Event) : list string :=
  match events with
  | [] => []
  | E_telemetry_add key (TString value) _ :: rest =>
      if (key =? "error.description")%string
      then value :: descriptions rest
      else descriptions rest
  | _ :: rest => descriptions rest
  end.

(** The descriptions under which the package-installation step reports. *)
Definition packageInstallationDescriptions : list string :=
  [ "ErrorOnChildProcess on postInstallDefault";
    "ErrorOnExitOfChildProcess on postInstallDefault" ].

(** A call that opens the archive, creates the destination or extracts. *)
Definition isArchiveCall (ev : Event) : bool :=
  match ev with
  | E_admZip _ | E_mkdirSyncRecursive _ _ | E_extractAllTo _ => true
  | _ => false
  end.

(** What the listeners of a child do: they report to telemetry and write
    to the child's standard input. *)
Definition isListenerCall (ev : Event) : bool :=
  match ev with
  | E_telemetry_add _ _ _ | E_telemetry_addError _
  | E_stdin_write _ | E_stdin_end => true
  | _ => false
  end.

(** The calls of [installDefault], the archive opened being [archive]. *)
Definition installCall (archive : option string) (ev : Event) : Prop :=
  match ev with
  | E_admZip a => a = archive
  | E_telemetry_add _ _ _ | E_existsSync _
  | E_mkdirSyncRecursive _ _ | E_extractAllTo _ => True
  | _ => False
  end.

(** The calls that neither download, open an archive nor spawn a child:
    those of the update-variables stage, and the probes and ownership
    resets around [installDefault]. *)
Definition isPlainCall (ev : Event) : bool :=
  match ev with
  | E_admZip _ | E_mkdirSyncRecursive _ _ | E_extractAllTo _
  | E_spawn _ _ _ | E_downloadFile _ _ _ _ _ => false
  | _ => true
  end.

Definition isDownload (ev : Event) : bool :=
  match ev with
  | E_downloadFile _ _ _ _ _ => true
  | _ => false
  end.

(** The calls of the post-install stage: commands run, children spawned
    and what their listeners do. *)
Definition isPostInstallCall (ev : Event) : bool :=
  match ev with
  | E_exec _ | E_spawn _ _ _ => true
  | _ => isListenerCall ev
  end.

(** The settings of an installer, which no stage changes. *)
Definition sameSettings (i i' : Installer) : Prop :=
  installerInfo i' = installerInfo i
  /\ softwareVersion i' = softwareVersion i
  /\ installDestination i' = installDestination i
  /\ steps i' = steps i.

(** The path under which the download stage caches the archive. *)
Definition cachePath (h : Host) (i : Installer) : string :=
  path_join (path h)
    [ installerCache h; "androidSdk"; os_platform h; softwareVersion i;
      path_basename (path h) (installSource (installerInfo i)) ].

(** What a call made by stage [s], started in state [st], may be: a plain
    call; the request of the download stage; a call of [installDefault],
    which needs a destination; or a call of the post-install stage, which
    needs the home directory. *)
Definition stageCall (s : InstallerBase.Stage) (st : State) (ev : Event) : Prop :=
  isPlainCall ev = true
  \/ (s = InstallerBase.Download /\ isDownload ev = true)
  \/ (s = InstallerBase.Install
      /\ installDestination (this st) <> ""
      /\ installCall (installerArchive (this st)) ev)
  \/ (s = InstallerBase.PostInstall
      /\ androidHomeValue (this st) <> None
      /\ isPostInstallCall ev = true).

(** What the body of stage [s], started in state [st], may have done when
    it returns [result]. *)
Record StageEffect (h : Host) (s : InstallerBase.Stage) (st : State)
  (result : Completion Promise * State) : Prop := {
  effect_settings : sameSettings (this st) (this (snd result));
  effect_archive_kept :
    s <> InstallerBase.Download ->
    installerArchive (this (snd result)) = installerArchive (this st);
  effect_archive_set :
    s = InstallerBase.Download ->
    installerArchive (this (snd result)) = Some (cachePath h (this st));
  effect_home_kept :
    s <> InstallerBase.UpdateVariables ->
    androidHomeValue (this (snd result)) = androidHomeValue (this st);
  effect_home_grows :
    androidHomeValue (this st) <> None ->
    androidHomeValue (this (snd result)) <> None;
  effect_calls :
    exists added,
      log (snd result) = log st ++ added /\ Forall (stageCall s st) added;
  effect_no_destination :
    s = InstallerBase.Install ->
    installDestination (this st) = "" ->
    fst result = Normal (Rejected (ResourceError "NeedInstallDestination"));
  effect_needs_home :
    s = InstallerBase.PostInstall ->
    fst result = Normal Fulfilled ->
    androidHomeValue (this st) <> None
}.

(** What a step of the post-install stage, started in state [st], may
    have done when it returns [result]: it leaves the installer alone and
    the archive closed, and without the home directory it throws at once. *)
Definition PostInstallEffect (st : State) (result : Completion Promise * State)
  : Prop :=
  this (snd result) = this st
  /\ (exists added,
        log (snd result) = log st ++ added
        /\ forallb isPostInstallCall added = true)
  /\ (androidHomeValue (this st) = None ->
      result = (Thrown (TypeError "Arguments to path.join must be strings"), st)).

(** The state once stage [s] is marked satisfied. *)
Definition marked (s : InstallerBase.Stage) (st : State) : State :=
  {| this := {| installerInfo := installerInfo (this st);
                softwareVersion := softwareVersion (this st);
                installDestination := installDestination (this st);
                steps := InstallerBase.mark s (steps (this st));
                installerArchive := installerArchive (this st);
                androidHomeValue := androidHomeValue (this st) |};
     log := log st |}.

(** What the engine makes of a stage that throws: a rejection. *)
Definition settled (result : Completion Promise * State)
  : Completion Promise * State :=
  match result with
  | (Thrown e, st) => (Normal (Rejected e), st)
  | other => other
  end.

(** What holds of the two fields of the subclass all along a run that
    started with the flags [flags]: [archive] is the value of
    [installerArchive] and of every archive opened, no child is spawned
    before [androidHomeValue] is set, which only an update-variables stage
    not yet satisfied does, and the download request [request] has been
    issued exactly when [ran] says so. *)
Definition ContextInvariant (archive : option string) (request : Event)
  (ran : bool) (flags : StepFlags) (st : State) : Prop :=
  installerArchive (this st) = archive
  /\ (forall a, In (E_admZip a) (log st) -> a = archive)
  /\ (forall c a o, In (E_spawn c a o) (log st) ->
        androidHomeValue (this st) <> None)
  /\ (androidHomeValue (this st) <> None -> variablesSet flags = false)
  /\ (variablesSet flags = true -> variablesSet (steps (this st)) = true)
  /\ (forall ev, isDownload ev = true -> In ev (log st) -> ran = true)
  /\ (ran = true -> In request (log st)).

(** A Darwin host whose working directory has a newline in its name. *)
Definition newlineHost : Host := {|
  os_platform := "darwin";
  process_env := Sample.env;
  process_cwd := "/Users/dev/my" +++ Js.LF +++ "project";
  installerCache := "/Users/dev/.taco_home/third-party-installers";
  path_win32 := Posix.path
|}.

(** An installer just constructed for [version], whose source ends in a
    slash. *)
Definition fromGoogle (version : string) : State := {|
  this := {| installerInfo :=
               {| installSource :=
                    "https://dl.google.com/android/android-sdk_r24.3.4-macosx.zip/";
                  sha1 := "128f10fba668ea490cc94a08e505a48a608879b9";
                  bytes := 98340900 |};
             softwareVersion := version;
             installDestination := "/opt/sdk";
             steps := Sample.noneDone;
             installerArchive := None;
             androidHomeValue := None |};
  log := []
|}.

(** [n] slashes. *)
Fixpoint slashes (n : nat) : string :=
  match n with
  | O => ""
  | S k => String "/" (slashes k)
  end.

(** What goes to the standard input of the package manager while it
    delivers [events], [ended] telling whether the input has been ended
    before: the first chunk that shows the prompt is answered and the
    input ended, every later one gets a write and nothing more. *)
Fixpoint answers (eol : string) (ended : bool) (events : list ChildEvent)
  : list Event :=
  match events with
  | [] => []
  | ev :: rest =>
      if showsPrompt ev then
        if ended
        then E_stdin_write ("y" +++ eol) :: answers eol true rest
        else E_stdin_write ("y" +++ eol) :: E_stdin_end :: answers eol true rest
      else answers eol ended rest
  end.

(** The first event of a child that settles a promise waiting for its
    ['error'] or ['exit']. *)
Fixpoint firstSettling (events : list ChildEvent) : option ChildEvent :=
  match events with
  | [] => None
  | ev :: rest => if isOutput ev then firstSettling rest else Some ev
  end.

(* ===================================================================== *)
(** ** Further predicates *)
(* ===================================================================== *)

(** The chunks a child delivers before its first ['error'] or ['exit']. *)
Fixpoint outputBefore (events : list ChildEvent) : list ChildEvent :=
  match events with
  | [] => []
  | ev :: rest => if isOutput ev then ev :: outputBefore rest else []
  end.

(** A host whose environment is empty: no [HOME], no [SUDO_UID]. *)
Definition bareHost : Host := {|
  os_platform := "darwin";
  process_env := fun _ => None;
  process_cwd := "/";
  installerCache := "/cache";
  path_win32 := Posix.path
|}.

(** The paths the loop of [installDarwin] may probe: each segment joined
    to the path built so far. *)
Fixpoint joinedPrefixes (pm : PathModule) (pathSegments : list string)
  (pathSoFar : string) : list string :=
  match pathSegments with
  | [] => []
  | dir :: rest =>
      let pathSoFar' := path_join pm [pathSoFar; dir] in
      pathSoFar' :: joinedPrefixes pm rest pathSoFar'
  end.

(** Probed one after the other, starting after [history], the [paths]
    are all found. *)
Fixpoint allExist (w : World) (history : list Event) (paths : list string)
  : Prop :=
  match paths with
  | [] => True
  | p :: rest =>
      existsSync w history p = true
      /\ allExist w (history ++ [E_existsSync p]) rest
  end.

(** A recursive change of owner. *)
Definition isOwnershipReset (ev : Event) : bool :=
  match ev with
  | E_chownSyncRecursive _ _ _ => true
  | _ => false
  end.

(** The completion is a promise that is fulfilled. *)
Definition isFulfilled (c : Completion Promise) : bool :=
  match c with
  | Normal Fulfilled => true
  | _ => false
  end.

(** Whatever the state, the method [m] only appends to the log, and only
    calls that satisfy [allowed]. *)
Definition Adds {A : Type} (allowed : Event -> bool) (m : M A) : Prop :=
  forall st,
    exists added,
      log (snd (m st)) = log st ++ added /\ forallb allowed added = true.

(** Telemetry marks a property as personal exactly when it is the text
    captured from a child, recorded under [error.message]. *)
Definition marksTextOnly (ev : Event) : bool :=
  match ev with
  | E_telemetry_add key _ isPii => Bool.eqb isPii (key =? "error.message")%string
  | _ => true
  end.

(** A list without repetition, decided. *)
Fixpoint distinct (names : list string) : bool :=
  match names with
  | [] => true
  | name :: rest =>
      negb (existsb (String.eqb name) rest) && distinct rest
  end.

(* ===================================================================== *)
(** ** enum TacoErrorCode *)
(* ===================================================================== *)

Module TacoErrorCode.

(** The members, in the order of the declaration. *)
Definition members : list string :=
  [ "CommandBuildInvalidPlatformLocation";
    "CommandBuildTacoSettingsNotFound";
    "CommandCreateNotBothCliAndKit";
    "CommandCreateNotBothTemplateAndCli";
    "CommandCreateNotTemplateIfCustomWww";
    "CommandCreateOnlyLocalCustomWww";
    "CommandCreateTacoJsonFileCreationError";
    "CommandCreateTacoJsonFileWriteError";
    "CommandCreateTemplatesUnavailable";
    "CommandNotBothDeviceEmulate";
    "CommandNotBothLocalRemote";
    "CommandRemotePlatformNotKnown";
    "CommandSetupCantFindRemoteMount";
    "CommandSetupConnectionRefused";
    "CommandSetupNotfound";
    "CommandSetupRemoteInvalidPin";
    "CommandSetupRemoteInvalidPort";
    "CommandSetupRemoteRejectedPin";
    "CommandSetupTimedout";
    "CordovaCommandFailed";
    "CordovaCommandFailedWithError";
    "ErrorDownloadingRemoteBuild";
    "ErrorHttpGet";
    "ErrorUploadingRemoteBuild";
    "FailedCertificateLoad";
    "FailedCertificatePathChmod";
    "FailedCertificateSave";
    "FailedCertificateSaveWithErrorCode";
    "FailedPatchCreation";
    "FailedUploadingRemoteBuild";
    "GetCertificateFailed";
    "HttpGetFailed";
    "InvalidBuildSubmission400";
    "InvalidRemoteBuild";
    "InvalidRemoteBuildClientCert";
    "InvalidRemoteBuildUrl";
    "NoCertificateFound";
    "NoRemoteBuildIdFound";
    "RemoteBuildError";
    "RemoteBuildHostNotFound";
    "RemoteBuildNoConnection";
    "RemoteBuildNonSslConnectionReset";
    "RemoteBuildSslConnectionReset";
    "RemoteBuildStatusPollFailed";
    "RemoteBuildUnsuccessful";
    "UnsupportedPlatform" ].

(** A numeric enum without initializers: each member is given the next
    number, the first one [next]. *)
Fixpoint number (names : list string) (next : Z) : list (string * Z) :=
  match names with
  | [] => []
  | name :: rest => (name, next) :: number rest (next + 1)
  end.

Definition table : list (string * Z) := number members 0.

(** [TacoErrorCode[name]], the number of a member; [None] is
    [undefined]. *)
Definition valueOf (name : string) : option Z :=
  option_map snd (find (fun entry => (fst entry =? name)%string) table).

(** [TacoErrorCode[code]], the reverse mapping of the enum object. *)
Definition nameOf (code : Z) : option string :=
  option_map fst (find (fun entry => (snd entry =? code)%Z) table).

End TacoErrorCode.

(* ===================================================================== *)
(** ** Facts about strings and splitting *)
(* ===================================================================== *)

Section StringFacts.

Lemma append_empty_r (s : string) : s +++ "" = s.
Proof. induction s as [|c s IH]; simpl; [reflexivity | now rewrite IH]. Qed.

Lemma append_assoc (a b c : string) : (a +++ b) +++ c = a +++ b +++ c.
Proof. induction a as [|x a IH]; simpl; [reflexivity | now rewrite IH]. Qed.

Lemma append_eq_empty (a b : string) : a +++ b = "" -> a = "" /\ b = "".
Proof. destruct a; simpl; [auto | discriminate]. Qed.

Lemma truthy_true (s : string) : Js.truthy s = true <-> s <> "".
Proof.
  unfold Js.truthy. rewrite negb_true_iff. apply String.eqb_neq.
Qed.

Lemma truthy_false (s : string) : Js.truthy s = false <-> s = "".
Proof.
  unfold Js.truthy. rewrite negb_false_iff. apply String.eqb_eq.
Qed.

Lemma prefix_empty (s : string) : String.prefix "" s = true.
Proof. destruct s; reflexivity. Qed.

Lemma prefix_char (c d : ascii) (s : string) :
  String.prefix (String c "") (String d s) = Ascii.eqb c d.
Proof.
  simpl. destruct (ascii_dec c d) as [->|n].
  - now rewrite prefix_empty, Ascii.eqb_refl.
  - symmetry. now apply Ascii.eqb_neq.
Qed.

Lemma includes_cons (pat : string) (c : ascii) (s : string) :
  Js.includes pat (String c s) = String.prefix pat (String c s) || Js.includes pat s.
Proof. reflexivity. Qed.

Lemma includes_char_cons (c d : ascii) (s : string) :
  Js.includes (String c "") (String d s)
  = Ascii.eqb c d || Js.includes (String c "") s.
Proof. now rewrite includes_cons, prefix_char. Qed.

Lemma includes_char_empty (c : ascii) : Js.includes (String c "") "" = false.
Proof. reflexivity. Qed.

(** A character that occurs in neither of two strings does not occur in
    their concatenation. *)
Lemma includes_char_append (c : ascii) (a b : string) :
  Js.includes (String c "") (a +++ b)
  = Js.includes (String c "") a || Js.includes (String c "") b.
Proof.
  induction a as [|x a IH].
  - reflexivity.
  - change (String x a +++ b) with (String x (a +++ b)).
    rewrite !includes_char_cons, IH. now rewrite orb_assoc.
Qed.

Lemma split_from_nonempty (sep : string) (k : nat) (s : string) :
  Js.split_from sep k s <> [].
Proof.
  revert k. induction s as [|c s IH]; intros k; cbn [Js.split_from].
  - discriminate.
  - destruct k as [|k]; [|apply IH].
    destruct (String.prefix sep (String c s)); [discriminate|].
    destruct (Js.split_from sep 0 s); discriminate.
Qed.

(** Splitting a string in which the separator does not occur. *)
Lemma split_from_absent (sep s : string) :
  Js.includes sep s = false -> Js.split_from sep 0 s = [s].
Proof.
  induction s as [|c s IH]; intros H.
  - reflexivity.
  - rewrite includes_cons in H. apply orb_false_iff in H as [Hp Hs].
    cbn [Js.split_from]. rewrite Hp, (IH Hs). reflexivity.
Qed.

Lemma split_absent (sep s : string) :
  sep <> "" -> Js.includes sep s = false -> Js.split sep s = [s].
Proof.
  intros Hsep H. unfold Js.split.
  apply String.eqb_neq in Hsep. rewrite Hsep. now apply split_from_absent.
Qed.

Lemma split_char (c : ascii) (s : string) :
  Js.split (String c "") s = Js.split_from (String c "") 0 s.
Proof. reflexivity. Qed.

Lemma split_from_char_cons (c d : ascii) (s : string) :
  Js.split_from (String c "") 0 (String d s)
  = if Ascii.eqb c d
    then "" :: Js.split_from (String c "") 0 s
    else Js.cons_head d (Js.split_from (String c "") 0 s).
Proof.
  cbn [Js.split_from]. rewrite prefix_char. reflexivity.
Qed.

Lemma cons_head_app (c : ascii) (l1 l2 : list string) :
  l1 <> [] -> Js.cons_head c (l1 ++ l2) = Js.cons_head c l1 ++ l2.
Proof. destruct l1; [congruence | reflexivity]. Qed.

(** Splitting distributes over a separator put between two strings. *)
Lemma split_from_char_append (c : ascii) (a b : string) :
  Js.split_from (String c "") 0 (a +++ String c "" +++ b)
  = Js.split_from (String c "") 0 a ++ Js.split_from (String c "") 0 b.
Proof.
  induction a as [|x a IH].
  - simpl String.append. rewrite split_from_char_cons, Ascii.eqb_refl.
    reflexivity.
  - change (String x a +++ String c "" +++ b)
      with (String x (a +++ String c "" +++ b)).
    rewrite !split_from_char_cons, IH.
    destruct (Ascii.eqb c x); [reflexivity|].
    apply cons_head_app, split_from_nonempty.
Qed.

(** No piece of a split contains the separating character. *)
Lemma split_from_char_pieces (c : ascii) (s : string) :
  Forall (fun p => Js.includes (String c "") p = false)
    (Js.split_from (String c "") 0 s).
Proof.
  induction s as [|x s IH].
  - repeat constructor.
  - rewrite split_from_char_cons.
    destruct (Ascii.eqb c x) eqn:E.
    + constructor; [reflexivity | exact IH].
    + destruct (Js.split_from (String c "") 0 s) as [|p ps] eqn:Es.
      * now apply split_from_nonempty in Es.
      * inversion IH; subst. constructor; [|assumption].
        rewrite includes_char_cons, E. assumption.
Qed.

(** Every character of a piece is a character of the string split. *)
Lemma split_from_char_preserves (c d : ascii) (s : string) :
  Js.includes (String d "") s = false ->
  Forall (fun p => Js.includes (String d "") p = false)
    (Js.split_from (String c "") 0 s).
Proof.
  induction s as [|x s IH]; intros H.
  - repeat constructor.
  - rewrite includes_char_cons in H. apply orb_false_iff in H as [Hx Hs].
    specialize (IH Hs). rewrite split_from_char_cons.
    destruct (Ascii.eqb c x).
    + constructor; [reflexivity | exact IH].
    + destruct (Js.split_from (String c "") 0 s) as [|p ps] eqn:Es.
      * now apply split_from_nonempty in Es.
      * inversion IH; subst. constructor; [|assumption].
        rewrite includes_char_cons, Hx. assumption.
Qed.

Lemma join_cons2 (sep x y : string) (l : list string) :
  Js.join sep (x :: y :: l) = x +++ sep +++ Js.join sep (y :: l).
Proof. reflexivity. Qed.

(** Joining and splitting again gives the pieces back. *)
Lemma split_join (c : ascii) (parts : list string) :
  parts <> [] ->
  Forall (fun p => Js.includes (String c "") p = false) parts ->
  Js.split_from (String c "") 0 (Js.join (String c "") parts) = parts.
Proof.
  induction parts as [|p parts IH]; intros Hne Hall; [congruence|].
  inversion Hall as [|? ? Hp Hrest]; subst.
  destruct parts as [|q parts].
  - simpl. now apply split_from_absent.
  - rewrite join_cons2, split_from_char_append, IH by (assumption || discriminate).
    now rewrite (split_from_absent _ _ Hp).
Qed.

Lemma join_char_preserves (c d : ascii) (parts : list string) :
  Ascii.eqb d c = false ->
  Forall (fun p => Js.includes (String d "") p = false) parts ->
  Js.includes (String d "") (Js.join (String c "") parts) = false.
Proof.
  intros Hdc. induction parts as [|p parts IH]; intros Hall; [reflexivity|].
  inversion Hall as [|? ? Hp Hrest]; subst.
  destruct parts as [|q parts]; [exact Hp|].
  rewrite join_cons2, !includes_char_append, Hp, (IH Hrest).
  rewrite includes_char_cons, Hdc. reflexivity.
Qed.

Lemma join_eq_empty (sep : string) (parts : list string) :
  Forall (fun p => p <> "") parts -> Js.join sep parts = "" -> parts = [].
Proof.
  destruct parts as [|p parts]; [reflexivity|].
  intros Hall H. inversion Hall as [|? ? Hp _]; subst.
  destruct parts as [|q parts].
  - simpl in H. congruence.
  - rewrite join_cons2 in H. apply append_eq_empty in H as [H _]. congruence.
Qed.

Lemma startsWithChar_append (c : ascii) (a b : string) :
  a <> "" -> Js.startsWithChar c (a +++ b) = Js.startsWithChar c a.
Proof. destruct a; [congruence | reflexivity]. Qed.

Lemma endsWithChar_cons (c x : ascii) (s : string) :
  s <> "" -> Js.endsWithChar c (String x s) = Js.endsWithChar c s.
Proof. destruct s; [congruence | reflexivity]. Qed.

Lemma endsWithChar_append (c : ascii) (a b : string) :
  b <> "" -> Js.endsWithChar c (a +++ b) = Js.endsWithChar c b.
Proof.
  intros Hb. induction a as [|x a IH]; [reflexivity|].
  change (String x a +++ b) with (String x (a +++ b)).
  rewrite endsWithChar_cons; [exact IH|].
  intros H. apply append_eq_empty in H as [_ H]. congruence.
Qed.

Lemma endsWithChar_absent (c : ascii) (s : string) :
  Js.includes (String c "") s = false -> Js.endsWithChar c s = false.
Proof.
  induction s as [|x s IH]; intros H; [reflexivity|].
  rewrite includes_char_cons in H. apply orb_false_iff in H as [Hx Hs].
  destruct s as [|y s].
  - simpl. now rewrite Ascii.eqb_sym.
  - rewrite endsWithChar_cons by discriminate. now apply IH.
Qed.

Lemma startsWithChar_absent (c : ascii) (s : string) :
  Js.includes (String c "") s = false -> Js.startsWithChar c s = false.
Proof.
  destruct s as [|x s]; intros H; [reflexivity|].
  rewrite includes_char_cons in H. apply orb_false_iff in H as [Hx _].
  simpl. now rewrite Ascii.eqb_sym.
Qed.

End StringFacts.

(* ===================================================================== *)
(** ** Facts about [path.posix] *)
(* ===================================================================== *)

Section PosixFacts.

Lemma isSegment_inv (p : string) :
  isSegment p = true -> p <> "" /\ p <> "." /\ p <> "..".
Proof.
  unfold isSegment. rewrite negb_true_iff, !orb_false_iff.
  intros [[H1 H2] H3]. repeat split; now apply String.eqb_neq.
Qed.

Lemma loop_segment (allow : bool) (res rest : list string) (p : string) :
  isSegment p = true ->
  Posix.normalizeArray_loop allow res (p :: rest)
  = Posix.normalizeArray_loop allow (p :: res) rest.
Proof.
  intros H. unfold isSegment in H.
  rewrite negb_true_iff, !orb_false_iff in H. destruct H as [[H1 H2] H3].
  cbn [Posix.normalizeArray_loop]. now rewrite H1, H2, H3.
Qed.

(** Segments proper are pushed one after the other. *)
Lemma loop_segments (allow : bool) (cl res : list string) :
  Forall (fun p => isSegment p = true) cl ->
  Posix.normalizeArray_loop allow res cl = rev res ++ cl.
Proof.
  revert res. induction cl as [|p cl IH]; intros res H.
  - simpl. now rewrite app_nil_r.
  - inversion H as [|? ? Hp Hcl]; subst.
    rewrite loop_segment, IH by assumption.
    simpl. now rewrite <- app_assoc.
Qed.

(** So are the ".." that lead a relative path. *)
Lemma loop_ups (k : nat) (j : nat) (rest : list string) :
  Posix.normalizeArray_loop true (repeat ".." j) (repeat ".." k ++ rest)
  = Posix.normalizeArray_loop true (repeat ".." (k + j)) rest.
Proof.
  revert j. induction k as [|k IH]; intros j; [reflexivity|].
  cbn [repeat app Posix.normalizeArray_loop].
  change (("..":string) =? "")%string with false.
  change (("..":string) =? ".")%string with false.
  change (("..":string) =? "..")%string with true.
  cbn [orb].
  replace (S k + j)%nat with (k + S j)%nat by lia.
  destruct j as [|j]; cbn [repeat]; [apply (IH 1%nat)|].
  change (("..":string) =? "..")%string with true. cbn [negb].
  apply (IH (S (S j))).
Qed.

(** The shape of what [normalizeArray] returns: some "..", none unless
    [allowAboveRoot], then segments proper. *)
Lemma loop_shape (allow : bool) (parts : list string) :
  forall (k : nat) (cl : list string),
    Forall (fun p => isSegment p = true) cl ->
    (allow = false -> k = 0%nat) ->
    exists (k' : nat) (cl' : list string),
      Posix.normalizeArray_loop allow (cl ++ repeat ".." k) parts
      = repeat ".." k' ++ cl'
      /\ Forall (fun p => isSegment p = true) cl'
      /\ (allow = false -> k' = 0%nat).
Proof.
  induction parts as [|p parts IH]; intros k cl Hcl Hk.
  - exists k, (rev cl). cbn [Posix.normalizeArray_loop].
    rewrite rev_app_distr, rev_repeat. auto using Forall_rev.
  - cbn [Posix.normalizeArray_loop].
    destruct ((p =? "") || (p =? "."))%string eqn:E1; [now apply IH|].
    destruct (p =? "..")%string eqn:E2.
    + destruct cl as [|c cl].
      * destruct k as [|k]; cbn [app repeat].
        -- destruct allow.
           ++ apply (IH 1%nat []); [constructor | discriminate].
           ++ apply (IH 0%nat []); [constructor | auto].
        -- change (("..":string) =? "..")%string with true. cbn [negb].
           destruct allow.
           ++ apply (IH (S (S k)) []); [constructor | discriminate].
           ++ specialize (Hk eq_refl). discriminate.
      * inversion Hcl as [|? ? Hc Hcl']; subst.
        cbn [app]. apply isSegment_inv in Hc as (_ & _ & Hc).
        apply String.eqb_neq in Hc. rewrite Hc. cbn [negb].
        now apply IH.
    + apply (IH k (p :: cl)); [|assumption].
      constructor; [|assumption].
      unfold isSegment. apply orb_false_iff in E1 as [-> ->].
      now rewrite E2.
Qed.

(** [normalizeArray] leaves a list of that shape as it is. *)
Lemma normalizeArray_fixed (allow : bool) (k : nat) (cl : list string) :
  Forall (fun p => isSegment p = true) cl ->
  (allow = false -> k = 0%nat) ->
  Posix.normalizeArray (repeat ".." k ++ cl) allow = repeat ".." k ++ cl.
Proof.
  intros Hcl Hk. unfold Posix.normalizeArray. destruct allow.
  - change (@nil string) with (repeat (".." : string) 0) at 1.
    rewrite (loop_ups k 0 cl), loop_segments by assumption.
    rewrite rev_repeat. now replace (k + 0)%nat with k by lia.
  - rewrite (Hk eq_refl). cbn [repeat app]. now rewrite loop_segments.
Qed.

Lemma normalizeArray_idempotent (parts : list string) (allow : bool) :
  Posix.normalizeArray (Posix.normalizeArray parts allow) allow
  = Posix.normalizeArray parts allow.
Proof.
  destruct (loop_shape allow parts 0 []) as (k & cl & E & Hcl & Hk);
    [constructor | auto |].
  cbn [app repeat] in E.
  unfold Posix.normalizeArray at 2 3. rewrite E.
  now apply normalizeArray_fixed.
Qed.

(** Whatever holds of ".." and of every part given holds of every part
    returned. *)
Lemma loop_Forall (P : string -> Prop) (allow : bool) (parts : list string) :
  P ".." ->
  forall res, Forall P res -> Forall P parts ->
    Forall P (Posix.normalizeArray_loop allow res parts).
Proof.
  intros Hup. induction parts as [|p parts IH]; intros res Hres Hparts.
  - now apply Forall_rev.
  - inversion Hparts as [|? ? Hp Hrest]; subst.
    cbn [Posix.normalizeArray_loop].
    destruct ((p =? "") || (p =? "."))%string; [now apply IH|].
    destruct (p =? "..")%string.
    + destruct res as [|last res'].
      * destruct allow; apply IH; auto.
      * inversion Hres; subst.
        destruct (negb (last =? "..")%string); [now apply IH|].
        destruct allow; apply IH; auto.
    + apply IH; auto.
Qed.

Lemma normalizeArray_Forall (P : string -> Prop) (allow : bool)
  (parts : list string) :
  P ".." -> Forall P parts -> Forall P (Posix.normalizeArray parts allow).
Proof. intros Hup H. now apply loop_Forall. Qed.

Lemma shape_nonempty (k : nat) (cl : list string) :
  Forall (fun p => isSegment p = true) cl ->
  Forall (fun p => p <> "") (repeat ".." k ++ cl).
Proof.
  intros H. apply Forall_app. split.
  - apply Forall_forall. intros x Hx. apply repeat_spec in Hx. now subst.
  - eapply Forall_impl; [|exact H]. intros p Hp. now apply isSegment_inv in Hp.
Qed.

Lemma join_ends (parts : list string) :
  parts <> [] ->
  Forall (fun p => p <> "") parts ->
  Forall (fun p => Js.includes "/" p = false) parts ->
  Js.endsWithChar "/" (Js.join "/" parts) = false.
Proof.
  induction parts as [|p parts IH]; intros Hne Hn Hs; [congruence|].
  inversion Hn as [|? ? Hp Hn']; inversion Hs as [|? ? Hps Hs']; subst.
  destruct parts as [|q parts].
  - now apply endsWithChar_absent.
  - rewrite join_cons2.
    assert (Hj : Js.join "/" (q :: parts) <> "").
    { intros E. apply join_eq_empty in E; [discriminate | assumption]. }
    rewrite endsWithChar_append.
    + rewrite endsWithChar_append by assumption. apply IH; auto; discriminate.
    + intros E. apply append_eq_empty in E as [E _]. discriminate.
Qed.

Lemma join_starts (parts : list string) :
  Forall (fun p => p <> "") parts ->
  Forall (fun p => Js.includes "/" p = false) parts ->
  Js.startsWithChar "/" (Js.join "/" parts) = false.
Proof.
  destruct parts as [|p parts]; intros Hn Hs; [reflexivity|].
  inversion Hn as [|? ? Hp Hn']; inversion Hs as [|? ? Hps Hs']; subst.
  destruct parts as [|q parts].
  - now apply startsWithChar_absent.
  - rewrite join_cons2, startsWithChar_append by assumption.
    now apply startsWithChar_absent.
Qed.

Lemma normalizeArray_skip_empty (parts : list string) (allow : bool) :
  Posix.normalizeArray ("" :: parts) allow = Posix.normalizeArray parts allow.
Proof. reflexivity. Qed.

(** A path put together from normalized parts is one [normalize] keeps. *)
Lemma normalize_of_parts (isAbs : bool) (k : nat) (cl : list string) :
  let parts := repeat ".." k ++ cl in
  let r0 := (if isAbs then "/" else "") +++ Js.join "/" parts in
  Forall (fun p => isSegment p = true) cl ->
  (negb isAbs = false -> k = 0%nat) ->
  Forall (fun p => Js.includes "/" p = false) parts ->
  Posix.normalize (if Js.truthy r0 then r0 else ".")
  = (if Js.truthy r0 then r0 else ".").
Proof.
  intros parts r0 Hcl Hk Hs.
  pose proof (shape_nonempty k cl Hcl) as Hn. fold parts in Hn.
  pose proof (normalizeArray_fixed (negb isAbs) k cl Hcl Hk) as Hfix.
  fold parts in Hfix.
  destruct parts as [|p ps] eqn:Eparts.
  { destruct isAbs; reflexivity. }
  assert (Hne : p :: ps <> []) by discriminate.
  assert (Hbody : Js.join "/" (p :: ps) <> "").
  { intros E. apply join_eq_empty in E; [discriminate | assumption]. }
  assert (Hsplit : Js.split "/" (Js.join "/" (p :: ps)) = p :: ps).
  { rewrite split_char. now apply split_join. }
  pose proof (join_ends _ Hne Hn Hs) as Hend.
  pose proof (join_starts _ Hn Hs) as Hstart.
  apply truthy_true in Hbody as Htruthy.
  destruct isAbs; subst r0; cbn [negb] in *.
  - change ("/" +++ Js.join "/" (p :: ps))
      with (String "/" (Js.join "/" (p :: ps))).
    change (Js.truthy (String "/" (Js.join "/" (p :: ps)))) with true.
    cbv iota. unfold Posix.normalize.
    change (Posix.isAbsolute (String "/" (Js.join "/" (p :: ps)))) with true.
    cbn [negb]. rewrite endsWithChar_cons by assumption. rewrite Hend.
    rewrite split_char, split_from_char_cons. cbn [Ascii.eqb Bool.eqb].
    rewrite <- split_char, Hsplit.
    rewrite normalizeArray_skip_empty, Hfix, Htruthy.
    cbn [negb andb]. rewrite andb_false_r. reflexivity.
  - cbn [String.append]. rewrite Htruthy. unfold Posix.normalize.
    unfold Posix.isAbsolute. rewrite Hstart, Hend. cbn [negb].
    rewrite Hsplit, Hfix, Htruthy. cbn [negb andb].
    rewrite andb_false_r. reflexivity.
Qed.

Lemma resolve_unfold (cwd : string) (args : list string) :
  exists (isAbs : bool) (k : nat) (cl : list string),
    Forall (fun p => isSegment p = true) cl
    /\ (negb isAbs = false -> k = 0%nat)
    /\ Forall (fun p => Js.includes "/" p = false) (repeat ".." k ++ cl)
    /\ Posix.resolve cwd args
       = (let r0 := (if isAbs then "/" else "")
                    +++ Js.join "/" (repeat ".." k ++ cl) in
          if Js.truthy r0 then r0 else ".").
Proof.
  unfold Posix.resolve.
  destruct (Posix.resolve_loop cwd (rev args) "") as [rp isAbs].
  destruct (loop_shape (negb isAbs) (Js.split "/" rp) 0 [])
    as (k & cl & E & Hcl & Hk); [constructor | auto |].
  cbn [app repeat] in E.
  exists isAbs, k, cl. repeat split; try assumption.
  - rewrite <- E. apply loop_Forall; [reflexivity | constructor |].
    rewrite split_char. apply split_from_char_pieces.
  - unfold Posix.normalizeArray. now rewrite E.
Qed.

(** [path.resolve] returns a normalized path. *)
Lemma normalize_resolve (cwd : string) (args : list string) :
  Posix.normalize (Posix.resolve cwd args) = Posix.resolve cwd args.
Proof.
  destruct (resolve_unfold cwd args) as (isAbs & k & cl & Hcl & Hk & Hs & ->).
  now apply normalize_of_parts.
Qed.

Lemma resolve_nonempty (cwd : string) (args : list string) :
  Posix.resolve cwd args <> "".
Proof.
  unfold Posix.resolve.
  destruct (Posix.resolve_loop cwd (rev args) "") as [rp isAbs].
  match goal with |- (if Js.truthy ?r then _ else _) <> _ =>
    destruct (Js.truthy r) eqn:E end.
  - now apply truthy_true.
  - discriminate.
Qed.

(** Joining the empty path with a resolved path gives the resolved path. *)
Lemma join_empty_resolve (cwd : string) (args : list string) :
  Posix.join [""; Posix.resolve cwd args] = Posix.resolve cwd args.
Proof.
  unfold Posix.join. cbn [Posix.join_loop].
  change (Js.truthy "") with false. cbn [negb].
  pose proof (resolve_nonempty cwd args) as H. apply truthy_true in H.
  rewrite H. cbn [String.append]. apply normalize_resolve.
Qed.

Lemma isName_inv (p : string) :
  isName p = true -> isSegment p = true /\ Js.includes "/" p = false.
Proof.
  unfold isName, lacks. rewrite andb_true_iff, negb_true_iff. auto.
Qed.

Lemma join_app (sep : string) (l1 l2 : list string) :
  l1 <> [] -> l2 <> [] ->
  Js.join sep (l1 ++ l2) = Js.join sep l1 +++ sep +++ Js.join sep l2.
Proof.
  intros H1 H2. induction l1 as [|x l1 IH]; [congruence|].
  destruct l1 as [|y l1].
  - destruct l2; [congruence | reflexivity].
  - change ((x :: y :: l1) ++ l2) with (x :: (y :: l1) ++ l2).
    cbn [app]. rewrite !join_cons2.
    change (y :: l1 ++ l2) with ((y :: l1) ++ l2).
    rewrite IH by discriminate. now rewrite !append_assoc.
Qed.

(** The loop of [join] on names: all of them are glued on. *)
Lemma join_loop_names (segs : list string) :
  Forall (fun p => isName p = true) segs ->
  forall acc, acc <> "" -> segs <> [] ->
    Posix.join_loop acc segs = acc +++ "/" +++ Js.join "/" segs.
Proof.
  induction segs as [|p segs IH]; intros Hall acc Hacc Hne; [congruence|].
  inversion Hall as [|? ? Hp Hrest]; subst.
  apply isName_inv in Hp as [Hseg _]. apply isSegment_inv in Hseg as [Hp _].
  cbn [Posix.join_loop].
  apply truthy_true in Hp as ->. apply truthy_true in Hacc as Ht. rewrite Ht.
  cbn [negb]. destruct segs as [|q segs]; [reflexivity|].
  rewrite IH; [| assumption | | discriminate].
  - now rewrite join_cons2, !append_assoc.
  - intros E. apply append_eq_empty in E as [E _]. congruence.
Qed.

(** Trailing segments proper go through [normalizeArray] untouched. *)
Lemma loop_app_segments (allow : bool) (l1 l2 : list string) :
  Forall (fun p => isSegment p = true) l2 ->
  forall res,
    Posix.normalizeArray_loop allow res (l1 ++ l2)
    = Posix.normalizeArray_loop allow res l1 ++ l2.
Proof.
  intros H2. induction l1 as [|p l1 IH]; intros res.
  - cbn [app Posix.normalizeArray_loop]. now apply loop_segments.
  - cbn [app Posix.normalizeArray_loop].
    destruct ((p =? "") || (p =? "."))%string; [apply IH|].
    destruct (p =? "..")%string; [|apply IH].
    destruct res as [|last res']; [destruct allow; apply IH|].
    destruct (negb (last =? "..")%string); [apply IH|].
    destruct allow; apply IH.
Qed.

(** Names appended to a directory path in normal form: [join] glues them
    on with slashes and changes nothing else. *)
Lemma join_directory_names (root : string) (segs : list string) :
  isDirectoryPath root = true ->
  Forall (fun p => isName p = true) segs ->
  segs <> [] ->
  Posix.join (root :: segs) = root +++ "/" +++ Js.join "/" segs.
Proof.
  unfold isDirectoryPath. rewrite !andb_true_iff, !negb_true_iff.
  intros [[Hnorm Hend] Hdot] Hsegs Hne.
  apply String.eqb_eq in Hnorm. apply String.eqb_neq in Hdot.
  assert (Hroot : root <> "").
  { intros ->. now vm_compute in Hnorm. }
  assert (Hseg : Forall (fun p => isSegment p = true) segs).
  { eapply Forall_impl; [|exact Hsegs]. intros p Hp. now apply isName_inv in Hp. }
  assert (Hslash : Forall (fun p => Js.includes "/" p = false) segs).
  { eapply Forall_impl; [|exact Hsegs]. intros p Hp. now apply isName_inv in Hp. }
  assert (Hnonempty : Forall (fun p => p <> "") segs).
  { eapply Forall_impl; [|exact Hseg]. intros p Hp. now apply isSegment_inv in Hp. }
  assert (Hbody : Js.join "/" segs <> "").
  { intros E. now apply join_eq_empty in E. }
  unfold Posix.join. cbn [Posix.join_loop].
  apply truthy_true in Hroot as Ht. rewrite Ht.
  change (Js.truthy "") with false. cbn [negb String.append].
  rewrite join_loop_names by assumption.
  (* the path joined, normalized *)
  unfold Posix.normalize at 1.
  unfold Posix.isAbsolute. rewrite startsWithChar_append by assumption.
  rewrite endsWithChar_append
    by (intros E; apply append_eq_empty in E as [E _]; discriminate).
  change ("/" +++ Js.join "/" segs) with (String "/" (Js.join "/" segs)).
  rewrite endsWithChar_cons, join_ends by assumption.
  change (String "/" (Js.join "/" segs)) with ("/" +++ Js.join "/" segs).
  rewrite split_char, split_from_char_append, split_join by assumption.
  unfold Posix.normalizeArray. rewrite loop_app_segments by assumption.
  (* the root, normalized *)
  unfold Posix.normalize, Posix.isAbsolute in Hnorm. rewrite Hend in Hnorm.
  rewrite andb_false_r in Hnorm. rewrite split_char in Hnorm.
  unfold Posix.normalizeArray in Hnorm.
  destruct (loop_shape (negb (Js.startsWithChar "/" root))
              (Js.split_from "/" 0 root) 0 [])
    as (k & cl & E & Hcl & Hk); [constructor | auto |].
  cbn [app repeat] in E. rewrite E in *.
  pose proof (shape_nonempty k cl Hcl) as Hx.
  destruct (repeat ".." k ++ cl) as [|x xs] eqn:Ex.
  - (* nothing left of the root: it is "/" or "." *)
    cbn [Js.join String.concat] in Hnorm. change (Js.truthy "") with false in Hnorm.
    destruct (Js.startsWithChar "/" root); cbn [negb andb] in Hnorm.
    + rewrite <- Hnorm in Hend. discriminate.
    + now rewrite <- Hnorm in Hdot.
  - assert (Hjx : Js.join "/" (x :: xs) <> "").
    { intros E'. now apply join_eq_empty in E'. }
    apply truthy_true in Hjx as Htx. rewrite Htx in Hnorm.
    cbn [negb andb] in Hnorm.
    rewrite join_app by (assumption || discriminate).
    assert (Hlong : Js.truthy (Js.join "/" (x :: xs) +++ "/" +++ Js.join "/" segs)
                    = true).
    { apply truthy_true. intros E'. apply append_eq_empty in E' as [E' _].
      congruence. }
    rewrite Hlong, andb_false_r. cbn [negb andb].
    set (pre := if Js.startsWithChar "/" root then "/" else "") in *.
    rewrite <- Hnorm. now rewrite !append_assoc.
Qed.

Lemma basename_lacks_slash (p : string) :
  Js.includes "/" (Posix.basename p) = false.
Proof.
  unfold Posix.basename. rewrite split_char.
  pose proof (split_from_char_pieces "/" (Posix.dropTrailingSlashes p)) as H.
  destruct (exists_last (split_from_nonempty "/" 0 (Posix.dropTrailingSlashes p)))
    as (l' & a & El).
  rewrite El in *. rewrite last_last.
  apply Forall_app in H as [_ H]. now inversion H.
Qed.

Lemma resolve_loop_absent (c : ascii) (cwd : string) (rargs : list string) :
  Ascii.eqb c "/" = false ->
  Js.includes (String c "") cwd = false ->
  Forall (fun a => Js.includes (String c "") a = false) rargs ->
  forall acc, Js.includes (String c "") acc = false ->
    Js.includes (String c "") (fst (Posix.resolve_loop cwd rargs acc)) = false.
Proof.
  intros Hc Hcwd. induction rargs as [|a rargs IH]; intros Hall acc Hacc.
  - cbn [Posix.resolve_loop]. destruct (Js.truthy cwd); [|exact Hacc].
    cbn [fst]. rewrite !includes_char_append, Hcwd, Hacc.
    rewrite includes_char_cons, Hc. reflexivity.
  - inversion Hall as [|? ? Ha Hr]; subst. cbn [Posix.resolve_loop].
    assert (Hrp : Js.includes (String c "") (a +++ "/" +++ acc) = false).
    { rewrite !includes_char_append, Ha, Hacc.
      rewrite includes_char_cons, Hc. reflexivity. }
    destruct (Js.truthy a); [|now apply IH].
    destruct (Posix.isAbsolute a); [exact Hrp | now apply IH].
Qed.

(** A character other than the slash and the dot that occurs neither in
    the working directory nor in the arguments does not occur in the
    resolved path. *)
Lemma resolve_lacks (c : ascii) (cwd : string) (args : list string) :
  Ascii.eqb c "/" = false ->
  Ascii.eqb c "." = false ->
  lacks c cwd = true ->
  Forall (fun a => lacks c a = true) args ->
  lacks c (Posix.resolve cwd args) = true.
Proof.
  unfold lacks. intros Hslash Hdot Hcwd Hargs.
  apply negb_true_iff in Hcwd. apply negb_true_iff.
  assert (Hrargs : Forall (fun a => Js.includes (String c "") a = false) (rev args)).
  { apply Forall_rev. eapply Forall_impl; [|exact Hargs].
    intros a Ha. now apply negb_true_iff in Ha. }
  pose proof (resolve_loop_absent c cwd (rev args) Hslash Hcwd Hrargs ""
                eq_refl) as Hloop.
  unfold Posix.resolve.
  destruct (Posix.resolve_loop cwd (rev args) "") as [rp isAbs].
  cbn [fst] in Hloop.
  assert (Hbody : Js.includes (String c "")
            (Js.join "/" (Posix.normalizeArray (Js.split "/" rp) (negb isAbs)))
          = false).
  { apply join_char_preserves; [exact Hslash|].
    apply normalizeArray_Forall.
    - rewrite !includes_char_cons, Hdot. reflexivity.
    - rewrite split_char. now apply split_from_char_preserves. }
  match goal with |- Js.includes _ (if Js.truthy ?r then _ else _) = _ =>
    destruct (Js.truthy r) end.
  - rewrite includes_char_append, Hbody.
    destruct isAbs; [|reflexivity].
    rewrite includes_char_cons, Hslash. reflexivity.
  - rewrite includes_char_cons, Hdot. reflexivity.
Qed.

End PosixFacts.

(* ===================================================================== *)
(** ** The install stage on Darwin *)
(* ===================================================================== *)

(** [then], case by case. *)
Lemma then_unfold (p callback : M Promise) (st : State) :
  then_ p callback st
  = match p st with
    | (Normal Fulfilled, st1) =>
        match callback st1 with
        | (Normal q, st2) => (Normal q, st2)
        | (Thrown e, st2) => (Normal (Rejected e), st2)
        end
    | other => other
    end.
Proof.
  unfold then_, bind, ret. destruct (p st) as [[[|e|]|e] st1]; reflexivity.
Qed.

Section InstallDarwin.

Variable h : Host.
Variable w : World.

Lemma not_win32_path :
  (os_platform h =? "win32")%string = false -> path h = Posix.path.
Proof. intros H. unfold path. now rewrite H. Qed.

Lemma not_win32_EOL :
  (os_platform h =? "win32")%string = false -> os_EOL h = Js.LF.
Proof. intros H. unfold os_EOL. now rewrite H. Qed.

Lemma darwin_not_win32 :
  os_platform h = "darwin" -> (os_platform h =? "win32")%string = false.
Proof. intros ->. reflexivity. Qed.

(** What [installDefault] logs: calls that open the archive, probe or
    create the destination, extract, or report; the installer object is
    left as it was. *)
Lemma installDefault_effects (st : State) :
  this (snd (AndroidSdkInstaller.installDefault h w st)) = this st
  /\ exists evs,
       log (snd (AndroidSdkInstaller.installDefault h w st)) = log st ++ evs
       /\ Forall (installCall (installerArchive (this st))) evs.
Proof.
  unfold AndroidSdkInstaller.installDefault, bind, get_this, emit, ret,
    AndroidSdkInstaller.call, AndroidSdkInstaller.fs_existsSync.
  cbn [this log fst snd].
  destruct (Js.truthy (installDestination (this st))); cbn [negb this log snd].
  - destruct (throws w (log st) (E_admZip (installerArchive (this st)))).
    { split; [reflexivity|]. eexists. split; [reflexivity|].
      repeat constructor. }
    cbn [this log].
    destruct (existsSync w _ (installDestination (this st))); cbn [negb this log].
    + destruct (throws w _ (E_extractAllTo _)); cbn [this log snd];
        (split; [reflexivity|]); eexists;
        (split; [rewrite <- !app_assoc; reflexivity | repeat constructor]).
    + destruct (throws w _ (E_mkdirSyncRecursive _ _)); cbn [this log snd].
      { split; [reflexivity|]. eexists.
        split; [rewrite <- !app_assoc; reflexivity | repeat constructor]. }
      destruct (throws w _ (E_extractAllTo _)); cbn [this log snd];
        (split; [reflexivity|]); eexists;
        (split; [rewrite <- !app_assoc; reflexivity | repeat constructor]).
  - split; [reflexivity|]. eexists. split; [reflexivity|]. repeat constructor.
Qed.

(** Without a destination [installDefault] reports and rejects; it touches
    neither the archive nor the file system. *)
Lemma installDefault_empty (st : State) :
  installDestination (this st) = "" ->
  AndroidSdkInstaller.installDefault h w st
  = (Normal (Rejected (ResourceError "NeedInstallDestination")),
     {| this := this st;
        log := log st ++ [ E_telemetry_add "error.description"
                             (TString "NeedInstallDestination on installDefault")
                             false ] |}).
Proof.
  intros Hdest. unfold AndroidSdkInstaller.installDefault, bind, get_this.
  rewrite Hdest. reflexivity.
Qed.

(** The loop over the segments only probes. *)
Lemma firstNonExistentDir_effects (segments : list string) :
  forall (pathSoFar : string) (st : State),
  exists found probes,
    AndroidSdkInstaller.firstNonExistentDir h w segments pathSoFar st
    = (Normal found, {| this := this st; log := log st ++ probes |})
    /\ Forall (fun ev => exists p, ev = E_existsSync p) probes.
Proof.
  induction segments as [|dir rest IH]; intros pathSoFar st.
  - exists None, []. rewrite app_nil_r. destruct st. split; [reflexivity|].
    constructor.
  - cbn [AndroidSdkInstaller.firstNonExistentDir].
    unfold bind, AndroidSdkInstaller.fs_existsSync.
    destruct (existsSync w (log st) _); cbn [negb].
    + match goal with
      | |- context [AndroidSdkInstaller.firstNonExistentDir h w rest ?p ?st0] =>
          destruct (IH p st0) as (found & probes & -> & Hprobes)
      end.
      eexists found, _. cbn [this log].
      split; [rewrite <- app_assoc; reflexivity|].
      constructor; [eauto | exact Hprobes].
    + eexists _, _. split; [reflexivity|]. repeat constructor. eauto.
Qed.

(** The loop over the segments, when the resolved destination is the only
    segment. *)
Lemma firstNonExistentDir_single (st : State) (cwd : string) (args : list string) :
  path h = Posix.path ->
  AndroidSdkInstaller.firstNonExistentDir h w [Posix.resolve cwd args] "" st
  = (Normal (if existsSync w (log st) (Posix.resolve cwd args)
             then None else Some (Posix.resolve cwd args)),
     {| this := this st;
        log := log st ++ [E_existsSync (Posix.resolve cwd args)] |}).
Proof.
  intros Hpath. cbn [AndroidSdkInstaller.firstNonExistentDir].
  rewrite Hpath. cbn [path_join Posix.path].
  rewrite join_empty_resolve.
  unfold bind, AndroidSdkInstaller.fs_existsSync, ret.
  destruct (existsSync w (log st) (Posix.resolve cwd args)); reflexivity.
Qed.

End InstallDarwin.

(** C10, as the code has it.  In the Darwin install stage the resolved
    destination, that is the destination resolved against the working
    directory, is split on [os.EOL], not on the path separator: when the
    resolved destination holds no newline it is the only segment, so the first non-existent
    directory is [undefined] when the destination exists and the whole
    resolved destination otherwise; the stage is then [installDefault]
    followed, when the destination did not exist, by one recursive
    ownership reset of the whole resolved destination, and no other path is
    ever handed to [chownSyncRecursive]. *)
Theorem installDarwin_whole_destination (h : Host) (w : World) (st : State) :
  let resolved := Posix.resolve (process_cwd h) [installDestination (this st)] in
  let existed := existsSync w (log st) resolved in
  let probed := {| this := this st; log := log st ++ [E_existsSync resolved] |} in
  os_platform h = "darwin" ->
  lacks "010" resolved = true ->
  Js.split (os_EOL h)
    (path_resolve (path h) (process_cwd h) [installDestination (this st)])
  = [resolved]
  /\ AndroidSdkInstaller.firstNonExistentDir h w [resolved] "" st
     = (Normal (if existed then None else Some resolved), probed)
  /\ AndroidSdkInstaller.installDarwin h w st
     = then_ (AndroidSdkInstaller.installDefault h w)
         (if existed then ret Fulfilled
          else AndroidSdkInstaller.call w
                 (E_chownSyncRecursive resolved
                    (AndroidSdkInstaller.SUDO_UID h)
                    (AndroidSdkInstaller.SUDO_GID h)) ;;
               ret Fulfilled)
         probed
  /\ (forall p u g,
        In (E_chownSyncRecursive p u g)
          (log (snd (AndroidSdkInstaller.installDarwin h w st))) ->
        In (E_chownSyncRecursive p u g) (log st)
        \/ (p = resolved /\ existed = false)).
Proof.
  intros resolved existed probed Hdarwin Hlf.
  pose proof (darwin_not_win32 h Hdarwin) as Hwin.
  pose proof (not_win32_path h Hwin) as Hpath.
  pose proof (not_win32_EOL h Hwin) as Heol.
  assert (Hsplit : Js.split (os_EOL h)
            (path_resolve (path h) (process_cwd h) [installDestination (this st)])
          = [resolved]).
  { rewrite Heol, Hpath. cbn [path_resolve Posix.path]. fold resolved.
    apply split_absent; [discriminate|].
    unfold lacks in Hlf. now apply negb_true_iff in Hlf. }
  pose proof (firstNonExistentDir_single h w st (process_cwd h)
                [installDestination (this st)] Hpath) as Hfirst.
  fold resolved in Hfirst. fold existed in Hfirst. fold probed in Hfirst.
  assert (Hrun : AndroidSdkInstaller.installDarwin h w st
     = then_ (AndroidSdkInstaller.installDefault h w)
         (if existed then ret Fulfilled
          else AndroidSdkInstaller.call w
                 (E_chownSyncRecursive resolved
                    (AndroidSdkInstaller.SUDO_UID h)
                    (AndroidSdkInstaller.SUDO_GID h)) ;;
               ret Fulfilled)
         probed).
  { unfold AndroidSdkInstaller.installDarwin.
    unfold bind at 1. unfold get_this at 1. cbn beta iota.
    rewrite Hsplit. unfold bind at 1. rewrite Hfirst. cbn beta iota.
    destruct existed; [reflexivity|].
    pose proof (resolve_nonempty (process_cwd h) [installDestination (this st)])
      as Hne.
    apply truthy_true in Hne. fold resolved in Hne. now rewrite Hne. }
  split; [exact Hsplit|]. split; [exact Hfirst|]. split; [exact Hrun|].
  intros p u g. rewrite Hrun.
  destruct (installDefault_effects h w probed) as (_ & evs & Hlog & Hevs).
  assert (Hin : forall tail,
    In (E_chownSyncRecursive p u g) ((log probed ++ evs) ++ tail) ->
    In (E_chownSyncRecursive p u g) (log st)
    \/ In (E_chownSyncRecursive p u g) tail).
  { intros tail Hi. apply in_app_or in Hi as [Hi|Hi]; [|now right].
    apply in_app_or in Hi as [Hi|Hi].
    - cbn [log probed] in Hi. apply in_app_or in Hi as [Hi|Hi]; [now left|].
      destruct Hi as [Hi|[]]. discriminate.
    - rewrite Forall_forall in Hevs. now apply Hevs in Hi. }
  unfold then_, bind at 1.
  destruct (AndroidSdkInstaller.installDefault h w probed) as [[q|e] st2] eqn:E;
    cbn [snd] in Hlog.
  - destruct q; cbn [ret snd].
    + destruct existed.
      * cbn [ret snd]. rewrite Hlog. intros Hi.
        destruct (Hin [] ) as [Hi'|[]]; [now rewrite app_nil_r | now left].
      * unfold bind, AndroidSdkInstaller.call, ret.
        destruct (throws w (log st2) _); cbn [snd log]; rewrite Hlog;
          intros Hi; apply Hin in Hi as [Hi|[Hi|[]]]; auto;
          inversion Hi; subst; auto.
    + rewrite Hlog. intros Hi.
      destruct (Hin []) as [Hi'|[]]; [now rewrite app_nil_r | now left].
    + rewrite Hlog. intros Hi.
      destruct (Hin []) as [Hi'|[]]; [now rewrite app_nil_r | now left].
  - cbn [snd]. rewrite Hlog. intros Hi.
    destruct (Hin []) as [Hi'|[]]; [now rewrite app_nil_r | now left].
Qed.

(* ===================================================================== *)
(** ** The download stage *)
(* ===================================================================== *)

(** The download stage, step by step: the path is stored, then the
    download helper is called with it. *)
Lemma downloadDefault_run (h : Host) (w : World) (st : State) :
  AndroidSdkInstaller.downloadDefault h w st
  = let i := this st in
    let archive := cachePath h i in
    let request :=
      E_downloadFile (installSource (installerInfo i)) "GET" archive
        (bytes (installerInfo i)) (sha1 (installerInfo i)) in
    let st1 := {| this := {| installerInfo := installerInfo i;
                             softwareVersion := softwareVersion i;
                             installDestination := installDestination i;
                             steps := steps i;
                             installerArchive := Some archive;
                             androidHomeValue := androidHomeValue i |};
                  log := log st ++ [request] |} in
    match throws w (log st) request with
    | Some e => (Thrown e, st1)
    | None => (Normal (downloadFile w (log st)
                         (installSource (installerInfo i)) archive), st1)
    end.
Proof.
  unfold AndroidSdkInstaller.downloadDefault,
    AndroidSdkInstaller.installerUtils_downloadFile,
    AndroidSdkInstaller.set_installerArchive, AndroidSdkInstaller.call,
    bind, get_this, get_log, set_this, ret.
  cbn [this log].
  destruct (throws w (log st) _); reflexivity.
Qed.

Section Basename.

Lemma dropTrailingSlashes_keep (s : string) :
  Js.endsWithChar "/" s = false -> Posix.dropTrailingSlashes s = s.
Proof.
  induction s as [|c s IH]; [reflexivity|].
  destruct s as [|d s].
  - cbn [Js.endsWithChar Posix.dropTrailingSlashes]. now intros ->.
  - intros Hend. rewrite endsWithChar_cons in Hend by discriminate.
    change (Posix.dropTrailingSlashes (String c (String d s)))
      with (match Posix.dropTrailingSlashes (String d s) with
            | EmptyString => if Ascii.eqb c "/" then EmptyString
                             else String c EmptyString
            | r => String c r
            end).
    now rewrite (IH Hend).
Qed.

Lemma dropTrailingSlashes_slashes (s : string) (n : nat) :
  Posix.dropTrailingSlashes (s +++ slashes n) = Posix.dropTrailingSlashes s.
Proof.
  induction s as [|c s IH].
  - induction n as [|n IHn]; [reflexivity|].
    change ("" +++ slashes (S n)) with (String "/" ("" +++ slashes n)).
    cbn [Posix.dropTrailingSlashes]. now rewrite IHn.
  - change (String c s +++ slashes n) with (String c (s +++ slashes n)).
    cbn [Posix.dropTrailingSlashes]. now rewrite IH.
Qed.

(** The basename of a source that ends in a name, trailing slashes
    aside, is that name. *)
Lemma basename_of_name (dir name : string) (n : nat) :
  isName name = true ->
  Posix.basename (dir +++ "/" +++ name +++ slashes n) = name.
Proof.
  intros Hname. apply isName_inv in Hname as [Hseg Hslash].
  apply isSegment_inv in Hseg as [Hne _].
  unfold Posix.basename.
  rewrite <- (append_assoc "/" name (slashes n)).
  rewrite <- (append_assoc dir ("/" +++ name) (slashes n)).
  rewrite dropTrailingSlashes_slashes.
  rewrite dropTrailingSlashes_keep.
  - rewrite split_char, split_from_char_append.
    rewrite (split_from_absent "/" name Hslash). apply last_last.
  - rewrite endsWithChar_append by discriminate.
    change ("/" +++ name) with (String "/" name).
    rewrite endsWithChar_cons by exact Hne.
    now apply endsWithChar_absent.
Qed.

End Basename.

(** C9, as the code has it.  The download stage stores the archive at
    [path.join(cache root, "androidSdk", platform, version, basename of
    installSource)], and [path.join] normalises what it joins.  On a POSIX
    host, for a cache root that is a directory path in normal form and a
    platform, a version and a basename that are plain segments, this path
    is literally [root/androidSdk/platform/version/basename]: it is
    assigned to [installerArchive] and is the destination of the one
    download request.  The basename of a source that ends in a name,
    trailing slashes aside, is that name.  Any installer with the same
    version and source basename on the same host computes the same
    path. *)
Theorem downloadDefault_cache_path (h : Host) (w : World) (st : State) :
  let i := this st in
  let source := installSource (installerInfo i) in
  let base := path_basename (path h) source in
  let archive :=
    installerCache h +++ "/androidSdk/" +++ os_platform h +++ "/"
    +++ softwareVersion i +++ "/" +++ base in
  let request :=
    E_downloadFile source "GET" archive
      (bytes (installerInfo i)) (sha1 (installerInfo i)) in
  let after := snd (AndroidSdkInstaller.downloadDefault h w st) in
  (os_platform h =? "win32")%string = false ->
  isDirectoryPath (installerCache h) = true ->
  isName (os_platform h) = true ->
  isName (softwareVersion i) = true ->
  isSegment base = true ->
  installerArchive (this after) = Some archive
  /\ log after = log st ++ [request]
  /\ (forall dir name n,
        source = dir +++ "/" +++ name +++ slashes n ->
        isName name = true ->
        base = name)
  /\ (forall (w' : World) (st' : State),
        softwareVersion (this st') = softwareVersion i ->
        path_basename (path h) (installSource (installerInfo (this st'))) = base ->
        installerArchive
          (this (snd (AndroidSdkInstaller.downloadDefault h w' st')))
        = Some archive).
Proof.
  intros i source base archive request after Hwin Hroot Hplat Hver Hbase.
  pose proof (not_win32_path h Hwin) as Hpath.
  assert (Hb : isName base = true).
  { unfold isName, lacks. rewrite Hbase. subst base. rewrite Hpath.
    cbn [path_basename Posix.path]. now rewrite basename_lacks_slash. }
  assert (Hlayout : forall i',
            softwareVersion i' = softwareVersion i ->
            path_basename (path h) (installSource (installerInfo i')) = base ->
            cachePath h i' = archive).
  { intros i' Hv Hbase'. unfold cachePath. rewrite Hv, Hbase'. subst archive.
    revert Hb. generalize base. intros b Hb. rewrite Hpath.
    cbn [path_join Posix.path].
    rewrite join_directory_names; [| assumption | | discriminate].
    - rewrite !join_cons2. reflexivity.
    - repeat constructor; assumption. }
  pose proof (downloadDefault_run h) as Hrun.
  split; [|split; [|split]].
  - subst after. rewrite Hrun. cbv zeta.
    rewrite (Hlayout (this st) eq_refl eq_refl).
    destruct (throws w (log st) _); reflexivity.
  - subst after. rewrite Hrun. cbv zeta.
    rewrite (Hlayout (this st) eq_refl eq_refl).
    destruct (throws w (log st) _); reflexivity.
  - intros dir name n Hsource Hname. subst base. rewrite Hsource, Hpath.
    cbn [path_basename Posix.path]. now apply basename_of_name.
  - intros w' st' Hv Hb'. rewrite Hrun. cbv zeta.
    rewrite (Hlayout (this st') Hv Hb').
    destruct (throws w' (log st') _); reflexivity.
Qed.

(* ===================================================================== *)
(** ** The update-variables stage on Darwin *)
(* ===================================================================== *)

Lemma path_join_js_defined (h : Host) (args : list string) (st : State) :
  AndroidSdkInstaller.path_join_js h (map Some args) st
  = (Normal (path_join (path h) args), st).
Proof.
  unfold AndroidSdkInstaller.path_join_js.
  assert (Hall : forallb (fun a : option string =>
                   match a with Some _ => true | None => false end)
                   (map Some args) = true).
  { induction args as [|a args IH]; [reflexivity | exact IH]. }
  assert (Hflat : flat_map (fun a : option string =>
                    match a with Some s => [s] | None => [] end)
                    (map Some args) = args).
  { induction args as [|a args IH]; [reflexivity|]. cbn [map flat_map app].
    now rewrite IH. }
  now rewrite Hall, Hflat.
Qed.

Lemma path_join_js_undefined (h : Host) (args : list (option string)) (st : State) :
  In None args ->
  AndroidSdkInstaller.path_join_js h args st
  = (Thrown (TypeError "Arguments to path.join must be strings"), st).
Proof.
  intros Hin. unfold AndroidSdkInstaller.path_join_js.
  assert (Hall : forallb (fun a : option string =>
                   match a with Some _ => true | None => false end) args = false).
  { induction args as [|a args IH]; [destruct Hin|].
    destruct Hin as [->|Hin]; [reflexivity|].
    cbn [forallb]. rewrite (IH Hin). apply andb_false_r. }
  now rewrite Hall.
Qed.

(** C7.  The Darwin update-variables stage probes the profile, then issues
    the shell command that appends the export block (the home variable,
    and the path additions written with variable references) to
    [$HOME/.bash_profile]; the ownership of the profile is reset to
    [SUDO_UID]/[SUDO_GID] exactly when the profile did not exist before and
    the command succeeded; when the command fails the stage rejects with
    its error and no ownership change is made.  The reset is made inside
    the callback of the command: when it succeeds the stage resolves, and
    when it throws the promise of the stage is never settled. *)
Theorem updateVariablesDarwin_profile
  (h : Host) (w : World) (st : State) (home : string) :
  let i := this st in
  let androidHome :=
    path_join (path h) [installDestination i; "android-sdk-macosx"] in
  let profile := path_join (path h) [home; ".bash_profile"] in
  let command :=
    "echo '" +++ Js.LF +++ "# Android SDK" +++ Js.LF
    +++ "export ANDROID_HOME=" +++ androidHome +++ Js.LF
    +++ "export PATH=" +++ Js.DQ
    +++ "$PATH:$ANDROID_HOME/tools/:$ANDROID_HOME/platform-tools/" +++ Js.DQ
    +++ "' >> '" +++ profile +++ "'" in
  let existed := existsSync w (log st) profile in
  let probed := log st ++ [E_existsSync profile] in
  let issued := probed ++ [E_exec command] in
  let chown :=
    E_chownSync profile
      (Js.parseInt10 (process_env h "SUDO_UID"))
      (Js.parseInt10 (process_env h "SUDO_GID")) in
  let appended :=
    match throws w probed (E_exec command) with
    | Some _ => false
    | None => match exec w probed command with ExecOk => true | _ => false end
    end in
  let result := AndroidSdkInstaller.updateVariablesDarwin h w st in
  process_env h "HOME" = Some home ->
  androidHomeValue (this (snd result)) = Some androidHome
  /\ (exists tail, log (snd result) = issued ++ tail
        /\ (In chown tail <-> appended = true /\ existed = false)
        /\ (forall p u g, In (E_chownSync p u g) tail ->
              E_chownSync p u g = chown))
  /\ (throws w probed (E_exec command) = None ->
      forall error, exec w probed command = ExecFailed error ->
        fst result = Normal (Rejected error)
        /\ log (snd result)
           = issued ++ [ E_telemetry_add "error.description"
                           (TString "ErrorOnChildProcess on updateVariablesDarwin")
                           false;
                         E_telemetry_addError error ])
  /\ (appended = true ->
      fst result
      = if existed then Normal Fulfilled
        else match throws w issued chown with
             | Some _ => Normal Pending
             | None => Normal Fulfilled
             end).
Proof.
  intros i androidHome profile command existed probed issued chown appended
    result Hhome.
  assert (Hcommand :
    AndroidSdkInstaller.updateCommand androidHome profile = command).
  { unfold AndroidSdkInstaller.updateCommand,
      AndroidSdkInstaller.appendToBashProfile,
      AndroidSdkInstaller.ANDROID_HOME_NAME.
    subst command. repeat rewrite append_assoc. reflexivity. }
  assert (Er : result = AndroidSdkInstaller.updateVariablesDarwin h w st)
    by reflexivity.
  clearbody result.
  unfold AndroidSdkInstaller.updateVariablesDarwin in Er.
  unfold bind at 1 in Er. unfold get_this at 1 in Er. cbn beta iota in Er.
  unfold bind at 1 in Er. rewrite Hhome in Er.
  pose proof (path_join_js_defined h [home; ".bash_profile"] st) as Hjoin.
  cbn [map] in Hjoin. rewrite Hjoin in Er. clear Hjoin.
  cbn beta iota in Er. fold i androidHome profile in Er. rewrite Hcommand in Er.
  unfold AndroidSdkInstaller.fs_existsSync,
    AndroidSdkInstaller.set_androidHomeValue,
    AndroidSdkInstaller.childProcess_exec, AndroidSdkInstaller.call,
    AndroidSdkInstaller.SUDO_UID, AndroidSdkInstaller.SUDO_GID,
    uncaught, bind, get_this, get_log, set_this, emit, ret in Er.
  cbn [this log] in Er. fold existed probed issued chown in Er.
  subst appended.
  destruct (throws w probed (E_exec command)) as [e|] eqn:Ethrow.
  { subst result. cbn [fst snd this log androidHomeValue].
    split; [reflexivity|]. split.
    - exists []. rewrite app_nil_r. split; [reflexivity|].
      split; [|intros ? ? ? []].
      split; [intros [] | intros [Hf _]; discriminate].
    - split; [discriminate | discriminate]. }
  destruct (exec w probed command) as [|error|] eqn:Eexec.
  - destruct existed eqn:Eexisted; cbn [negb] in Er.
    + subst result. cbn [fst snd this log androidHomeValue].
      split; [reflexivity|]. split.
      * exists []. rewrite app_nil_r. split; [reflexivity|].
        split; [|intros ? ? ? []].
        split; [intros [] | intros [_ Hf]; discriminate].
      * split; [intros _ error Hf; discriminate | reflexivity].
    + subst result. cbn [this log].
      destruct (throws w issued chown) eqn:Echown;
        cbn [fst snd this log androidHomeValue];
        (split; [reflexivity|]); (split;
          [ exists [chown]; split; [reflexivity|];
            split; [ split; [auto | intros _; now left]
                   | intros p u g [Hi|[]]; now symmetry ]
          | split; [intros _ error Hf; discriminate | reflexivity] ]).
  - subst result. cbn [fst snd this log androidHomeValue].
    split; [reflexivity|]. split.
    + eexists. split; [rewrite <- !app_assoc; reflexivity|].
      split.
      * split; [intros [Hi|[Hi|[]]]; discriminate | intros [Hf _]; discriminate].
      * intros p u g [Hi|[Hi|[]]]; discriminate.
    + split; [|discriminate].
      intros _ error' He. inversion He; subst.
      split; [reflexivity | now rewrite <- !app_assoc].
  - subst result. cbn [fst snd this log androidHomeValue].
    split; [reflexivity|]. split.
    + exists []. rewrite app_nil_r. split; [reflexivity|].
      split; [|intros ? ? ? []].
      split; [intros [] | intros [Hf _]; discriminate].
    + split; [intros _ error Hf; discriminate | discriminate].
Qed.

(* ===================================================================== *)
(** ** The package-installation step *)
(* ===================================================================== *)

Section InstallAndroidPackages.

Variable h : Host.
Variable w : World.

Lemma descriptions_app (a b : list Event) :
  descriptions (a ++ b) = descriptions a ++ descriptions b.
Proof.
  induction a as [|ev a IH]; [reflexivity|].
  destruct ev; cbn [app descriptions]; try exact IH.
  destruct value; [|exact IH].
  destruct (key =? "error.description")%string; [|exact IH].
  cbn [app]. now rewrite IH.
Qed.

Lemma filter_none {A : Type} (p q : A -> bool) (l : list A) :
  (forall x, p x = true -> q x = false) ->
  forallb p l = true -> filter q l = [].
Proof.
  intros Hpq. induction l as [|x l IH]; [reflexivity|].
  cbn [forallb filter]. intros H. apply andb_true_iff in H as [Hx Hl].
  now rewrite (Hpq x Hx), (IH Hl).
Qed.

Lemma listener_not_spawn (ev : Event) :
  isListenerCall ev = true -> isSpawn ev = false.
Proof. destruct ev; simpl; congruence. Qed.

Lemma listener_not_archive (ev : Event) :
  isListenerCall ev = true -> isArchiveCall ev = false.
Proof. destruct ev; simpl; congruence. Qed.

Lemma settle_settled (d outcome : Promise) :
  d <> Pending -> settle d outcome = d.
Proof. destruct d; [reflexivity | reflexivity | congruence]. Qed.

Lemma settle_not_pending (d outcome : Promise) :
  outcome <> Pending -> settle d outcome <> Pending.
Proof. destruct d; simpl; congruence. Qed.

Lemma answers_cons (eol : string) (ended : bool) (ev : ChildEvent)
  (events : list ChildEvent) :
  answers eol ended (ev :: events)
  = answers eol ended [ev] ++ answers eol (ended || showsPrompt ev) events.
Proof.
  cbn [answers]. destruct (showsPrompt ev), ended; reflexivity.
Qed.

(** One event: what escapes a listener is uncaught, and the listeners
    leave the installer alone; they add to the text captured, settle the
    promise at most once, and answer a chunk that shows the prompt with
    one write, followed by one end when the input was still open. *)
Lemma installAndroidPackages_on_effects
  (s : AndroidSdkInstaller.Supervision) (ev : ChildEvent) (st : State) :
  exists s' added,
    uncaught s (AndroidSdkInstaller.installAndroidPackages_on h s ev) st
    = (Normal s', {| this := this st; log := log st ++ added |})
    /\ AndroidSdkInstaller.errorOutput s'
       = AndroidSdkInstaller.errorOutput s +++ capturedStderr [ev]
    /\ (AndroidSdkInstaller.deferred s <> Pending ->
        AndroidSdkInstaller.deferred s' = AndroidSdkInstaller.deferred s)
    /\ (isOutput ev = true ->
        AndroidSdkInstaller.deferred s' = AndroidSdkInstaller.deferred s)
    /\ filter isStdinCall added
       = answers (os_EOL h) (AndroidSdkInstaller.stdinEnded s) [ev]
    /\ forallb isListenerCall added = true
    /\ incl (descriptions added) packageInstallationDescriptions
    /\ AndroidSdkInstaller.stdinEnded s'
       = AndroidSdkInstaller.stdinEnded s || showsPrompt ev.
Proof.
  assert (Hnil : incl (@nil string) packageInstallationDescriptions)
    by (intros x []).
  assert (H1 : incl ["ErrorOnChildProcess on postInstallDefault"]
                 packageInstallationDescriptions)
    by (intros x [<-|[]]; now left).
  assert (H2 : incl ["ErrorOnExitOfChildProcess on postInstallDefault"]
                 packageInstallationDescriptions)
    by (intros x [<-|[]]; right; now left).
  destruct ev as [data|data|err|code];
    unfold uncaught, AndroidSdkInstaller.installAndroidPackages_on, bind, emit,
      ret, throw;
    cbn [this log capturedStderr isOutput showsPrompt answers].
  - destruct (Js.includes "[y/n]:" data); cbn [this log].
    + destruct (AndroidSdkInstaller.stdinEnded s) eqn:Eended; cbn [this log].
      * exists s, [E_stdin_write ("y" +++ os_EOL h)].
        rewrite append_empty_r, Eended.
        repeat split; auto; simpl descriptions; assumption.
      * eexists _, _. split; [rewrite <- app_assoc; reflexivity|].
        cbn [AndroidSdkInstaller.errorOutput AndroidSdkInstaller.deferred
             AndroidSdkInstaller.stdinEnded].
        rewrite append_empty_r.
        repeat split; auto; simpl descriptions; assumption.
    + exists s, []. rewrite app_nil_r, append_empty_r, orb_false_r.
      destruct st. repeat split; auto; simpl descriptions; assumption.
  - eexists _, []. rewrite app_nil_r. destruct st.
    split; [reflexivity|].
    cbn [AndroidSdkInstaller.errorOutput AndroidSdkInstaller.deferred
         AndroidSdkInstaller.stdinEnded filter].
    rewrite append_empty_r, orb_false_r.
    repeat split; auto; simpl descriptions; assumption.
  - eexists _, _. split; [rewrite <- app_assoc; reflexivity|].
    cbn [AndroidSdkInstaller.errorOutput AndroidSdkInstaller.deferred
         AndroidSdkInstaller.stdinEnded].
    rewrite append_empty_r, orb_false_r.
    repeat split; auto using settle_settled; try discriminate;
        simpl descriptions; assumption.
  - destruct (Js.truthy (AndroidSdkInstaller.errorOutput s)); cbn [this log].
    + eexists _, _. split; [rewrite <- !app_assoc; reflexivity|].
      cbn [AndroidSdkInstaller.errorOutput AndroidSdkInstaller.deferred
           AndroidSdkInstaller.stdinEnded].
      rewrite append_empty_r, orb_false_r.
      repeat split; auto using settle_settled; try discriminate;
        simpl descriptions; assumption.
    + eexists _, []. rewrite app_nil_r. destruct st.
      split; [reflexivity|].
      cbn [AndroidSdkInstaller.errorOutput AndroidSdkInstaller.deferred
           AndroidSdkInstaller.stdinEnded].
      rewrite append_empty_r, orb_false_r.
      repeat split; auto using settle_settled; try discriminate;
        simpl descriptions; assumption.
Qed.

Lemma capturedStderr_cons (ev : ChildEvent) (events : list ChildEvent) :
  capturedStderr (ev :: events) = capturedStderr [ev] +++ capturedStderr events.
Proof.
  destruct ev; cbn [capturedStderr]; try reflexivity.
  now rewrite append_empty_r.
Qed.

Lemma capturedStderr_app (a b : list ChildEvent) :
  capturedStderr (a ++ b) = capturedStderr a +++ capturedStderr b.
Proof.
  induction a as [|ev a IH]; [reflexivity|].
  cbn [app]. rewrite (capturedStderr_cons ev (a ++ b)), IH.
  rewrite (capturedStderr_cons ev a). now rewrite append_assoc.
Qed.

(** All the events of a child, by induction on them. *)
Lemma installAndroidPackages_listen_effects (events : list ChildEvent) :
  forall (s : AndroidSdkInstaller.Supervision) (st : State),
  exists s' added,
    AndroidSdkInstaller.installAndroidPackages_listen h s events st
    = (Normal s', {| this := this st; log := log st ++ added |})
    /\ AndroidSdkInstaller.errorOutput s'
       = AndroidSdkInstaller.errorOutput s +++ capturedStderr events
    /\ (AndroidSdkInstaller.deferred s <> Pending ->
        AndroidSdkInstaller.deferred s' = AndroidSdkInstaller.deferred s)
    /\ (forallb isOutput events = true ->
        AndroidSdkInstaller.deferred s' = AndroidSdkInstaller.deferred s)
    /\ filter isStdinCall added
       = answers (os_EOL h) (AndroidSdkInstaller.stdinEnded s) events
    /\ forallb isListenerCall added = true
    /\ incl (descriptions added) packageInstallationDescriptions.
Proof.
  induction events as [|ev events IH]; intros s st.
  - exists s, []. cbn [AndroidSdkInstaller.installAndroidPackages_listen ret].
    rewrite app_nil_r, append_empty_r. destruct st. repeat split; auto.
    intros x [].
  - cbn [AndroidSdkInstaller.installAndroidPackages_listen]. unfold bind.
    destruct (installAndroidPackages_on_effects s ev st)
      as (s1 & added1 & -> & Herr1 & Hset1 & Hout1 & Hin1 & Hsp1 & Hd1 & Hend1).
    destruct (IH s1 {| this := this st; log := log st ++ added1 |})
      as (s2 & added2 & -> & Herr2 & Hset2 & Hout2 & Hin2 & Hsp2 & Hd2).
    exists s2, (added1 ++ added2). cbn [this log].
    split; [now rewrite app_assoc|].
    split; [rewrite Herr2, Herr1, (capturedStderr_cons ev events);
            now rewrite append_assoc|].
    split.
    { intros Hs. rewrite Hset2; [now apply Hset1|].
      rewrite (Hset1 Hs). exact Hs. }
    split.
    { cbn [forallb]. intros Hall. apply andb_true_iff in Hall as [Hev Hall].
      rewrite (Hout2 Hall). now apply Hout1. }
    split.
    { rewrite filter_app, Hin1, Hin2, Hend1. symmetry. apply answers_cons. }
    split.
    { rewrite forallb_app, Hsp1, Hsp2. reflexivity. }
    rewrite descriptions_app. now apply incl_app.
Qed.

Lemma installAndroidPackages_listen_app (a b : list ChildEvent) :
  forall (s : AndroidSdkInstaller.Supervision) (st : State),
    AndroidSdkInstaller.installAndroidPackages_listen h s (a ++ b) st
    = (s' <- AndroidSdkInstaller.installAndroidPackages_listen h s a ;;
       AndroidSdkInstaller.installAndroidPackages_listen h s' b) st.
Proof.
  induction a as [|ev a IH]; intros s st; [reflexivity|].
  cbn [app AndroidSdkInstaller.installAndroidPackages_listen]. unfold bind.
  destruct (uncaught s (AndroidSdkInstaller.installAndroidPackages_on h s ev) st)
    as [[s1|e] st1]; [|reflexivity].
  rewrite IH. reflexivity.
Qed.

(** The step up to the listeners: the command joined, the child spawned. *)
Lemma installAndroidPackages_unfold (st : State) (home : string) :
  androidHomeValue (this st) = Some home ->
  let command :=
    path_join (path h) [home; "tools"; AndroidSdkInstaller.androidCommand h] in
  let options :=
    if (os_platform h =? "darwin")%string
    then Some {| uid := AndroidSdkInstaller.SUDO_UID h;
                 gid := AndroidSdkInstaller.SUDO_GID h |}
    else None in
  let spawned :=
    E_spawn command AndroidSdkInstaller.installAndroidPackages_args options in
  let st1 := {| this := this st; log := log st ++ [spawned] |} in
  AndroidSdkInstaller.installAndroidPackages h w st
  = match throws w (log st) spawned with
    | Some e => (Thrown e, st1)
    | None =>
        (s <- AndroidSdkInstaller.installAndroidPackages_listen h
                {| AndroidSdkInstaller.errorOutput := "";
                   AndroidSdkInstaller.deferred := Pending;
                   AndroidSdkInstaller.stdinEnded := false |}
                (spawn w (log st) command
                   AndroidSdkInstaller.installAndroidPackages_args options) ;;
         ret (AndroidSdkInstaller.deferred s)) st1
    end.
Proof.
  intros Hhome command options spawned st1.
  unfold AndroidSdkInstaller.installAndroidPackages.
  unfold bind at 1. unfold get_this at 1. cbn beta iota.
  unfold bind at 1. rewrite Hhome.
  pose proof (path_join_js_defined h
                [home; "tools"; AndroidSdkInstaller.androidCommand h] st) as Hjoin.
  cbn [map] in Hjoin. rewrite Hjoin. clear Hjoin. cbn beta iota.
  fold command options.
  unfold AndroidSdkInstaller.childProcess_spawn, AndroidSdkInstaller.call.
  unfold bind at 1. unfold bind at 1. unfold bind at 1.
  unfold get_log, ret at 1. cbn beta iota. fold spawned st1.
  destruct (throws w (log st) spawned); reflexivity.
Qed.

(** What the step has done and returned once a child that was spawned has
    written [chunks] and exited with [code], whatever it does afterwards. *)
Lemma installAndroidPackages_at_exit
  (st : State) (home : string) (chunks rest : list ChildEvent) (code : Z) :
  let command :=
    path_join (path h) [home; "tools"; AndroidSdkInstaller.androidCommand h] in
  let options :=
    if (os_platform h =? "darwin")%string
    then Some {| uid := AndroidSdkInstaller.SUDO_UID h;
                 gid := AndroidSdkInstaller.SUDO_GID h |}
    else None in
  let spawned :=
    E_spawn command AndroidSdkInstaller.installAndroidPackages_args options in
  let captured := capturedStderr chunks in
  androidHomeValue (this st) = Some home ->
  throws w (log st) spawned = None ->
  spawn w (log st) command AndroidSdkInstaller.installAndroidPackages_args options
  = chunks ++ ChildExit code :: rest ->
  forallb isOutput chunks = true ->
  exists before after,
    AndroidSdkInstaller.installAndroidPackages h w st
    = (Normal (if Js.truthy captured
               then Rejected (MessageError captured) else Fulfilled),
       {| this := this st;
          log := (((log st ++ [spawned]) ++ before)
                  ++ (if Js.truthy captured
                      then [ E_telemetry_add "error.description"
                               (TString "ErrorOnExitOfChildProcess on postInstallDefault")
                               false;
                             E_telemetry_add "error.code" (TNumber code) false;
                             E_telemetry_add "error.message" (TString captured) true ]
                      else []))
                 ++ after |}).
Proof.
  intros command options spawned captured Hhome Hthrow Hspawn Hout.
  rewrite (installAndroidPackages_unfold st home Hhome).
  cbv zeta. fold command options spawned. rewrite Hthrow, Hspawn.
  unfold bind at 1. rewrite installAndroidPackages_listen_app.
  unfold bind at 1.
  destruct (installAndroidPackages_listen_effects chunks
              {| AndroidSdkInstaller.errorOutput := "";
                 AndroidSdkInstaller.deferred := Pending;
                   AndroidSdkInstaller.stdinEnded := false |}
              {| this := this st; log := log st ++ [spawned] |})
    as (s1 & added1 & -> & Herr1 & _ & Hpend1 & _).
  specialize (Hpend1 Hout).
  cbn [AndroidSdkInstaller.errorOutput AndroidSdkInstaller.deferred
       String.append this log] in Herr1, Hpend1.
  fold captured in Herr1.
  cbn [AndroidSdkInstaller.installAndroidPackages_listen].
  unfold AndroidSdkInstaller.installAndroidPackages_on.
  rewrite Herr1, Hpend1.
  exists added1.
  destruct (Js.truthy captured) eqn:Etruthy;
    unfold uncaught, bind, emit, ret; cbn [this log settle];
    match goal with
    | |- context [AndroidSdkInstaller.installAndroidPackages_listen h ?s rest ?st0] =>
        destruct (installAndroidPackages_listen_effects rest s st0)
          as (s3 & added3 & -> & _ & Hset3 & _)
    end;
    cbn [AndroidSdkInstaller.deferred this log] in Hset3;
    rewrite Hset3 by discriminate;
    exists added3; cbn [this log]; rewrite <- ?app_assoc; reflexivity.
Qed.

End InstallAndroidPackages.

(** C2.  When the package manager has been spawned, has written a
    non-empty text to its standard error and then exits, the
    package-installation step rejects with an error whose message is that
    text, whatever the exit code (zero included), and hands the code and
    the text to telemetry; the default post-install body ends there, the
    daemon-kill step not being run. *)
Theorem installAndroidPackages_rejects_on_stderr
  (h : Host) (w : World) (st : State) (home : string)
  (chunks rest : list ChildEvent) (code : Z) :
  let command :=
    path_join (path h) [home; "tools"; AndroidSdkInstaller.androidCommand h] in
  let options :=
    if (os_platform h =? "darwin")%string
    then Some {| uid := AndroidSdkInstaller.SUDO_UID h;
                 gid := AndroidSdkInstaller.SUDO_GID h |}
    else None in
  let spawned :=
    E_spawn command AndroidSdkInstaller.installAndroidPackages_args options in
  let result := AndroidSdkInstaller.installAndroidPackages h w st in
  androidHomeValue (this st) = Some home ->
  throws w (log st) spawned = None ->
  spawn w (log st) command AndroidSdkInstaller.installAndroidPackages_args options
  = chunks ++ ChildExit code :: rest ->
  forallb isOutput chunks = true ->
  capturedStderr chunks <> "" ->
  fst result = Normal (Rejected (MessageError (capturedStderr chunks)))
  /\ In (E_telemetry_add "error.code" (TNumber code) false) (log (snd result))
  /\ In (E_telemetry_add "error.message" (TString (capturedStderr chunks)) true)
       (log (snd result))
  /\ AndroidSdkInstaller.postInstallDefault h w st = result.
Proof.
  intros command options spawned result Hhome Hthrow Hspawn Hout Hcaptured.
  apply truthy_true in Hcaptured.
  destruct (installAndroidPackages_at_exit h w st home chunks rest code
              Hhome Hthrow Hspawn Hout) as (before & after & Hrun).
  assert (Hpost : AndroidSdkInstaller.postInstallDefault h w st = result).
  { unfold AndroidSdkInstaller.postInstallDefault. rewrite then_unfold.
    subst result. rewrite Hrun, Hcaptured. reflexivity. }
  subst result. rewrite Hrun, Hcaptured. cbn [fst snd log].
  split; [reflexivity|].
  split; [|split; [|now rewrite Hpost, Hrun, Hcaptured]];
    apply in_or_app; left; apply in_or_app; right.
  - right. now left.
  - right. right. now left.
Qed.

(** C3, as the code has it.  The exit code plays no part in the outcome of
    the package-installation step: once the package manager has been
    spawned and exits, the step rejects when the text captured from its
    standard error is non-empty and resolves as success when it is empty,
    for every exit code, a non-zero one included. *)
Theorem installAndroidPackages_outcome_ignores_exit_code
  (h : Host) (w : World) (st : State) (home : string)
  (chunks rest : list ChildEvent) (code : Z) :
  let command :=
    path_join (path h) [home; "tools"; AndroidSdkInstaller.androidCommand h] in
  let options :=
    if (os_platform h =? "darwin")%string
    then Some {| uid := AndroidSdkInstaller.SUDO_UID h;
                 gid := AndroidSdkInstaller.SUDO_GID h |}
    else None in
  let spawned :=
    E_spawn command AndroidSdkInstaller.installAndroidPackages_args options in
  androidHomeValue (this st) = Some home ->
  throws w (log st) spawned = None ->
  spawn w (log st) command AndroidSdkInstaller.installAndroidPackages_args options
  = chunks ++ ChildExit code :: rest ->
  forallb isOutput chunks = true ->
  (capturedStderr chunks = "" ->
   fst (AndroidSdkInstaller.installAndroidPackages h w st) = Normal Fulfilled)
  /\ (capturedStderr chunks <> "" ->
      fst (AndroidSdkInstaller.installAndroidPackages h w st)
      = Normal (Rejected (MessageError (capturedStderr chunks)))).
Proof.
  intros command options spawned Hhome Hthrow Hspawn Hout.
  destruct (installAndroidPackages_at_exit h w st home chunks rest code
              Hhome Hthrow Hspawn Hout) as (before & after & Hrun).
  split; intros Hcaptured; rewrite Hrun.
  - apply truthy_false in Hcaptured. now rewrite Hcaptured.
  - apply truthy_true in Hcaptured. now rewrite Hcaptured.
Qed.

Lemma filter_filter_sub {A : Type} (p q : A -> bool) (l : list A) :
  (forall x, p x = true -> q x = true) ->
  filter p (filter q l) = filter p l.
Proof.
  intros Hsub. induction l as [|x l IH]; [reflexivity|].
  cbn [filter]. destruct (q x) eqn:Eq.
  - cbn [filter]. now rewrite IH.
  - destruct (p x) eqn:Ep; [|exact IH].
    apply Hsub in Ep. congruence.
Qed.

(** A write for each chunk that shows the prompt; one end, made for the
    first of them when the input is still open. *)
Lemma answers_count (eol : string) (events : list ChildEvent) :
  forall ended : bool,
  length (filter isStdinWrite (answers eol ended events))
  = length (filter showsPrompt events)
  /\ length (filter isStdinEnd (answers eol ended events))
     = if ended then 0 else Nat.min 1 (length (filter showsPrompt events)).
Proof.
  induction events as [|ev events IH]; intros ended.
  - destruct ended; split; reflexivity.
  - cbn [answers filter]. destruct (showsPrompt ev).
    + destruct (IH true) as [IHw IHe].
      destruct ended; cbn [filter isStdinWrite isStdinEnd length];
        rewrite IHw, IHe; split; reflexivity.
    + apply IH.
Qed.

Section WriteAfterEnd.

Variable h : Host.

(** Once a chunk has shown the prompt, the standard input is ended. *)
Lemma installAndroidPackages_listen_ended (events : list ChildEvent) :
  forall (s : AndroidSdkInstaller.Supervision) (st : State),
  exists s' st',
    AndroidSdkInstaller.installAndroidPackages_listen h s events st
    = (Normal s', st')
    /\ this st' = this st
    /\ AndroidSdkInstaller.stdinEnded s'
       = AndroidSdkInstaller.stdinEnded s || existsb showsPrompt events.
Proof.
  induction events as [|ev events IH]; intros s st.
  - exists s, st. cbn [existsb]. rewrite orb_false_r. now split.
  - cbn [AndroidSdkInstaller.installAndroidPackages_listen existsb].
    unfold bind.
    destruct (installAndroidPackages_on_effects h s ev st)
      as (s1 & added1 & -> & _ & _ & _ & _ & _ & _ & Hend1).
    destruct (IH s1 {| this := this st; log := log st ++ added1 |})
      as (s2 & st2 & -> & Hthis & Hend2).
    exists s2, st2. split; [reflexivity|]. split; [exact Hthis|].
    now rewrite Hend2, Hend1, orb_assoc.
Qed.

End WriteAfterEnd.

(** C4, as the code has it.  Every chunk of standard output in which
    "[y/n]:" occurs makes the listener write "y" and the end of line to
    the standard input of the child, whether or not it has been ended; the
    listener keeps no record of having answered.  The first such chunk is
    answered and the input ended.  For every later one the write is
    attempted again, on the stream already ended: it throws
    [write after end] out of the listener, and [end] is not reached.  So
    the input is ended once, and the number of writes attempted is the
    number of chunks that show the prompt. *)
Theorem installAndroidPackages_writes_after_end
  (h : Host) (w : World) (st : State) (home : string) :
  let command :=
    path_join (path h) [home; "tools"; AndroidSdkInstaller.androidCommand h] in
  let options :=
    if (os_platform h =? "darwin")%string
    then Some {| uid := AndroidSdkInstaller.SUDO_UID h;
                 gid := AndroidSdkInstaller.SUDO_GID h |}
    else None in
  let spawned :=
    E_spawn command AndroidSdkInstaller.installAndroidPackages_args options in
  let events :=
    spawn w (log st) command AndroidSdkInstaller.installAndroidPackages_args
      options in
  let answer := E_stdin_write ("y" +++ os_EOL h) in
  androidHomeValue (this st) = Some home ->
  throws w (log st) spawned = None ->
  (exists added,
     log (snd (AndroidSdkInstaller.installAndroidPackages h w st))
     = log st ++ spawned :: added
     /\ filter isStdinCall added = answers (os_EOL h) false events
     /\ length (filter isStdinWrite added) = length (filter showsPrompt events)
     /\ length (filter isStdinEnd added)
        = Nat.min 1 (length (filter showsPrompt events)))
  /\ (forall before data after,
        events = before ++ StdoutData data :: after ->
        existsb showsPrompt before = true ->
        Js.includes "[y/n]:" data = true ->
        exists s st',
          AndroidSdkInstaller.installAndroidPackages_listen h
            {| AndroidSdkInstaller.errorOutput := "";
               AndroidSdkInstaller.deferred := Pending;
               AndroidSdkInstaller.stdinEnded := false |}
            before {| this := this st; log := log st ++ [spawned] |}
          = (Normal s, st')
          /\ AndroidSdkInstaller.installAndroidPackages_on h s
               (StdoutData data) st'
             = (Thrown (MessageError "write after end"),
                {| this := this st'; log := log st' ++ [answer] |})).
Proof.
  intros command options spawned events answer Hhome Hthrow. split.
  - rewrite (installAndroidPackages_unfold h w st home Hhome).
    cbv zeta. fold command options spawned events. rewrite Hthrow.
    unfold bind.
    destruct (installAndroidPackages_listen_effects h events
                {| AndroidSdkInstaller.errorOutput := "";
                   AndroidSdkInstaller.deferred := Pending;
                   AndroidSdkInstaller.stdinEnded := false |}
                {| this := this st; log := log st ++ [spawned] |})
      as (s1 & added & -> & _ & _ & _ & Hanswers & _).
    cbn [AndroidSdkInstaller.stdinEnded] in Hanswers.
    exists added. cbn [ret snd log this].
    split; [now rewrite <- app_assoc|]. split; [exact Hanswers|].
    destruct (answers_count (os_EOL h) events false) as [Hw He].
    rewrite <- Hanswers in Hw, He.
    rewrite filter_filter_sub in Hw by (intros []; simpl; congruence).
    rewrite filter_filter_sub in He by (intros []; simpl; congruence).
    now split.
  - intros before data after _ Hbefore Hdata.
    destruct (installAndroidPackages_listen_ended h before
                {| AndroidSdkInstaller.errorOutput := "";
                   AndroidSdkInstaller.deferred := Pending;
                   AndroidSdkInstaller.stdinEnded := false |}
                {| this := this st; log := log st ++ [spawned] |})
      as (s & st' & Hrun & _ & Hended).
    cbn [AndroidSdkInstaller.stdinEnded orb] in Hended.
    rewrite Hbefore in Hended.
    exists s, st'. split; [exact Hrun|].
    unfold AndroidSdkInstaller.installAndroidPackages_on.
    rewrite Hdata, Hended. reflexivity.
Qed.

(** C8.  The package manager is the one child the package-installation
    step spawns; on Darwin it is spawned with the [uid] and [gid] options
    read from [SUDO_UID] and [SUDO_GID], and on every other platform with
    no options at all. *)
Theorem installAndroidPackages_spawn_identity
  (h : Host) (w : World) (st : State) (home : string) :
  let command :=
    path_join (path h)
      [home; "tools";
       if (os_platform h =? "win32")%string then "android.bat" else "android"] in
  let args :=
    [ "update"; "sdk"; "-u"; "-a"; "--filter";
      "tools,platform-tools,extra-android-support,extra-android-m2repository,build-tools-19.1.0,build-tools-21.1.2,build-tools-22.0.1,android-19,android-21,android-22" ] in
  let identity :=
    {| uid := Js.parseInt10 (process_env h "SUDO_UID");
       gid := Js.parseInt10 (process_env h "SUDO_GID") |} in
  let after := snd (AndroidSdkInstaller.installAndroidPackages h w st) in
  androidHomeValue (this st) = Some home ->
  exists added,
    filter isSpawn added = []
    /\ (os_platform h = "darwin" ->
        log after = log st ++ E_spawn command args (Some identity) :: added)
    /\ (os_platform h <> "darwin" ->
        log after = log st ++ E_spawn command args None :: added).
Proof.
  intros command args identity after Hhome. subst after.
  rewrite (installAndroidPackages_unfold h w st home Hhome). cbv zeta.
  change (path_join (path h) [home; "tools"; AndroidSdkInstaller.androidCommand h])
    with command.
  change AndroidSdkInstaller.installAndroidPackages_args with args.
  change {| uid := AndroidSdkInstaller.SUDO_UID h;
            gid := AndroidSdkInstaller.SUDO_GID h |} with identity.
  set (options := if (os_platform h =? "darwin")%string
                  then Some identity else None).
  assert (Hlog : exists added,
    filter isSpawn added = []
    /\ log (snd match throws w (log st) (E_spawn command args options) with
                | Some e =>
                    (Thrown e,
                     {| this := this st;
                        log := log st ++ [E_spawn command args options] |})
                | None =>
                    (s <- AndroidSdkInstaller.installAndroidPackages_listen h
                            {| AndroidSdkInstaller.errorOutput := "";
                               AndroidSdkInstaller.deferred := Pending;
                   AndroidSdkInstaller.stdinEnded := false |}
                            (spawn w (log st) command args options) ;;
                     ret (AndroidSdkInstaller.deferred s))
                      {| this := this st;
                         log := log st ++ [E_spawn command args options] |}
                end)
       = log st ++ E_spawn command args options :: added).
  { destruct (throws w (log st) (E_spawn command args options)).
    - exists []. split; reflexivity.
    - unfold bind.
      destruct (installAndroidPackages_listen_effects h
                  (spawn w (log st) command args options)
                  {| AndroidSdkInstaller.errorOutput := "";
                     AndroidSdkInstaller.deferred := Pending;
                   AndroidSdkInstaller.stdinEnded := false |}
                  {| this := this st;
                     log := log st ++ [E_spawn command args options] |})
        as (s1 & added & -> & _ & _ & _ & _ & Hspawn & _).
      exists added.
      split; [exact (filter_none _ _ _ listener_not_spawn Hspawn)|].
      cbn [ret snd log this]. now rewrite <- app_assoc. }
  destruct Hlog as (added & Hnone & Hlog). exists added.
  split; [exact Hnone|]. split; intros Hplatform.
  - rewrite Hlog. subst options. now rewrite Hplatform.
  - rewrite Hlog. subst options.
    apply String.eqb_neq in Hplatform. now rewrite Hplatform.
Qed.

(* ===================================================================== *)
(** ** The daemon-kill step *)
(* ===================================================================== *)

Section KillAdb.

Variable h : Host.
Variable w : World.

(** The listeners of [killAdb] over all the events of the child: the
    promise, if pending, is settled by the first ['error'] or ['exit'];
    every ['error'] is reported under the description of this step. *)
Lemma killAdb_listen_effects (events : list ChildEvent) :
  forall (d : Promise) (st : State),
  exists added,
    AndroidSdkInstaller.killAdb_listen d events st
    = (Normal (match d with
               | Pending =>
                   match firstSettling events with
                   | Some (ChildError error) => Rejected error
                   | Some (ChildExit _) => Fulfilled
                   | _ => Pending
                   end
               | _ => d
               end),
       {| this := this st; log := log st ++ added |})
    /\ forallb isListenerCall added = true
    /\ incl (descriptions added) ["ErrorOnKillingAdb in killAdb"]
    /\ (forall error, In (ChildError error) events ->
          In "ErrorOnKillingAdb in killAdb" (descriptions added)).
Proof.
  induction events as [|ev events IH]; intros d st.
  - exists []. cbn [AndroidSdkInstaller.killAdb_listen ret firstSettling].
    rewrite app_nil_r. destruct st, d; repeat split; auto; intros x [].
  - cbn [AndroidSdkInstaller.killAdb_listen]. unfold bind.
    destruct ev as [data|data|error|code];
      unfold AndroidSdkInstaller.killAdb_on, bind, emit, ret;
      cbn [this log firstSettling isOutput].
    + destruct (IH d st) as (added & -> & Hcalls & Hdesc & Herr).
      exists added. repeat split; auto.
      intros error [Hf|Hin]; [discriminate | eauto].
    + destruct (IH d st) as (added & -> & Hcalls & Hdesc & Herr).
      exists added. repeat split; auto.
      intros error [Hf|Hin]; [discriminate | eauto].
    + match goal with
      | |- context [AndroidSdkInstaller.killAdb_listen ?d1 events ?st1] =>
          destruct (IH d1 st1) as (added & -> & Hcalls & Hdesc & Herr)
      end.
      eexists. cbn [this log]. split.
      { rewrite <- !app_assoc. destruct d; reflexivity. }
      split; [exact Hcalls|]. split.
      * cbn [app descriptions String.eqb Ascii.eqb Bool.eqb].
        intros x [<-|Hx]; [now left | now apply Hdesc].
      * intros error' _. now left.
    + destruct (IH (settle d Fulfilled) st) as (added & -> & Hcalls & Hdesc & Herr).
      exists added. split; [destruct d; reflexivity|].
      repeat split; auto.
      intros error [Hf|Hin]; [discriminate | eauto].
Qed.

(** The step up to the listeners. *)
Lemma killAdb_unfold (st : State) (home : string) :
  androidHomeValue (this st) = Some home ->
  let adb := path_join (path h) [home; "platform-tools"; "adb"] in
  let spawned := E_spawn adb ["kill-server"] None in
  let st1 := {| this := this st; log := log st ++ [spawned] |} in
  AndroidSdkInstaller.killAdb h w st
  = match throws w (log st) spawned with
    | Some e => (Thrown e, st1)
    | None =>
        AndroidSdkInstaller.killAdb_listen Pending
          (spawn w (log st) adb ["kill-server"] None) st1
    end.
Proof.
  intros Hhome adb spawned st1.
  unfold AndroidSdkInstaller.killAdb.
  unfold bind at 1. unfold get_this at 1. cbn beta iota.
  unfold bind at 1. rewrite Hhome.
  pose proof (path_join_js_defined h [home; "platform-tools"; "adb"] st) as Hjoin.
  cbn [map] in Hjoin. rewrite Hjoin. clear Hjoin. cbn beta iota.
  fold adb.
  unfold AndroidSdkInstaller.childProcess_spawn, AndroidSdkInstaller.call.
  unfold bind at 1. unfold bind at 1. unfold bind at 1.
  unfold get_log, ret at 1. cbn beta iota. fold spawned st1.
  destruct (throws w (log st) spawned); reflexivity.
Qed.

(** Without the home directory of the SDK no step of the post-install
    stage gets as far as running anything: [path.join] throws. *)
Lemma installAndroidPackages_undefined (st : State) :
  androidHomeValue (this st) = None ->
  AndroidSdkInstaller.installAndroidPackages h w st
  = (Thrown (TypeError "Arguments to path.join must be strings"), st).
Proof.
  intros Hhome. unfold AndroidSdkInstaller.installAndroidPackages.
  unfold bind at 1. unfold get_this at 1. cbn beta iota.
  unfold bind at 1. rewrite Hhome.
  now rewrite path_join_js_undefined by now left.
Qed.

Lemma killAdb_undefined (st : State) :
  androidHomeValue (this st) = None ->
  AndroidSdkInstaller.killAdb h w st
  = (Thrown (TypeError "Arguments to path.join must be strings"), st).
Proof.
  intros Hhome. unfold AndroidSdkInstaller.killAdb.
  unfold bind at 1. unfold get_this at 1. cbn beta iota.
  unfold bind at 1. rewrite Hhome.
  now rewrite path_join_js_undefined by now left.
Qed.

Lemma addExecutePermission_undefined (st : State) :
  androidHomeValue (this st) = None ->
  AndroidSdkInstaller.addExecutePermission h w st
  = (Thrown (TypeError "Arguments to path.join must be strings"), st).
Proof.
  intros Hhome. unfold AndroidSdkInstaller.addExecutePermission.
  unfold bind at 1. unfold get_this at 1. cbn beta iota.
  unfold bind at 1. rewrite Hhome.
  now rewrite path_join_js_undefined by now left.
Qed.

(** Whatever its state, the package-installation step leaves the installer
    as it was and reports under its own descriptions only. *)
Lemma installAndroidPackages_effects (st : State) :
  this (snd (AndroidSdkInstaller.installAndroidPackages h w st)) = this st
  /\ exists added,
       log (snd (AndroidSdkInstaller.installAndroidPackages h w st))
       = log st ++ added
       /\ filter isArchiveCall added = []
       /\ incl (descriptions added) packageInstallationDescriptions
       /\ (filter isSpawn added <> [] -> androidHomeValue (this st) <> None)
       /\ (fst (AndroidSdkInstaller.installAndroidPackages h w st)
           = Normal Fulfilled -> androidHomeValue (this st) <> None).
Proof.
  destruct (androidHomeValue (this st)) as [home|] eqn:Ehome.
  - rewrite (installAndroidPackages_unfold h w st home Ehome). cbv zeta.
    match goal with |- context [throws w (log st) ?ev] =>
      destruct (throws w (log st) ev) end.
    + cbn [snd this log]. split; [reflexivity|]. eexists.
      split; [reflexivity|]. repeat split; try discriminate. intros x [].
    + unfold bind.
      match goal with
      | |- context [AndroidSdkInstaller.installAndroidPackages_listen h ?s ?evs ?st0] =>
          destruct (installAndroidPackages_listen_effects h evs s st0)
            as (s1 & added & -> & _ & _ & _ & _ & Hcalls & Hdesc)
      end.
      cbn [ret snd this log]. split; [reflexivity|]. eexists.
      split; [rewrite <- app_assoc; reflexivity|].
      split.
      { cbn [app filter isArchiveCall].
        exact (filter_none _ _ _ listener_not_archive Hcalls). }
      split; [exact Hdesc|]. split; discriminate.
  - rewrite (installAndroidPackages_undefined st Ehome).
    cbn [fst snd]. split; [reflexivity|]. exists []. rewrite app_nil_r.
    split; [reflexivity|]. split; [reflexivity|].
    split; [intros x []|]. split; [intros Hf; now elim Hf | discriminate].
Qed.

End KillAdb.

(** C6, as the code has it.  The outcome of the daemon-kill step is decided
    by the first ['error'] or ['exit'] event of the kill-server child: an
    ['error'] (the child could not be started) rejects with that error,
    reported to telemetry under a description of its own which the
    package-installation step never uses; an ['exit'], whatever its code,
    resolves as success. *)
Theorem killAdb_outcome (h : Host) (w : World) (st : State) (home : string) :
  let adb := path_join (path h) [home; "platform-tools"; "adb"] in
  let spawned := E_spawn adb ["kill-server"] None in
  let events := spawn w (log st) adb ["kill-server"] None in
  let result := AndroidSdkInstaller.killAdb h w st in
  androidHomeValue (this st) = Some home ->
  throws w (log st) spawned = None ->
  fst result
  = Normal (match firstSettling events with
            | Some (ChildError error) => Rejected error
            | Some (ChildExit code) => Fulfilled
            | _ => Pending
            end)
  /\ (exists added,
        log (snd result) = log st ++ spawned :: added
        /\ incl (descriptions added) ["ErrorOnKillingAdb in killAdb"]
        /\ (forall error, firstSettling events = Some (ChildError error) ->
              In "ErrorOnKillingAdb in killAdb" (descriptions added)))
  /\ (forall (w' : World) (st' : State),
      exists added',
        log (snd (AndroidSdkInstaller.installAndroidPackages h w' st'))
        = log st' ++ added'
        /\ ~ In "ErrorOnKillingAdb in killAdb" (descriptions added')).
Proof.
  intros adb spawned events result Hhome Hthrow. subst result.
  rewrite (killAdb_unfold h w st home Hhome). cbv zeta.
  fold adb spawned events. rewrite Hthrow.
  destruct (killAdb_listen_effects events Pending
              {| this := this st; log := log st ++ [spawned] |})
    as (added & -> & _ & Hdesc & Herr).
  cbn [fst snd this log]. split; [reflexivity|]. split.
  - exists added. split; [now rewrite <- app_assoc|]. split; [exact Hdesc|].
    intros error Hfirst. apply (Herr error).
    clear - Hfirst. induction events as [|ev events IH]; [discriminate|].
    cbn [firstSettling] in Hfirst. destruct (isOutput ev) eqn:E.
    + right. now apply IH.
    + left. now inversion Hfirst.
  - intros w' st'.
    destruct (installAndroidPackages_effects h w' st')
      as (_ & added' & Hlog & _ & Hdesc' & _).
    exists added'. split; [exact Hlog|].
    intros Hin. apply Hdesc' in Hin.
    destruct Hin as [Hf|[Hf|[]]]; discriminate.
Qed.

(* ===================================================================== *)
(** ** What each stage body touches *)
(* ===================================================================== *)

(** The log of a state reached is the log of the start with the calls made
    since. *)
Ltac log_extends :=
  first [ reflexivity
        | rewrite <- !app_assoc; reflexivity
        | symmetry; apply app_nil_r ].

Section StageBodies.

Import InstallerBase.

Variable h : Host.
Variable w : World.

Lemma sameSettings_refl (i : Installer) : sameSettings i i.
Proof. repeat split. Qed.

Lemma Forall_plain (s : Stage) (st : State) (added : list Event) :
  forallb isPlainCall added = true -> Forall (stageCall s st) added.
Proof.
  intros H. apply Forall_forall. intros ev Hin. left.
  rewrite forallb_forall in H. now apply H.
Qed.

Lemma download_effect (st : State) :
  StageEffect h Download st (AndroidSdkInstaller.downloadDefault h w st).
Proof.
  rewrite downloadDefault_run. cbv zeta.
  destruct (throws w (log st) _); constructor; cbn [fst snd this log
    installerArchive androidHomeValue]; try congruence; try discriminate;
    try (repeat split; reflexivity);
    try (eexists; split;
         [reflexivity | repeat constructor; right; left; now split]);
    auto.
Qed.

Lemma installDefault_effect (st : State) :
  StageEffect h Install st (AndroidSdkInstaller.installDefault h w st).
Proof.
  destruct (installDefault_effects h w st) as (Hthis & evs & Hlog & Hevs).
  constructor; try congruence; try discriminate.
  - rewrite Hthis. apply sameSettings_refl.
  - destruct (String.eqb_spec (installDestination (this st)) "") as [E|E].
    + rewrite (installDefault_empty h w st E). cbn [snd log].
      eexists. split; [reflexivity | now apply Forall_plain].
    + exists evs. split; [exact Hlog|].
      eapply Forall_impl; [|exact Hevs]. intros ev Hev. right. right. left. auto.
  - intros _ E. now rewrite (installDefault_empty h w st E).
Qed.

Lemma installDarwin_effect (st : State) :
  StageEffect h Install st (AndroidSdkInstaller.installDarwin h w st).
Proof.
  unfold AndroidSdkInstaller.installDarwin.
  unfold bind at 1. unfold get_this at 1. cbn beta iota.
  unfold bind at 1.
  match goal with
  | |- context [AndroidSdkInstaller.firstNonExistentDir h w ?segs ?p st] =>
      destruct (firstNonExistentDir_effects h w segs p st)
        as (found & probes & -> & Hprobes)
  end.
  assert (Hplain : Forall (stageCall Install st) probes).
  { eapply Forall_impl; [|exact Hprobes]. intros ev [p ->]. now left. }
  set (st1 := {| this := this st; log := log st ++ probes |}).
  rewrite then_unfold.
  destruct (installDefault_effect st1) as [Hset _ _ _ _ Hcalls Hempty _].
  destruct (installDefault_effects h w st1) as (Hthis & _).
  destruct Hcalls as (added & Hlog & Hadded).
  assert (Hadded' : Forall (stageCall Install st) (probes ++ added)).
  { apply Forall_app. split; [exact Hplain|].
    eapply Forall_impl; [|exact Hadded]. intros ev Hev. exact Hev. }
  destruct (AndroidSdkInstaller.installDefault h w st1) as [[[|e|]|e] st2] eqn:E;
    cbn [fst snd] in *.
  2-4: constructor; cbn [fst snd]; try (cbn [this st1] in Hthis; congruence);
       try discriminate;
       [ rewrite Hthis; apply sameSettings_refl
       | exists (probes ++ added); split;
         [rewrite Hlog; cbn [log st1]; now rewrite app_assoc | exact Hadded']
       | intros _ Hd; now apply Hempty ].
  assert (Hfulfilled : installDestination (this st) = "" -> False).
  { intros Hd. specialize (Hempty eq_refl Hd). discriminate. }
  assert (Hdone : forall tail,
    forallb isPlainCall tail = true -> forall r,
    StageEffect h Install st
      (r, {| this := this st2; log := log st2 ++ tail |})).
  { intros tail Htail r. constructor; cbn [fst snd this log];
      try (cbn [this st1] in Hthis; congruence); try discriminate.
    - rewrite Hthis. apply sameSettings_refl.
    - exists ((probes ++ added) ++ tail). split.
      + rewrite Hlog. cbn [log st1]. now rewrite !app_assoc.
      + apply Forall_app. split; [exact Hadded' | now apply Forall_plain]. }
  assert (Hsame : forall r, StageEffect h Install st (r, st2)).
  { intros r. specialize (Hdone [] eq_refl r).
    rewrite app_nil_r in Hdone. now destruct st2. }
  destruct found as [dir|]; [|apply Hsame].
  destruct (Js.truthy dir); [|apply Hsame].
  unfold bind, AndroidSdkInstaller.call, ret.
  destruct (throws w (log st2) _); now apply Hdone.
Qed.

(** Settles the fields of [StageEffect] for a body whose run is spelled
    out and which makes plain calls only. *)
Ltac plain_effect :=
  constructor; cbn [fst snd this log installerArchive androidHomeValue];
  [ repeat split; reflexivity
  | intros _; reflexivity
  | first [ discriminate | intros _; reflexivity ]
  | first [ intros _; reflexivity | intros Hne; congruence ]
  | first [ intros H; exact H | discriminate ]
  | eexists; split; [log_extends | apply Forall_plain; reflexivity]
  | first [ discriminate | congruence ]
  | first [ discriminate | congruence ] ].

Lemma updateVariablesDarwin_effect (st : State) :
  StageEffect h UpdateVariables st
    (AndroidSdkInstaller.updateVariablesDarwin h w st).
Proof.
  unfold AndroidSdkInstaller.updateVariablesDarwin,
    AndroidSdkInstaller.path_join_js, AndroidSdkInstaller.fs_existsSync,
    AndroidSdkInstaller.set_androidHomeValue,
    AndroidSdkInstaller.childProcess_exec, AndroidSdkInstaller.call,
    uncaught, bind, get_this, get_log, set_this, emit, ret, throw.
  destruct (process_env h "HOME") as [home|];
    cbn [forallb flat_map andb app this log]; [|plain_effect].
  destruct (throws w _ (E_exec _)); cbn [this log]; [plain_effect|].
  destruct (exec w _ _); cbn [this log]; [|plain_effect|plain_effect].
  destruct (existsSync w (log st) _); cbn [negb this log]; [plain_effect|].
  destruct (throws w _ (E_chownSync _ _ _)); plain_effect.
Qed.

Lemma updateVariablesWin32_effect (st : State) :
  StageEffect h UpdateVariables st
    (AndroidSdkInstaller.updateVariablesWin32 h w st).
Proof.
  unfold AndroidSdkInstaller.updateVariablesWin32.
  unfold bind at 1. unfold get_this at 1. cbn beta iota.
  unfold bind at 1.
  unfold AndroidSdkInstaller.set_androidHomeValue at 1.
  unfold bind at 1, get_this at 1, set_this at 1. cbn beta iota.
  rewrite then_unfold.
  unfold AndroidSdkInstaller.call, bind, get_log, ret. cbn [this log].
  destruct (throws w (log st) (E_setEnvironmentVariableIfNeededWin32 _ _));
    [plain_effect|].
  destruct (setEnvironmentVariableIfNeededWin32 w (log st) _ _);
    [|plain_effect|plain_effect].
  cbn [this log].
  destruct (throws w _ (E_addToPathIfNeededWin32 _)); plain_effect.
Qed.

Lemma listener_calls_post (added : list Event) :
  forallb isListenerCall added = true ->
  forallb isPostInstallCall added = true.
Proof.
  intros H. apply forallb_forall. intros ev Hin.
  rewrite forallb_forall in H. specialize (H ev Hin).
  destruct ev; simpl in *; congruence.
Qed.

Lemma installAndroidPackages_post (st : State) :
  PostInstallEffect st (AndroidSdkInstaller.installAndroidPackages h w st).
Proof.
  destruct (androidHomeValue (this st)) as [home|] eqn:Ehome.
  - rewrite (installAndroidPackages_unfold h w st home Ehome). cbv zeta.
    match goal with |- context [throws w (log st) ?ev] =>
      destruct (throws w (log st) ev) end.
    + split; [reflexivity|]. split; [|intros Hn; congruence].
      eexists. split; reflexivity.
    + unfold bind.
      match goal with
      | |- context [AndroidSdkInstaller.installAndroidPackages_listen h ?s ?evs ?st0] =>
          destruct (installAndroidPackages_listen_effects h evs s st0)
            as (s1 & added & -> & _ & _ & _ & _ & Hcalls & _)
      end.
      split; [reflexivity|]. split; [|intros Hn; congruence].
      eexists. cbn [ret snd log this]. split; [log_extends|].
      cbn [forallb app isPostInstallCall andb].
      now apply listener_calls_post.
  - rewrite (installAndroidPackages_undefined h w st Ehome).
    split; [reflexivity|]. split; [|reflexivity].
    exists []. split; [log_extends | reflexivity].
Qed.

Lemma killAdb_post (st : State) :
  PostInstallEffect st (AndroidSdkInstaller.killAdb h w st).
Proof.
  destruct (androidHomeValue (this st)) as [home|] eqn:Ehome.
  - rewrite (killAdb_unfold h w st home Ehome). cbv zeta.
    match goal with |- context [throws w (log st) ?ev] =>
      destruct (throws w (log st) ev) end.
    + split; [reflexivity|]. split; [|intros Hn; congruence].
      eexists. split; reflexivity.
    + match goal with
      | |- context [AndroidSdkInstaller.killAdb_listen ?d ?evs ?st0] =>
          destruct (killAdb_listen_effects evs d st0)
            as (added & -> & Hcalls & _)
      end.
      split; [reflexivity|]. split; [|intros Hn; congruence].
      eexists. cbn [snd log this]. split; [log_extends|].
      cbn [forallb app isPostInstallCall andb].
      now apply listener_calls_post.
  - rewrite (killAdb_undefined h w st Ehome).
    split; [reflexivity|]. split; [|reflexivity].
    exists []. split; [log_extends | reflexivity].
Qed.

Lemma addExecutePermission_post (st : State) :
  PostInstallEffect st (AndroidSdkInstaller.addExecutePermission h w st).
Proof.
  destruct (androidHomeValue (this st)) as [home|] eqn:Ehome.
  - unfold AndroidSdkInstaller.addExecutePermission.
    unfold bind at 1. unfold get_this at 1. cbn beta iota.
    unfold bind at 1. rewrite Ehome.
    pose proof (path_join_js_defined h [home; "tools"; "android"] st) as Hjoin.
    cbn [map] in Hjoin. rewrite Hjoin. clear Hjoin. cbn beta iota.
    unfold AndroidSdkInstaller.childProcess_exec, AndroidSdkInstaller.call,
      bind, get_log, emit, ret.
    destruct (throws w (log st) (E_exec _)).
    + split; [reflexivity|]. split; [|intros Hn; congruence].
      eexists. split; reflexivity.
    + destruct (exec w (log st) _); cbn [this log];
        (split; [reflexivity|]); (split; [|intros Hn; congruence]);
        eexists; (split; [log_extends | reflexivity]).
  - rewrite (addExecutePermission_undefined h w st Ehome).
    split; [reflexivity|]. split; [|reflexivity].
    exists []. split; [log_extends | reflexivity].
Qed.

(** The steps of the post-install stage chained with [then]. *)
Lemma then_post (p callback : M Promise) :
  (forall st, PostInstallEffect st (p st)) ->
  (forall st, PostInstallEffect st (callback st)) ->
  forall st, PostInstallEffect st (then_ p callback st).
Proof.
  intros Hp Hcb st. rewrite then_unfold.
  destruct (Hp st) as (Hthis & (added & Hlog & Hadded) & Hnone).
  destruct (p st) as [[[|e|]|e] st1] eqn:Ep; cbn [fst snd] in *;
    try (split; [exact Hthis|]; split; [eauto | exact Hnone]).
  destruct (Hcb st1) as (Hthis2 & (added2 & Hlog2 & Hadded2) & _).
  assert (Hgoal : forall r,
    PostInstallEffect st (r, snd (callback st1))).
  { intros r. split; [cbn [snd]; congruence|]. split.
    - exists (added ++ added2). cbn [snd]. split.
      + rewrite Hlog2, Hlog. now rewrite app_assoc.
      + rewrite forallb_app, Hadded, Hadded2. reflexivity.
    - intros Hhome. specialize (Hnone Hhome). discriminate. }
  destruct (callback st1) as [[q|e] st2]; apply Hgoal.
Qed.

Lemma postInstallDefault_post (st : State) :
  PostInstallEffect st (AndroidSdkInstaller.postInstallDefault h w st).
Proof.
  apply then_post; [apply installAndroidPackages_post | apply killAdb_post].
Qed.

Lemma postInstallDarwin_post (st : State) :
  PostInstallEffect st (AndroidSdkInstaller.postInstallDarwin h w st).
Proof.
  apply then_post; [apply addExecutePermission_post | apply postInstallDefault_post].
Qed.

Lemma post_effect (st : State) (result : Completion Promise * State) :
  PostInstallEffect st result -> StageEffect h PostInstall st result.
Proof.
  intros (Hthis & (added & Hlog & Hadded) & Hnone).
  constructor; try discriminate; try congruence.
  - rewrite Hthis. apply sameSettings_refl.
  - exists added. split; [exact Hlog|].
    assert (Hcase : androidHomeValue (this st) <> None
                    \/ androidHomeValue (this st) = None).
    { destruct (androidHomeValue (this st)); [left; discriminate | now right]. }
    destruct Hcase as [Hsome|Hn].
    + apply Forall_forall. intros ev Hin. right. right. right.
      rewrite forallb_forall in Hadded. specialize (Hadded ev Hin).
      repeat split; assumption.
    + rewrite (Hnone Hn) in Hlog. cbn [snd] in Hlog.
      rewrite <- (app_nil_r (log st)) in Hlog at 1.
      apply app_inv_head in Hlog. subst added. constructor.
  - intros _ Hfulfilled Hhome. rewrite (Hnone Hhome) in Hfulfilled.
    discriminate.
Qed.

(** Every stage body, on either platform, has the effect of its stage. *)
Lemma body_effect (p : Platform) (s : Stage) (st : State) :
  StageEffect h s st (body h w p s st).
Proof.
  destruct p, s; cbn [body].
  - apply download_effect.
  - apply installDefault_effect.
  - apply updateVariablesWin32_effect.
  - apply post_effect, postInstallDefault_post.
  - apply download_effect.
  - apply installDarwin_effect.
  - apply updateVariablesDarwin_effect.
  - apply post_effect, postInstallDarwin_post.
Qed.

End StageBodies.

(* ===================================================================== *)
(** ** The pipeline *)
(* ===================================================================== *)

Section Pipeline.

Import InstallerBase.

Variable h : Host.
Variable w : World.

(** A stage is skipped, or its body runs and the stage is marked when the
    body is fulfilled. *)
Lemma runStage_unfold (p : Platform) (s : Stage) (st : State) :
  runStage h w p s st
  = if satisfied s (steps (this st)) then (Normal Fulfilled, st)
    else match body h w p s st with
         | (Normal Fulfilled, st1) => (Normal Fulfilled, marked s st1)
         | other => other
         end.
Proof.
  unfold runStage. unfold bind at 1. unfold get_this at 1. cbn beta iota.
  destruct (satisfied s (steps (this st))); [reflexivity|].
  rewrite then_unfold.
  destruct (body h w p s st) as [[[|e|]|e] st1]; reflexivity.
Qed.

(** The four stages in order, a stage that throws being a rejection. *)
Lemma run_unfold (p : Platform) (st0 : State) :
  platformOf h = Some p ->
  run h w st0
  = match settled (runStage h w p Download st0) with
    | (Normal Fulfilled, st1) =>
        match settled (runStage h w p Install st1) with
        | (Normal Fulfilled, st2) =>
            match settled (runStage h w p UpdateVariables st2) with
            | (Normal Fulfilled, st3) => settled (runStage h w p PostInstall st3)
            | other => other
            end
        | other => other
        end
    | other => other
    end.
Proof.
  intros Hp. unfold run. rewrite Hp. rewrite !then_unfold. unfold ret.
  destruct (runStage h w p Download st0) as [[[|e|]|e] st1]; try reflexivity.
  cbn [settled].
  destruct (runStage h w p Install st1) as [[[|e|]|e] st2]; try reflexivity.
  cbn [settled].
  destruct (runStage h w p UpdateVariables st2) as [[[|e|]|e] st3];
    try reflexivity.
  cbn [settled].
  destruct (runStage h w p PostInstall st3) as [[[|e|]|e] st4]; reflexivity.
Qed.

Lemma settled_state (result : Completion Promise * State) :
  snd (settled result) = snd result.
Proof. destruct result as [[q|e] st]; reflexivity. Qed.

(** What holds after the download stage and is kept by each later stage
    holds when the run ends. *)
Lemma run_final (J : State -> Prop) (p : Platform) (st0 : State) :
  platformOf h = Some p ->
  J (snd (runStage h w p Download st0)) ->
  (forall s st, s <> Download -> J st -> J (snd (runStage h w p s st))) ->
  J (snd (run h w st0)).
Proof.
  intros Hp H1 Hkeep. rewrite (run_unfold p st0 Hp).
  rewrite <- settled_state in H1.
  destruct (settled (runStage h w p Download st0)) as [[[|e|]|e] st1];
    cbn [snd] in H1; try exact H1.
  assert (H2 := Hkeep Install st1 ltac:(discriminate) H1).
  rewrite <- settled_state in H2.
  destruct (settled (runStage h w p Install st1)) as [[[|e|]|e] st2];
    cbn [snd] in H2; try exact H2.
  assert (H3 := Hkeep UpdateVariables st2 ltac:(discriminate) H2).
  rewrite <- settled_state in H3.
  destruct (settled (runStage h w p UpdateVariables st2)) as [[[|e|]|e] st3];
    cbn [snd] in H3; try exact H3.
  rewrite settled_state. apply Hkeep; [discriminate | exact H3].
Qed.

(** A stage either is skipped or has the effect of its body; marking
    changes the flags only. *)
Lemma runStage_cases (p : Platform) (s : Stage) (st : State) :
  (satisfied s (steps (this st)) = true
   /\ runStage h w p s st = (Normal Fulfilled, st))
  \/ (satisfied s (steps (this st)) = false
      /\ exists r st1,
           StageEffect h s st (r, st1)
           /\ ((r <> Normal Fulfilled /\ runStage h w p s st = (r, st1))
               \/ (r = Normal Fulfilled
                   /\ runStage h w p s st = (Normal Fulfilled, marked s st1)))).
Proof.
  rewrite runStage_unfold.
  destruct (satisfied s (steps (this st))); [left; now split|].
  right. split; [reflexivity|].
  pose proof (body_effect h w p s st) as Heffect.
  destruct (body h w p s st) as [r st1]. exists r, st1.
  split; [exact Heffect|].
  destruct r as [[|e|]|e];
    try (left; split; [discriminate | reflexivity]).
  right. now split.
Qed.

Lemma mark_monotone (s s' : Stage) (f : StepFlags) :
  satisfied s' f = true -> satisfied s' (mark s f) = true.
Proof. destruct s, s'; cbn; auto. Qed.

Lemma mark_other (s s' : Stage) (f : StepFlags) :
  s' <> s -> satisfied s' (mark s f) = satisfied s' f.
Proof. destruct s, s'; cbn; congruence. Qed.

(** Every stage after the download stage keeps the invariant of the
    context fields. *)
Lemma context_kept (archive : option string) (request : Event) (ran : bool)
  (flags : StepFlags) (p : Platform) (s : Stage) (st : State) :
  s <> Download ->
  ContextInvariant archive request ran flags st ->
  ContextInvariant archive request ran flags (snd (runStage h w p s st)).
Proof.
  intros Hs HJ.
  destruct (runStage_cases p s st) as [[_ ->]|(Hunsat & r & st1 & E & Hcase)];
    [exact HJ|].
  destruct HJ as (Harch & Hzip & Hspawn & Hhome & Hmono & Hdl & Hran).
  destruct E as [Eset Ekeep _ Ehome Egrow Ecalls _ _]. cbn [fst snd] in *.
  destruct Eset as (_ & _ & _ & Hsteps).
  destruct Ecalls as (added & Hlog & Hadded).
  rewrite Forall_forall in Hadded.
  assert (Hcore : forall st',
    installerArchive (this st') = installerArchive (this st1) ->
    androidHomeValue (this st') = androidHomeValue (this st1) ->
    log st' = log st1 ->
    (variablesSet (steps (this st1)) = true ->
     variablesSet (steps (this st')) = true) ->
    ContextInvariant archive request ran flags st').
  { intros st' Ha Hh Hl Hst. unfold ContextInvariant.
    rewrite Ha, Hh, Hl, Hlog.
    split; [rewrite Ekeep by assumption; exact Harch|].
    split.
    { intros a Hin. apply in_app_or in Hin as [Hin|Hin]; [eauto|].
      destruct (Hadded _ Hin) as [Hp|[[_ Hd]|[(_ & _ & Hc)|(_ & _ & Hc)]]];
        try discriminate.
      cbn [installCall] in Hc. congruence. }
    split.
    { intros c a o Hin. apply in_app_or in Hin as [Hin|Hin].
      - apply Egrow. eauto.
      - destruct (Hadded _ Hin) as [Hp|[[_ Hd]|[(_ & _ & Hc)|(_ & Hne & _)]]];
          try discriminate.
        + destruct Hc.
        + now apply Egrow. }
    split.
    { intros Hne. destruct (variablesSet flags) eqn:F; [|reflexivity].
      specialize (Hmono eq_refl).
      destruct s; try congruence;
        try (rewrite Ehome in Hne by discriminate; now apply Hhome).
      cbn [satisfied] in Hunsat. congruence. }
    split.
    { intros F. apply Hst. rewrite Hsteps. now apply Hmono. }
    split.
    { intros ev Hd Hin. apply in_app_or in Hin as [Hin|Hin]; [eauto|].
      destruct (Hadded _ Hin) as [Hp|[[Hsd _]|[(_ & _ & Hc)|(_ & _ & Hc)]]].
      - destruct ev; discriminate.
      - congruence.
      - destruct ev; try discriminate. destruct Hc.
      - destruct ev; discriminate. }
    intros R. apply in_or_app. left. auto. }
  destruct Hcase as [[_ ->]|[_ ->]]; cbn [snd].
  - apply Hcore; auto.
  - apply Hcore; try reflexivity.
    cbn [marked this steps]. intros F.
    apply (mark_monotone s UpdateVariables). exact F.
Qed.

(** The invariant holds once the download stage is over. *)
Lemma context_established (p : Platform) (st0 : State) :
  let flags := steps (this st0) in
  let ran := negb (downloaded flags) in
  let request :=
    E_downloadFile (installSource (installerInfo (this st0))) "GET"
      (cachePath h (this st0))
      (bytes (installerInfo (this st0))) (sha1 (installerInfo (this st0))) in
  installerArchive (this st0) = None ->
  androidHomeValue (this st0) = None ->
  log st0 = [] ->
  ContextInvariant
    (if ran then Some (cachePath h (this st0)) else None) request ran flags
    (snd (runStage h w p Download st0)).
Proof.
  intros flags ran request Harch Hhome Hlog. rewrite runStage_unfold.
  cbn [satisfied]. fold flags. subst ran.
  destruct (downloaded flags) eqn:Hflag; cbn [negb snd].
  - unfold ContextInvariant. rewrite Harch, Hhome, Hlog.
    repeat split; try (intros; contradiction); try congruence; auto.
  - assert (Hbody : body h w p Download st0
                    = AndroidSdkInstaller.downloadDefault h w st0)
      by (destruct p; reflexivity).
    rewrite Hbody, downloadDefault_run. cbv zeta. fold request.
    assert (Hany : forall st',
      installerArchive (this st') = Some (cachePath h (this st0)) ->
      androidHomeValue (this st') = None ->
      log st' = [request] ->
      (variablesSet flags = true -> variablesSet (steps (this st')) = true) ->
      ContextInvariant (Some (cachePath h (this st0))) request true flags st').
    { intros st' Ha Hh Hl Hst. unfold ContextInvariant. rewrite Ha, Hh, Hl.
      split; [reflexivity|].
      split; [intros a [Hin|[]]; discriminate|].
      split; [intros c a o [Hin|[]]; discriminate|].
      split; [congruence|].
      split; [exact Hst|].
      split; [reflexivity | intros _; now left]. }
    destruct (throws w (log st0) request);
      [apply Hany; cbn [snd this log installerArchive androidHomeValue steps];
       auto; now rewrite Hlog|].
    destruct (downloadFile w (log st0) _ _);
      apply Hany;
      cbn [snd marked this log installerArchive androidHomeValue steps mark
           variablesSet];
      auto; now rewrite Hlog.
Qed.

(** What no stage changes, and how the log grows. *)
Lemma runStage_settings (p : Platform) (s : Stage) (st : State) :
  let st' := snd (runStage h w p s st) in
  installerInfo (this st') = installerInfo (this st)
  /\ softwareVersion (this st') = softwareVersion (this st)
  /\ installDestination (this st') = installDestination (this st)
  /\ (forall s', s' <> s ->
        satisfied s' (steps (this st')) = satisfied s' (steps (this st)))
  /\ exists added, log st' = log st ++ added /\ Forall (stageCall s st) added.
Proof.
  cbv zeta.
  destruct (runStage_cases p s st) as [[_ ->]|(_ & r & st1 & E & Hcase)].
  - cbn [snd]. repeat split; auto. exists []. split; [log_extends | constructor].
  - destruct E as [(Hinfo & Hver & Hdest & Hsteps) _ _ _ _ Hcalls _ _].
    cbn [fst snd] in *.
    destruct Hcase as [[_ ->]|[_ ->]]; cbn [snd marked this log steps
      installerInfo softwareVersion installDestination].
    + repeat split; auto. intros s' _. now rewrite Hsteps.
    + repeat split; auto. intros s' Hs'. rewrite Hsteps.
      now apply mark_other.
Qed.

Lemma plain_not_archive (ev : Event) :
  isPlainCall ev = true -> isArchiveCall ev = false.
Proof. destruct ev; simpl; congruence. Qed.

Lemma plain_not_download (ev : Event) :
  isPlainCall ev = true -> isDownload ev = false.
Proof. destruct ev; simpl; congruence. Qed.

(** Without a destination no stage opens the archive, creates a directory
    or extracts. *)
Lemma no_destination_kept (p : Platform) (s : Stage) (st : State) :
  installDestination (this st) = "" ->
  (forall ev, In ev (log st) -> isArchiveCall ev = false) ->
  installDestination (this (snd (runStage h w p s st))) = ""
  /\ (forall ev, In ev (log (snd (runStage h w p s st))) ->
        isArchiveCall ev = false).
Proof.
  intros Hdest Hlog.
  destruct (runStage_settings p s st) as (_ & _ & Hd & _ & added & Hl & Hadded).
  split; [congruence|].
  intros ev Hin. rewrite Hl in Hin. apply in_app_or in Hin as [Hin|Hin]; [auto|].
  rewrite Forall_forall in Hadded.
  destruct (Hadded ev Hin) as [Hp|[[_ Hdl]|[(_ & Hne & _)|(_ & _ & Hc)]]].
  - now apply plain_not_archive.
  - destruct ev; simpl in *; congruence.
  - congruence.
  - destruct ev; simpl in *; congruence.
Qed.

End Pipeline.

(** C1, as the code has it.  In every run, [installerArchive] is set
    exactly when the download request was issued in this run, that is when
    the platform is supported and the download stage was not already
    satisfied; when the stage is skipped the field stays [undefined], and
    whatever the install stage opens is the value of the field, set or not.
    [androidHomeValue] is set only by an update-variables stage that was
    not already satisfied, and no child of the post-install stage is
    spawned unless it is set. *)
Theorem run_context_fields (h : Host) (w : World) (info : IInstallerData)
  (version installTo : string) (flags : StepFlags) :
  let st0 := InstallerBase.construct info version installTo flags in
  let after := snd (InstallerBase.run h w st0) in
  let cache :=
    path_join (path h)
      [ installerCache h; "androidSdk"; os_platform h; version;
        path_basename (path h) (installSource info) ] in
  let request :=
    E_downloadFile (installSource info) "GET" cache (bytes info) (sha1 info) in
  let ran :=
    match InstallerBase.platformOf h with
    | Some _ => negb (downloaded flags)
    | None => false
    end in
  (In request (log after) <-> ran = true)
  /\ installerArchive (this after) = (if ran then Some cache else None)
  /\ (forall a, In (E_admZip a) (log after) ->
        a = installerArchive (this after))
  /\ (androidHomeValue (this after) <> None -> variablesSet flags = false)
  /\ (forall c a o, In (E_spawn c a o) (log after) ->
        androidHomeValue (this after) <> None).
Proof.
  intros st0 after cache request ran.
  assert (HJ : ContextInvariant (if ran then Some cache else None) request ran
                 flags after).
  { subst after ran. destruct (InstallerBase.platformOf h) as [p|] eqn:Hp.
    - apply (run_final h w _ p st0 Hp).
      + apply (context_established h w p st0); reflexivity.
      + intros s st Hs. now apply context_kept.
    - unfold InstallerBase.run. rewrite Hp. cbn [ret snd].
      unfold ContextInvariant. cbn [st0 InstallerBase.construct this log
        installerArchive androidHomeValue steps].
      repeat split; try (intros; contradiction); try congruence; auto. }
  destruct HJ as (Harch & Hzip & Hspawn & Hhome & _ & Hdl & Hran).
  split; [split; [now apply Hdl | exact Hran]|].
  split; [exact Harch|].
  split; [intros a Hin; rewrite Harch; now apply Hzip|].
  split; [exact Hhome | exact Hspawn].
Qed.

(** C5, as the code has it.  The destination is checked by
    [installDefault], the body of the install stage: with an empty
    destination it reports and rejects with [NeedInstallDestination]
    without opening the archive, creating a directory or extracting, and
    no stage of such a run ever does; a run whose install stage is not
    already satisfied never succeeds.  The check comes when the install
    stage is reached: with the download stage satisfied the run rejects
    with [NeedInstallDestination] and no download request, and with the
    download stage to do the request is issued first. *)
Theorem run_without_destination (h : Host) (w : World) (info : IInstallerData)
  (version : string) (flags : StepFlags) :
  let st0 := InstallerBase.construct info version "" flags in
  let result := InstallerBase.run h w st0 in
  let request :=
    E_downloadFile (installSource info) "GET"
      (path_join (path h)
         [ installerCache h; "androidSdk"; os_platform h; version;
           path_basename (path h) (installSource info) ])
      (bytes info) (sha1 info) in
  (forall st, installDestination (this st) = "" ->
     AndroidSdkInstaller.installDefault h w st
     = (Normal (Rejected (ResourceError "NeedInstallDestination")),
        {| this := this st;
           log := log st ++ [ E_telemetry_add "error.description"
                                (TString "NeedInstallDestination on installDefault")
                                false ] |}))
  /\ (forall ev, In ev (log (snd result)) -> isArchiveCall ev = false)
  /\ (installed flags = false -> fst result <> Normal Fulfilled)
  /\ (forall p, InstallerBase.platformOf h = Some p ->
      downloaded flags = true -> installed flags = false ->
      fst result = Normal (Rejected (ResourceError "NeedInstallDestination"))
      /\ (forall ev, In ev (log (snd result)) -> isDownload ev = false))
  /\ (forall p, InstallerBase.platformOf h = Some p ->
      downloaded flags = false ->
      exists tail, log (snd result) = request :: tail).
Proof.
  intros st0 result request.
  split; [intros st Hdest; now apply installDefault_empty|].
  (* the install stage, reached with an empty destination *)
  assert (Hinstall : forall p st1,
    installDestination (this st1) = "" ->
    installed (steps (this st1)) = false ->
    exists st2,
      InstallerBase.runStage h w p InstallerBase.Install st1
      = (Normal (Rejected (ResourceError "NeedInstallDestination")), st2)
      /\ exists added,
           log st2 = log st1 ++ added
           /\ forallb isPlainCall added = true).
  { intros p st1 Hdest Hflag.
    destruct (runStage_cases h w p InstallerBase.Install st1)
      as [[Hsat _]|(_ & r & st2 & E & Hcase)];
      [cbn [InstallerBase.satisfied] in Hsat; congruence|].
    destruct E as [_ _ _ _ _ (added & Hlog & Hadded) Hempty _].
    cbn [fst snd] in *. specialize (Hempty eq_refl Hdest). subst r.
    destruct Hcase as [[_ Hrun]|[Hf _]]; [|discriminate].
    exists st2. split; [exact Hrun|]. exists added. split; [exact Hlog|].
    apply forallb_forall. intros ev Hin. rewrite Forall_forall in Hadded.
    destruct (Hadded ev Hin) as [Hp|[[Hs _]|[(_ & Hne & _)|(Hs & _)]]];
      congruence. }
  split.
  { subst result. destruct (InstallerBase.platformOf h) as [p|] eqn:Hp.
    - apply (run_final h w
               (fun st => installDestination (this st) = ""
                          /\ forall ev, In ev (log st) -> isArchiveCall ev = false)
               p st0 Hp).
      + apply no_destination_kept; [reflexivity | intros ev []].
      + intros s st _ [Hd Hl]. now apply no_destination_kept.
    - unfold InstallerBase.run. rewrite Hp. intros ev []. }
  split.
  { intros Hflag. subst result.
    destruct (InstallerBase.platformOf h) as [p|] eqn:Hp;
      [|unfold InstallerBase.run; rewrite Hp; discriminate].
    rewrite (run_unfold h w p st0 Hp).
    destruct (runStage_settings h w p InstallerBase.Download st0)
      as (_ & _ & Hdest & Hsteps & _).
    specialize (Hsteps InstallerBase.Install ltac:(discriminate)).
    cbn [InstallerBase.satisfied] in Hsteps.
    rewrite <- settled_state in Hdest, Hsteps.
    destruct (settled (InstallerBase.runStage h w p InstallerBase.Download st0))
      as [[[|e|]|e] st1]; try discriminate.
    cbn [snd] in Hdest, Hsteps.
    destruct (Hinstall p st1) as (st2 & -> & _); [exact Hdest | |discriminate].
    rewrite Hsteps. exact Hflag. }
  split.
  { intros p Hp Hdown Hflag. subst result.
    rewrite (run_unfold h w p st0 Hp).
    rewrite (runStage_unfold h w p InstallerBase.Download st0).
    cbn [InstallerBase.satisfied st0 InstallerBase.construct this steps].
    rewrite Hdown. cbn [settled].
    destruct (Hinstall p st0)
      as (st2 & -> & added & Hlog & Hadded); [reflexivity | exact Hflag |].
    cbn [settled fst snd]. split; [reflexivity|].
    intros ev Hin. rewrite Hlog in Hin.
    cbn [st0 InstallerBase.construct log app] in Hin.
    rewrite forallb_forall in Hadded. now apply plain_not_download, Hadded. }
  intros p Hp Hdown. subst result.
  apply (run_final h w (fun st => exists tail, log st = request :: tail) p st0 Hp).
  - rewrite (runStage_unfold h w p InstallerBase.Download st0).
    cbn [InstallerBase.satisfied st0 InstallerBase.construct this steps].
    rewrite Hdown.
    assert (Hbody : InstallerBase.body h w p InstallerBase.Download st0
                    = AndroidSdkInstaller.downloadDefault h w st0)
      by (destruct p; reflexivity).
    rewrite Hbody, downloadDefault_run. cbv zeta.
    cbn [st0 InstallerBase.construct this log app installerInfo softwareVersion].
    unfold cachePath. cbn [softwareVersion installerInfo]. fold request.
    destruct (throws w [] request); [exists []; reflexivity|].
    destruct (downloadFile w [] _ _); exists []; reflexivity.
  - intros s st _ [tail Htail].
    destruct (runStage_settings h w p s st) as (_ & _ & _ & _ & added & Hl & _).
    exists (tail ++ added). rewrite Hl, Htail. reflexivity.
Qed.

(* ===================================================================== *)
(** ** Concrete runs *)
(* ===================================================================== *)

(** C1, against the claim.  Download and update-variables are marked
    satisfied, install and post-install are not.  The download stage is
    skipped and [installerArchive] stays [undefined]; the install stage
    runs all the same, opens no archive by name and extracts; the
    update-variables stage is skipped and [androidHomeValue] stays
    [undefined]; the post-install stage is reached and fails on
    [path.join]. *)
Lemma run_skipped_stages_leave_fields_unset :
  downloaded Sample.downloadAndVariablesDone = true
  /\ variablesSet Sample.downloadAndVariablesDone = true
  /\ InstallerBase.run Sample.darwin (Sample.quiet (Sample.exits 0))
       (Sample.fresh "/opt/sdk" Sample.downloadAndVariablesDone)
     = (Normal (Rejected (TypeError "Arguments to path.join must be strings")),
        {| this := {| installerInfo := Sample.info;
                      softwareVersion := "24.3.4";
                      installDestination := "/opt/sdk";
                      steps := Sample.onlyPostInstallLeft;
                      installerArchive := None;
                      androidHomeValue := None |};
           log := [ E_existsSync "/opt/sdk";
                    E_admZip None;
                    E_existsSync "/opt/sdk";
                    E_mkdirSyncRecursive "/opt/sdk" 511;
                    E_extractAllTo "/opt/sdk";
                    E_chownSyncRecursive "/opt/sdk" (Some 501%Z) (Some 20%Z) ] |}).
Proof. vm_compute. repeat split. Qed.

(** C2 at work: the package manager complains and exits with 0. *)
Lemma installAndroidPackages_rejects_on_stderr_witness :
  fst (AndroidSdkInstaller.installAndroidPackages Sample.darwin
         (Sample.quiet (fun _ => Sample.complains)) Sample.ready)
  = Normal (Rejected (MessageError "Error: Missing SDK tools directory")).
Proof.
  destruct (installAndroidPackages_rejects_on_stderr Sample.darwin
              (Sample.quiet (fun _ => Sample.complains)) Sample.ready
              Sample.home
              [ StdoutData "Installing Archives:"; StderrData "Error: ";
                StderrData "Missing SDK tools directory" ] [] 0)
    as [Hresult _];
    [reflexivity | reflexivity | reflexivity | reflexivity | discriminate |].
  exact Hresult.
Defined.

(** C3, against the claim: the package manager writes nothing to its
    standard error and exits with 1; the step resolves as success. *)
Lemma installAndroidPackages_resolves_on_exit_code_1 :
  spawn (Sample.quiet (Sample.exits 1)) []
    "/opt/sdk/android-sdk-macosx/tools/android"
    AndroidSdkInstaller.installAndroidPackages_args
    (Some {| uid := Some 501%Z; gid := Some 20%Z |})
  = [ChildExit 1]
  /\ fst (AndroidSdkInstaller.installAndroidPackages Sample.darwin
            (Sample.quiet (Sample.exits 1)) Sample.ready)
     = Normal Fulfilled.
Proof. split; vm_compute; reflexivity. Qed.

(** C3 at work: exit code 3, nothing on the standard error. *)
Lemma installAndroidPackages_outcome_ignores_exit_code_witness :
  fst (AndroidSdkInstaller.installAndroidPackages Sample.linux
         (Sample.quiet (Sample.exits 3)) Sample.ready)
  = Normal Fulfilled.
Proof.
  destruct (installAndroidPackages_outcome_ignores_exit_code Sample.linux
              (Sample.quiet (Sample.exits 3)) Sample.ready Sample.home
              [] [] 3) as [Hquiet _];
    [reflexivity | reflexivity | reflexivity | reflexivity |].
  apply Hquiet. reflexivity.
Defined.

(** C4 at the failing input: two chunks show the prompt.  The step
    answers the first and ends the standard input; for the second it
    writes again, and the listener throws. *)
Lemma installAndroidPackages_writes_after_end_witness :
  (exists added,
     log (snd (AndroidSdkInstaller.installAndroidPackages Sample.darwin
                 (Sample.quiet (fun _ => Sample.asksTwice)) Sample.ready))
     = E_spawn "/opt/sdk/android-sdk-macosx/tools/android"
         AndroidSdkInstaller.installAndroidPackages_args
         (Some {| uid := Some 501%Z; gid := Some 20%Z |}) :: added
     /\ filter isStdinCall added
        = [ E_stdin_write ("y" +++ Js.LF); E_stdin_end;
            E_stdin_write ("y" +++ Js.LF) ])
  /\ exists s st',
       AndroidSdkInstaller.installAndroidPackages_on Sample.darwin s
         (StdoutData "Do you accept the license 'android-sdk-preview-license-52d11cd2' [y/n]: ")
         st'
       = (Thrown (MessageError "write after end"),
          {| this := this st';
             log := log st' ++ [E_stdin_write ("y" +++ Js.LF)] |}).
Proof.
  destruct (installAndroidPackages_writes_after_end Sample.darwin
              (Sample.quiet (fun _ => Sample.asksTwice)) Sample.ready
              Sample.home) as [(added & Hlog & Hanswers & _) Hthrows];
    [reflexivity | reflexivity |].
  split.
  - exists added. split; [exact Hlog | exact Hanswers].
  - destruct (Hthrows
                [ StdoutData "Do you accept the license 'android-sdk-license-5be876d5' [y/n]: " ]
                "Do you accept the license 'android-sdk-preview-license-52d11cd2' [y/n]: "
                [ ChildExit 0 ])
      as (s & st' & _ & Hthrown); [reflexivity | reflexivity | reflexivity |].
    exists s, st'. exact Hthrown.
Defined.

(** C5, against the claim: nothing is satisfied yet and the destination is
    empty.  The download request is issued, the working directory is
    probed, and only then does the run reject. *)
Lemma run_without_destination_downloads_first :
  InstallerBase.run Sample.darwin (Sample.quiet (Sample.exits 0))
    (Sample.fresh "" Sample.noneDone)
  = (Normal (Rejected (ResourceError "NeedInstallDestination")),
     {| this := {| installerInfo := Sample.info;
                   softwareVersion := "24.3.4";
                   installDestination := "";
                   steps := {| downloaded := true; installed := false;
                               variablesSet := false; postInstalled := false |};
                   installerArchive :=
                     Some "/Users/dev/.taco_home/third-party-installers/androidSdk/darwin/24.3.4/sdk.zip";
                   androidHomeValue := None |};
        log := [ E_downloadFile "http://x/sdk.zip" "GET"
                   "/Users/dev/.taco_home/third-party-installers/androidSdk/darwin/24.3.4/sdk.zip"
                   1024 "abc";
                 E_existsSync "/Users/dev/project";
                 E_telemetry_add "error.description"
                   (TString "NeedInstallDestination on installDefault") false ] |}).
Proof. vm_compute. reflexivity. Qed.

(** C6, against the claim: the kill-server child exits with 1 and the step
    resolves as success. *)
Lemma killAdb_resolves_on_exit_code_1 :
  spawn (Sample.quiet (Sample.exits 1)) []
    "/opt/sdk/android-sdk-macosx/platform-tools/adb" ["kill-server"] None
  = [ChildExit 1]
  /\ AndroidSdkInstaller.killAdb Sample.darwin (Sample.quiet (Sample.exits 1))
       Sample.ready
     = (Normal Fulfilled,
        {| this := this Sample.ready;
           log := [ E_spawn "/opt/sdk/android-sdk-macosx/platform-tools/adb"
                      ["kill-server"] None ] |}).
Proof. split; vm_compute; reflexivity. Qed.

(** C6 at work: the child cannot be started. *)
Lemma killAdb_outcome_witness :
  fst (AndroidSdkInstaller.killAdb Sample.darwin
         (Sample.quiet (fun _ => Sample.cannotStart)) Sample.ready)
  = Normal (Rejected (ExternalError "spawn ENOENT")).
Proof.
  destruct (killAdb_outcome Sample.darwin
              (Sample.quiet (fun _ => Sample.cannotStart)) Sample.ready
              Sample.home) as [Hresult _];
    [reflexivity | reflexivity |].
  exact Hresult.
Defined.

(** C7 at work: no profile yet, the command succeeds.  The profile is
    handed back to user 501 of group 20; and when that call throws, the
    promise of the stage stays pending. *)
Lemma updateVariablesDarwin_profile_witness :
  (androidHomeValue
     (this (snd (AndroidSdkInstaller.updateVariablesDarwin Sample.darwin
                   (Sample.quiet (Sample.exits 0))
                   (Sample.fresh "/opt/sdk" Sample.noneDone))))
   = Some "/opt/sdk/android-sdk-macosx"
   /\ fst (AndroidSdkInstaller.updateVariablesDarwin Sample.darwin
             (Sample.quiet (Sample.exits 0))
             (Sample.fresh "/opt/sdk" Sample.noneDone))
      = Normal Fulfilled
   /\ exists tail,
        log (snd (AndroidSdkInstaller.updateVariablesDarwin Sample.darwin
                    (Sample.quiet (Sample.exits 0))
                    (Sample.fresh "/opt/sdk" Sample.noneDone)))
        = ([] ++ [E_existsSync "/Users/dev/.bash_profile"]
              ++ [E_exec
                    (AndroidSdkInstaller.updateCommand
                       "/opt/sdk/android-sdk-macosx"
                       "/Users/dev/.bash_profile")])
          ++ tail
        /\ In (E_chownSync "/Users/dev/.bash_profile"
                 (Some 501%Z) (Some 20%Z)) tail)
  /\ fst (AndroidSdkInstaller.updateVariablesDarwin Sample.darwin
            {| throws := fun _ ev =>
                           match ev with
                           | E_chownSync _ _ _ => Some (ExternalError "EPERM")
                           | _ => None
                           end;
               existsSync := fun _ _ => false;
               downloadFile := fun _ _ _ => Fulfilled;
               exec := fun _ _ => ExecOk;
               spawn := fun _ _ _ _ => [];
               setEnvironmentVariableIfNeededWin32 := fun _ _ _ => Fulfilled;
               addToPathIfNeededWin32 := fun _ _ => Fulfilled |}
            (Sample.fresh "/opt/sdk" Sample.noneDone))
     = Normal Pending.
Proof.
  split.
  - destruct (updateVariablesDarwin_profile Sample.darwin
                (Sample.quiet (Sample.exits 0))
                (Sample.fresh "/opt/sdk" Sample.noneDone) "/Users/dev")
      as (Hhome & (tail & Hlog & Hchown & _) & _ & Hok); [reflexivity|].
    split; [exact Hhome|]. split; [apply Hok; reflexivity|].
    exists tail. split; [exact Hlog|].
    apply Hchown. split; reflexivity.
  - destruct (updateVariablesDarwin_profile Sample.darwin
                {| throws := fun _ ev =>
                               match ev with
                               | E_chownSync _ _ _ => Some (ExternalError "EPERM")
                               | _ => None
                               end;
                   existsSync := fun _ _ => false;
                   downloadFile := fun _ _ _ => Fulfilled;
                   exec := fun _ _ => ExecOk;
                   spawn := fun _ _ _ _ => [];
                   setEnvironmentVariableIfNeededWin32 := fun _ _ _ => Fulfilled;
                   addToPathIfNeededWin32 := fun _ _ => Fulfilled |}
                (Sample.fresh "/opt/sdk" Sample.noneDone) "/Users/dev")
      as (_ & _ & _ & Hok); [reflexivity|].
    apply Hok. reflexivity.
Defined.

(** C8 at work: on Darwin, the identity of the invoking user. *)
Lemma installAndroidPackages_spawn_identity_witness :
  exists added,
    log (snd (AndroidSdkInstaller.installAndroidPackages Sample.darwin
                (Sample.quiet (Sample.exits 0)) Sample.ready))
    = E_spawn "/opt/sdk/android-sdk-macosx/tools/android"
        [ "update"; "sdk"; "-u"; "-a"; "--filter";
          "tools,platform-tools,extra-android-support,extra-android-m2repository,build-tools-19.1.0,build-tools-21.1.2,build-tools-22.0.1,android-19,android-21,android-22" ]
        (Some {| uid := Some 501%Z; gid := Some 20%Z |}) :: added.
Proof.
  destruct (installAndroidPackages_spawn_identity Sample.darwin
              (Sample.quiet (Sample.exits 0)) Sample.ready Sample.home)
    as (added & _ & Hdarwin & _); [reflexivity|].
  exists added. apply Hdarwin. reflexivity.
Defined.

(** C9, against the claim: a version that starts with [..].  Joining
    normalises the path, and the platform is gone from it. *)
Lemma downloadDefault_cache_path_loses_platform :
  installerArchive
    (this (snd (AndroidSdkInstaller.downloadDefault Sample.darwin
                  (Sample.quiet (Sample.exits 0)) (fromGoogle "../24.3.4"))))
  = Some "/Users/dev/.taco_home/third-party-installers/androidSdk/24.3.4/android-sdk_r24.3.4-macosx.zip".
Proof. vm_compute. reflexivity. Qed.

(** C9 at work: a plain version, and a source that ends in a slash. *)
Lemma downloadDefault_cache_path_witness :
  installerArchive
    (this (snd (AndroidSdkInstaller.downloadDefault Sample.darwin
                  (Sample.quiet (Sample.exits 0)) (fromGoogle "24.3.4"))))
  = Some "/Users/dev/.taco_home/third-party-installers/androidSdk/darwin/24.3.4/android-sdk_r24.3.4-macosx.zip"
  /\ log (snd (AndroidSdkInstaller.downloadDefault Sample.darwin
                 (Sample.quiet (Sample.exits 0)) (fromGoogle "24.3.4")))
     = [ E_downloadFile
           "https://dl.google.com/android/android-sdk_r24.3.4-macosx.zip/"
           "GET"
           "/Users/dev/.taco_home/third-party-installers/androidSdk/darwin/24.3.4/android-sdk_r24.3.4-macosx.zip"
           98340900 "128f10fba668ea490cc94a08e505a48a608879b9" ]
  /\ path_basename (path Sample.darwin)
       "https://dl.google.com/android/android-sdk_r24.3.4-macosx.zip/"
     = "android-sdk_r24.3.4-macosx.zip".
Proof.
  destruct (downloadDefault_cache_path Sample.darwin
              (Sample.quiet (Sample.exits 0)) (fromGoogle "24.3.4"))
    as (Harchive & Hlog & Hbase & _);
    [reflexivity | reflexivity | reflexivity | reflexivity | reflexivity |].
  split; [exact Harchive|]. split; [exact Hlog|].
  apply (Hbase "https://dl.google.com/android"
           "android-sdk_r24.3.4-macosx.zip" 1%nat); reflexivity.
Defined.

(** C10, against the claim: the destination [sdk] has no newline in it,
    but the working directory has.  The resolved path is split in two, the
    first piece does not exist, and after the extraction into [sdk] it is
    that piece, a directory above the destination, whose ownership is
    reset. *)
Lemma installDarwin_resets_directory_above :
  lacks "010" "sdk" = true
  /\ log (snd (AndroidSdkInstaller.installDarwin newlineHost
                 (Sample.quiet (Sample.exits 0))
                 (Sample.fresh "sdk" Sample.downloadAndVariablesDone)))
     = [ E_existsSync "/Users/dev/my"; E_admZip None; E_existsSync "sdk";
         E_mkdirSyncRecursive "sdk" 511; E_extractAllTo "sdk";
         E_chownSyncRecursive "/Users/dev/my" (Some 501%Z) (Some 20%Z) ].
Proof. split; vm_compute; reflexivity. Qed.

(** C10 at work: the destination does not exist yet. *)
Lemma installDarwin_whole_destination_witness :
  AndroidSdkInstaller.firstNonExistentDir Sample.darwin
    (Sample.quiet (Sample.exits 0)) ["/opt/sdk"] ""
    (Sample.fresh "/opt/sdk" Sample.noneDone)
  = (Normal (Some "/opt/sdk"),
     {| this := this (Sample.fresh "/opt/sdk" Sample.noneDone);
        log := [E_existsSync "/opt/sdk"] |}).
Proof.
  destruct (installDarwin_whole_destination Sample.darwin
              (Sample.quiet (Sample.exits 0))
              (Sample.fresh "/opt/sdk" Sample.noneDone))
    as (_ & Hfirst & _); [reflexivity | reflexivity |].
  exact Hfirst.
Defined.

(* ===================================================================== *)
(** ** Further properties of the class *)
(* ===================================================================== *)

Section Supervision.

Variable h : Host.
Variable w : World.

Lemma outputBefore_output (events : list ChildEvent) :
  forallb isOutput (outputBefore events) = true.
Proof.
  induction events as [|ev events IH]; [reflexivity|].
  cbn [outputBefore]. destruct (isOutput ev) eqn:E; [|reflexivity].
  cbn [forallb]. now rewrite E, IH.
Qed.

(** The events of a child are its first chunks, then nothing or the event
    that settles and what follows it. *)
Lemma events_split (events : list ChildEvent) :
  (firstSettling events = None /\ events = outputBefore events)
  \/ (exists ev rest,
        firstSettling events = Some ev
        /\ isOutput ev = false
        /\ events = outputBefore events ++ ev :: rest).
Proof.
  induction events as [|ev events IH].
  - left. now split.
  - cbn [firstSettling outputBefore]. destruct (isOutput ev) eqn:E.
    + destruct IH as [[Hnone Heq]|(ev' & rest & Hsome & Hout & Heq)].
      * left. split; [exact Hnone | now rewrite <- Heq].
      * right. exists ev', rest. repeat split; auto.
        cbn [app]. now rewrite <- Heq.
    + right. exists ev, events. repeat split; auto.
Qed.

(** The listeners up to and including an ['error'] that comes first. *)
Lemma installAndroidPackages_at_error
  (st : State) (home : string) (chunks rest : list ChildEvent) (err : JsError) :
  let command :=
    path_join (path h) [home; "tools"; AndroidSdkInstaller.androidCommand h] in
  let options :=
    if (os_platform h =? "darwin")%string
    then Some {| uid := AndroidSdkInstaller.SUDO_UID h;
                 gid := AndroidSdkInstaller.SUDO_GID h |}
    else None in
  let spawned :=
    E_spawn command AndroidSdkInstaller.installAndroidPackages_args options in
  androidHomeValue (this st) = Some home ->
  throws w (log st) spawned = None ->
  spawn w (log st) command AndroidSdkInstaller.installAndroidPackages_args options
  = chunks ++ ChildError err :: rest ->
  forallb isOutput chunks = true ->
  fst (AndroidSdkInstaller.installAndroidPackages h w st)
  = Normal (Rejected err).
Proof.
  intros command options spawned Hhome Hthrow Hspawn Hout.
  rewrite (installAndroidPackages_unfold h w st home Hhome).
  cbv zeta. fold command options spawned. rewrite Hthrow, Hspawn.
  unfold bind at 1. rewrite installAndroidPackages_listen_app.
  unfold bind at 1.
  destruct (installAndroidPackages_listen_effects h chunks
              {| AndroidSdkInstaller.errorOutput := "";
                 AndroidSdkInstaller.deferred := Pending;
                   AndroidSdkInstaller.stdinEnded := false |}
              {| this := this st; log := log st ++ [spawned] |})
    as (s1 & added1 & -> & _ & _ & Hpend1 & _).
  specialize (Hpend1 Hout).
  cbn [AndroidSdkInstaller.deferred] in Hpend1.
  cbn [AndroidSdkInstaller.installAndroidPackages_listen].
  unfold AndroidSdkInstaller.installAndroidPackages_on.
  rewrite Hpend1. unfold uncaught, bind, emit, ret. cbn [this log settle].
  match goal with
  | |- context [AndroidSdkInstaller.installAndroidPackages_listen h ?s rest ?st0] =>
      destruct (installAndroidPackages_listen_effects h rest s st0)
        as (s3 & added3 & -> & _ & Hset3 & _)
  end.
  cbn [AndroidSdkInstaller.deferred] in Hset3.
  cbn [fst]. now rewrite Hset3 by discriminate.
Qed.

(** The listeners over chunks only: the promise stays pending. *)
Lemma installAndroidPackages_no_end
  (st : State) (home : string) :
  let command :=
    path_join (path h) [home; "tools"; AndroidSdkInstaller.androidCommand h] in
  let options :=
    if (os_platform h =? "darwin")%string
    then Some {| uid := AndroidSdkInstaller.SUDO_UID h;
                 gid := AndroidSdkInstaller.SUDO_GID h |}
    else None in
  let spawned :=
    E_spawn command AndroidSdkInstaller.installAndroidPackages_args options in
  androidHomeValue (this st) = Some home ->
  throws w (log st) spawned = None ->
  forallb isOutput
    (spawn w (log st) command AndroidSdkInstaller.installAndroidPackages_args
       options) = true ->
  fst (AndroidSdkInstaller.installAndroidPackages h w st) = Normal Pending.
Proof.
  intros command options spawned Hhome Hthrow Hout.
  rewrite (installAndroidPackages_unfold h w st home Hhome).
  cbv zeta. fold command options spawned. rewrite Hthrow.
  unfold bind at 1.
  match goal with
  | |- context [AndroidSdkInstaller.installAndroidPackages_listen h ?s ?evs ?st0] =>
      destruct (installAndroidPackages_listen_effects h evs s st0)
        as (s1 & added1 & -> & _ & _ & Hpend1 & _)
  end.
  specialize (Hpend1 Hout). cbn [AndroidSdkInstaller.deferred] in Hpend1.
  cbn [ret fst]. now rewrite Hpend1.
Qed.

End Supervision.

(** X1.  Once the package manager has been spawned, the outcome of the
    package-installation step is decided by the first ['error'] or ['exit']
    event alone: an ['error'] rejects with its error; an ['exit'] rejects
    with the text captured from the standard error before it when there is
    some and resolves otherwise; what the child writes after that event,
    to its standard error included, changes nothing; and when neither
    event ever comes the promise is never settled. *)
Theorem installAndroidPackages_first_settling_event
  (h : Host) (w : World) (st : State) (home : string) :
  let command :=
    path_join (path h) [home; "tools"; AndroidSdkInstaller.androidCommand h] in
  let options :=
    if (os_platform h =? "darwin")%string
    then Some {| uid := AndroidSdkInstaller.SUDO_UID h;
                 gid := AndroidSdkInstaller.SUDO_GID h |}
    else None in
  let spawned :=
    E_spawn command AndroidSdkInstaller.installAndroidPackages_args options in
  let events :=
    spawn w (log st) command AndroidSdkInstaller.installAndroidPackages_args
      options in
  let captured := capturedStderr (outputBefore events) in
  androidHomeValue (this st) = Some home ->
  throws w (log st) spawned = None ->
  fst (AndroidSdkInstaller.installAndroidPackages h w st)
  = Normal (match firstSettling events with
            | Some (ChildError err) => Rejected err
            | Some (ChildExit _) =>
                if Js.truthy captured
                then Rejected (MessageError captured) else Fulfilled
            | _ => Pending
            end).
Proof.
  intros command options spawned events captured Hhome Hthrow.
  destruct (events_split events)
    as [[Hnone Heq]|(ev & rest & Hsome & Hout & Heq)].
  - rewrite Hnone.
    apply (installAndroidPackages_no_end h w st home Hhome Hthrow).
    fold command options events. rewrite Heq. apply outputBefore_output.
  - rewrite Hsome. destruct ev as [data|data|err|code]; try discriminate.
    + apply (installAndroidPackages_at_error h w st home
               (outputBefore events) rest err Hhome Hthrow Heq).
      apply outputBefore_output.
    + destruct (installAndroidPackages_at_exit h w st home
                  (outputBefore events) rest code Hhome Hthrow Heq
                  (outputBefore_output events)) as (before & after & ->).
      reflexivity.
Qed.

(** X1 at work: the child complains only after it has exited; the step
    resolves. *)
Lemma installAndroidPackages_first_settling_event_witness :
  fst (AndroidSdkInstaller.installAndroidPackages Sample.darwin
         (Sample.quiet (fun _ => [ ChildExit 0; StderrData "too late" ]))
         Sample.ready)
  = Normal Fulfilled.
Proof.
  apply (installAndroidPackages_first_settling_event Sample.darwin
           (Sample.quiet (fun _ => [ ChildExit 0; StderrData "too late" ]))
           Sample.ready Sample.home); reflexivity.
Defined.

(** X2.  A step of the post-install stage that starts before the home
    directory of the SDK is known (no update-variables stage has run in
    this process) throws a [TypeError] at once, out of [path.join]: it
    returns no promise, runs no command, spawns no child, reports nothing
    to telemetry and leaves the installer as it was.  This holds of the
    three steps and of the stage itself on either platform. *)
Theorem postInstall_throws_without_home
  (h : Host) (w : World) (st : State) (step : M Promise) :
  androidHomeValue (this st) = None ->
  In step [ AndroidSdkInstaller.addExecutePermission h w;
            AndroidSdkInstaller.installAndroidPackages h w;
            AndroidSdkInstaller.killAdb h w;
            AndroidSdkInstaller.postInstallDefault h w;
            AndroidSdkInstaller.postInstallWin32 h w;
            AndroidSdkInstaller.postInstallDarwin h w ] ->
  exists message, step st = (Thrown (TypeError message), st).
Proof.
  intros Hhome Hin. eexists.
  cbn [In] in Hin.
  destruct Hin as [<-|[<-|[<-|[<-|[<-|[<-|[]]]]]]].
  - exact (addExecutePermission_undefined h w st Hhome).
  - exact (installAndroidPackages_undefined h w st Hhome).
  - exact (killAdb_undefined h w st Hhome).
  - exact (proj2 (proj2 (postInstallDefault_post h w st)) Hhome).
  - exact (proj2 (proj2 (postInstallDefault_post h w st)) Hhome).
  - exact (proj2 (proj2 (postInstallDarwin_post h w st)) Hhome).
Qed.

(** X2 at work: the Darwin stage on an installer just constructed. *)
Lemma postInstall_throws_without_home_witness :
  exists message,
    AndroidSdkInstaller.postInstallDarwin Sample.darwin
      (Sample.quiet (Sample.exits 0))
      (Sample.fresh "/opt/sdk" Sample.onlyPostInstallLeft)
    = (Thrown (TypeError message),
       Sample.fresh "/opt/sdk" Sample.onlyPostInstallLeft).
Proof.
  apply (postInstall_throws_without_home Sample.darwin
           (Sample.quiet (Sample.exits 0))
           (Sample.fresh "/opt/sdk" Sample.onlyPostInstallLeft)).
  - reflexivity.
  - cbn [In]. do 5 right. left. reflexivity.
Defined.

(** X3.  When the environment has no [HOME], the Darwin update-variables
    stage throws a [TypeError] while it computes the path of the profile:
    nothing has been probed or run by then, and the home directory of the
    SDK has not been assigned, so it is as unknown after the stage as it
    was before. *)
Theorem updateVariablesDarwin_throws_without_HOME
  (h : Host) (w : World) (st : State) :
  process_env h "HOME" = None ->
  exists message,
    AndroidSdkInstaller.updateVariablesDarwin h w st
    = (Thrown (TypeError message), st).
Proof.
  intros Hhome. eexists.
  unfold AndroidSdkInstaller.updateVariablesDarwin.
  unfold bind at 1. unfold get_this at 1. cbn beta iota zeta.
  unfold bind at 1.
  rewrite path_join_js_undefined; [reflexivity|].
  rewrite Hhome. now left.
Qed.

(** X3 at work: the stage on a host with an empty environment. *)
Lemma updateVariablesDarwin_throws_without_HOME_witness :
  exists message,
    AndroidSdkInstaller.updateVariablesDarwin bareHost
      (Sample.quiet (Sample.exits 0))
      (Sample.fresh "/opt/sdk" Sample.noneDone)
    = (Thrown (TypeError message), Sample.fresh "/opt/sdk" Sample.noneDone).
Proof.
  apply (updateVariablesDarwin_throws_without_HOME bareHost
           (Sample.quiet (Sample.exits 0))
           (Sample.fresh "/opt/sdk" Sample.noneDone)).
  reflexivity.
Defined.

(** X4.  With a destination, [installDefault] opens the archive, probes
    the destination, creates it with mode 0777 exactly when the probe
    found nothing, and extracts: when it resolves, this is the whole of
    what it did.  It never rejects: a failure of the archive or of the file
    system is an exception, that of the last call made, and nothing runs
    after it.  The directory is never created when it was found. *)
Theorem installDefault_creates_then_extracts
  (h : Host) (w : World) (st : State) :
  let destination := installDestination (this st) in
  let archive := installerArchive (this st) in
  let existed := existsSync w (log st ++ [E_admZip archive]) destination in
  let result := AndroidSdkInstaller.installDefault h w st in
  destination <> "" ->
  exists added,
    log (snd result) = log st ++ added
    /\ (fst result = Normal Fulfilled \/ exists e, fst result = Thrown e)
    /\ (fst result = Normal Fulfilled ->
        added = [ E_admZip archive; E_existsSync destination ]
                ++ (if existed then []
                    else [ E_mkdirSyncRecursive destination 511 ])
                ++ [ E_extractAllTo destination ])
    /\ (forall p mode, In (E_mkdirSyncRecursive p mode) added ->
        p = destination /\ mode = 511%Z /\ existed = false)
    /\ (forall e, fst result = Thrown e ->
        exists before ev,
          added = before ++ [ev] /\ throws w (log st ++ before) ev = Some e).
Proof.
  intros destination archive existed result Hdest.
  assert (Htruthy : Js.truthy destination = true).
  { unfold Js.truthy. destruct (destination =? "")%string eqn:E; [|reflexivity].
    apply String.eqb_eq in E. contradiction. }
  subst result.
  unfold AndroidSdkInstaller.installDefault, bind, get_this, emit, ret,
    AndroidSdkInstaller.call, AndroidSdkInstaller.fs_existsSync.
  cbn [this log fst snd]. fold destination archive. rewrite Htruthy.
  cbn [negb this log snd].
  destruct (throws w (log st) (E_admZip archive)) as [e0|] eqn:E0.
  { exists [E_admZip archive]. cbn [fst snd log].
    split; [reflexivity|]. split; [right; eauto|].
    split; [discriminate|]. split.
    - intros p mode [Hf|[]]. discriminate.
    - intros e He. injection He as <-. exists [], (E_admZip archive).
      rewrite app_nil_r. now split. }
  cbn [this log]. fold existed.
  destruct existed eqn:Eexisted; cbn [negb this log].
  - destruct (throws w ((log st ++ [E_admZip archive])
                        ++ [E_existsSync destination])
                (E_extractAllTo destination)) as [e2|] eqn:E2;
      cbn [fst snd log];
      exists [E_admZip archive; E_existsSync destination;
              E_extractAllTo destination];
      (split; [now rewrite <- !app_assoc|]).
    + split; [right; eauto|]. split; [discriminate|]. split.
      * intros p mode [Hf|[Hf|[Hf|[]]]]; discriminate.
      * intros e He. injection He as <-.
        exists [E_admZip archive; E_existsSync destination],
               (E_extractAllTo destination).
        split; [reflexivity|].
        rewrite <- E2. f_equal. now rewrite <- !app_assoc.
    + split; [now left|]. split; [reflexivity|]. split.
      * intros p mode [Hf|[Hf|[Hf|[]]]]; discriminate.
      * discriminate.
  - destruct (throws w ((log st ++ [E_admZip archive])
                        ++ [E_existsSync destination])
                (E_mkdirSyncRecursive destination 511)) as [e1|] eqn:E1;
      cbn [fst snd log this].
    { exists [E_admZip archive; E_existsSync destination;
              E_mkdirSyncRecursive destination 511].
      split; [now rewrite <- !app_assoc|].
      split; [right; eauto|]. split; [discriminate|]. split.
      - intros p mode [Hf|[Hf|[Hf|[]]]]; try discriminate.
        injection Hf as <- <-. auto.
      - intros e He. injection He as <-.
        exists [E_admZip archive; E_existsSync destination],
               (E_mkdirSyncRecursive destination 511).
        split; [reflexivity|].
        rewrite <- E1. f_equal. now rewrite <- !app_assoc. }
    destruct (throws w (((log st ++ [E_admZip archive])
                         ++ [E_existsSync destination])
                        ++ [E_mkdirSyncRecursive destination 511])
                (E_extractAllTo destination)) as [e2|] eqn:E2;
      cbn [fst snd log];
      exists [E_admZip archive; E_existsSync destination;
              E_mkdirSyncRecursive destination 511;
              E_extractAllTo destination];
      (split; [now rewrite <- !app_assoc|]).
    + split; [right; eauto|]. split; [discriminate|]. split.
      * intros p mode [Hf|[Hf|[Hf|[Hf|[]]]]]; try discriminate.
        injection Hf as <- <-. auto.
      * intros e He. injection He as <-.
        exists [E_admZip archive; E_existsSync destination;
                E_mkdirSyncRecursive destination 511],
               (E_extractAllTo destination).
        split; [reflexivity|].
        rewrite <- E2. f_equal. now rewrite <- !app_assoc.
    + split; [now left|]. split; [reflexivity|]. split.
      * intros p mode [Hf|[Hf|[Hf|[Hf|[]]]]]; try discriminate.
        injection Hf as <- <-. auto.
      * discriminate.
Qed.

(** X4 at work: the destination does not exist yet and every call
    succeeds. *)
Lemma installDefault_creates_then_extracts_witness :
  exists added,
    log (snd (AndroidSdkInstaller.installDefault Sample.darwin
                (Sample.quiet (Sample.exits 0))
                (Sample.fresh "/opt/sdk" Sample.downloadAndVariablesDone)))
    = [] ++ added
    /\ added = [ E_admZip None; E_existsSync "/opt/sdk";
                 E_mkdirSyncRecursive "/opt/sdk" 511;
                 E_extractAllTo "/opt/sdk" ].
Proof.
  destruct (installDefault_creates_then_extracts Sample.darwin
              (Sample.quiet (Sample.exits 0))
              (Sample.fresh "/opt/sdk" Sample.downloadAndVariablesDone))
    as (added & Hlog & _ & Hok & _); [discriminate|].
  exists added. split; [exact Hlog|]. apply Hok. reflexivity.
Defined.

(** X5.  The loop of [installDarwin] over the path segments probes the
    joined prefixes in order and stops at the first one that is not found,
    which it returns: every prefix before it was probed and found, none
    after it is probed.  When all are found it probes them all and returns
    nothing.  It probes and does nothing else. *)
Theorem firstNonExistentDir_first_missing
  (h : Host) (w : World) (pathSegments : list string) :
  forall (pathSoFar : string) (st : State),
  let prefixes := joinedPrefixes (path h) pathSegments pathSoFar in
  exists found k,
    AndroidSdkInstaller.firstNonExistentDir h w pathSegments pathSoFar st
    = (Normal found,
       {| this := this st;
          log := log st ++ map E_existsSync
                             (firstn (match found with
                                      | Some _ => S k
                                      | None => k
                                      end) prefixes) |})
    /\ allExist w (log st) (firstn k prefixes)
    /\ match found with
       | Some dir =>
           nth_error prefixes k = Some dir
           /\ existsSync w (log st ++ map E_existsSync (firstn k prefixes)) dir
              = false
       | None => k = length pathSegments
       end.
Proof.
  induction pathSegments as [|dir rest IH]; intros pathSoFar st prefixes.
  - exists None, 0. cbn. rewrite app_nil_r. destruct st. auto.
  - subst prefixes. cbn [AndroidSdkInstaller.firstNonExistentDir joinedPrefixes].
    set (p := path_join (path h) [pathSoFar; dir]).
    unfold bind at 1. unfold AndroidSdkInstaller.fs_existsSync at 1.
    destruct (existsSync w (log st) p) eqn:Ep; cbn [negb].
    + destruct (IH p {| this := this st; log := log st ++ [E_existsSync p] |})
        as (found & k & Hrun & Hall & Hfound).
      exists found, (S k). rewrite Hrun. cbn [this log].
      split; [|split].
      * f_equal. f_equal. rewrite <- app_assoc. f_equal.
        destruct found; reflexivity.
      * cbn [firstn allExist]. split; [exact Ep | exact Hall].
      * destruct found as [d|].
        -- cbn [nth_error firstn map]. destruct Hfound as [Hnth Hmissing].
           split; [exact Hnth|].
           cbn [log] in Hmissing. rewrite <- app_assoc in Hmissing.
           exact Hmissing.
        -- cbn [length]. now f_equal.
    + exists (Some p), 0. cbn [firstn map nth_error allExist ret].
      rewrite app_nil_r. auto.
Qed.

Section Ownership.

Variable h : Host.
Variable w : World.

(** The directory the loop returns is one it probed. *)
Lemma firstNonExistentDir_probed (segments : list string) :
  forall (pathSoFar : string) (st : State),
  exists found probes,
    AndroidSdkInstaller.firstNonExistentDir h w segments pathSoFar st
    = (Normal found, {| this := this st; log := log st ++ probes |})
    /\ filter isOwnershipReset probes = []
    /\ (forall dir, found = Some dir -> In (E_existsSync dir) probes).
Proof.
  induction segments as [|dir rest IH]; intros pathSoFar st.
  - exists None, []. rewrite app_nil_r. destruct st.
    split; [reflexivity|]. split; [reflexivity | discriminate].
  - cbn [AndroidSdkInstaller.firstNonExistentDir].
    set (p := path_join (path h) [pathSoFar; dir]).
    unfold bind at 1. unfold AndroidSdkInstaller.fs_existsSync at 1.
    destruct (existsSync w (log st) p); cbn [negb].
    + destruct (IH p {| this := this st; log := log st ++ [E_existsSync p] |})
        as (found & probes & -> & Hnone & Hfound).
      exists found, (E_existsSync p :: probes). cbn [this log].
      split; [now rewrite <- app_assoc|]. split; [exact Hnone|].
      intros d Hd. right. now apply Hfound.
    + exists (Some p), [E_existsSync p].
      split; [reflexivity|]. split; [reflexivity|].
      intros d Hd. injection Hd as <-. now left.
Qed.

(** When [installDefault] resolves, extraction was its last call. *)
Lemma installDefault_fulfilled (st : State) :
  fst (AndroidSdkInstaller.installDefault h w st) = Normal Fulfilled ->
  exists before,
    log (snd (AndroidSdkInstaller.installDefault h w st))
    = log st ++ before ++ [E_extractAllTo (installDestination (this st))]
    /\ filter isOwnershipReset before = [].
Proof.
  unfold AndroidSdkInstaller.installDefault, bind, get_this, emit, ret,
    AndroidSdkInstaller.call, AndroidSdkInstaller.fs_existsSync.
  cbn [this log fst snd].
  destruct (Js.truthy (installDestination (this st))); cbn [negb this log snd fst];
    [|discriminate].
  destruct (throws w (log st) (E_admZip (installerArchive (this st))));
    cbn [this log fst snd]; [discriminate|].
  destruct (existsSync w _ (installDestination (this st))); cbn [negb this log].
  - destruct (throws w _ (E_extractAllTo _)); cbn [this log fst snd];
      [discriminate|]. intros _.
    exists [E_admZip (installerArchive (this st));
            E_existsSync (installDestination (this st))].
    split; [now rewrite <- !app_assoc | reflexivity].
  - destruct (throws w _ (E_mkdirSyncRecursive _ _)); cbn [this log fst snd];
      [discriminate|].
    destruct (throws w _ (E_extractAllTo _)); cbn [this log fst snd];
      [discriminate|]. intros _.
    exists [E_admZip (installerArchive (this st));
            E_existsSync (installDestination (this st));
            E_mkdirSyncRecursive (installDestination (this st)) 511].
    split; [now rewrite <- !app_assoc | reflexivity].
Qed.

(** [installDefault] resets no ownership. *)
Lemma installDefault_no_reset (st : State) :
  exists added,
    log (snd (AndroidSdkInstaller.installDefault h w st)) = log st ++ added
    /\ filter isOwnershipReset added = [].
Proof.
  destruct (installDefault_effects h w st) as (_ & added & Hlog & Hcalls).
  exists added. split; [exact Hlog|]. clear Hlog.
  induction Hcalls as [|ev evs Hev _ IH]; [reflexivity|].
  destruct ev; cbn [installCall] in Hev; try contradiction; exact IH.
Qed.

End Ownership.

(** X6.  The Darwin install stage resets ownership at most once, as its
    very last call, with the identity read from [SUDO_UID] and [SUDO_GID],
    and only for a directory it probed before extracting: by then the
    archive has been extracted into the destination, so [installDefault]
    has resolved.  The stage leaves the installer as it was, and when it
    resolves the archive has been extracted. *)
Theorem installDarwin_resets_ownership_last
  (h : Host) (w : World) (st : State) :
  let result := AndroidSdkInstaller.installDarwin h w st in
  let extracted := E_extractAllTo (installDestination (this st)) in
  exists added,
    log (snd result) = log st ++ added
    /\ this (snd result) = this st
    /\ (fst result = Normal Fulfilled -> In extracted added)
    /\ (forall p u g, In (E_chownSyncRecursive p u g) added ->
        u = AndroidSdkInstaller.SUDO_UID h
        /\ g = AndroidSdkInstaller.SUDO_GID h
        /\ p <> ""
        /\ exists before,
             added = before ++ [E_chownSyncRecursive p u g]
             /\ filter isOwnershipReset before = []
             /\ In (E_existsSync p) before
             /\ In extracted before).
Proof.
  intros result extracted.
  destruct (firstNonExistentDir_probed h w
              (Js.split (os_EOL h)
                 (path_resolve (path h) (process_cwd h)
                    [installDestination (this st)])) "" st)
    as (found & probes & Hloop & Hprobes & Hfound).
  set (st1 := {| this := this st; log := log st ++ probes |}) in *.
  set (reset := fun dir =>
         E_chownSyncRecursive dir (AndroidSdkInstaller.SUDO_UID h)
           (AndroidSdkInstaller.SUDO_GID h)).
  assert (Erun : result
                 = then_ (AndroidSdkInstaller.installDefault h w)
                     (match found with
                      | Some dir =>
                          if Js.truthy dir
                          then AndroidSdkInstaller.call w (reset dir) ;;
                               ret Fulfilled
                          else ret Fulfilled
                      | None => ret Fulfilled
                      end) st1).
  { subst result. unfold AndroidSdkInstaller.installDarwin.
    unfold bind at 1. unfold get_this at 1. cbn beta iota zeta.
    unfold bind at 1. rewrite Hloop. reflexivity. }
  clearbody result. subst result. clear Hloop.
  rewrite then_unfold.
  destruct (installDefault_effects h w st1) as (Hthis & _).
  destruct (installDefault_no_reset h w st1) as (calls & Hlog & Hcalls).
  pose proof (installDefault_fulfilled h w st1) as Hdone.
  assert (Hno : forall l p u g,
            filter isOwnershipReset l = [] ->
            ~ In (E_chownSyncRecursive p u g) l).
  { intros l p u g Hl Hin.
    assert (Hf : In (E_chownSyncRecursive p u g) (filter isOwnershipReset l)).
    { apply filter_In. now split. }
    rewrite Hl in Hf. destruct Hf. }
  destruct (AndroidSdkInstaller.installDefault h w st1)
    as [outcome st2] eqn:Einstall.
  cbn [fst snd] in Hthis, Hlog, Hdone.
  (* no ownership reset: the calls are the probes and those of installDefault *)
  assert (Hplain : forall r,
            (r = Normal Fulfilled -> outcome = Normal Fulfilled) ->
            exists added,
              log (snd (r, st2)) = log st ++ added
              /\ this (snd (r, st2)) = this st
              /\ (fst (r, st2) = Normal Fulfilled -> In extracted added)
              /\ (forall p u g, In (E_chownSyncRecursive p u g) added ->
                  u = AndroidSdkInstaller.SUDO_UID h
                  /\ g = AndroidSdkInstaller.SUDO_GID h
                  /\ p <> ""
                  /\ exists before,
                       added = before ++ [E_chownSyncRecursive p u g]
                       /\ filter isOwnershipReset before = []
                       /\ In (E_existsSync p) before
                       /\ In extracted before)).
  { intros r Hr. exists (probes ++ calls). cbn [snd fst].
    split; [rewrite Hlog; cbn [log st1]; now rewrite app_assoc|].
    split; [exact Hthis|]. split.
    - intros ->. destruct (Hdone (Hr eq_refl)) as (before & Hlog' & _).
      rewrite Hlog in Hlog'. apply app_inv_head in Hlog'. subst calls.
      apply in_or_app. right. apply in_or_app. right. now left.
    - intros p u g Hin. exfalso.
      apply in_app_or in Hin. destruct Hin as [Hin|Hin];
        [exact (Hno _ _ _ _ Hprobes Hin) | exact (Hno _ _ _ _ Hcalls Hin)]. }
  destruct outcome as [[|e|]|e];
    try (apply Hplain; discriminate).
  destruct found as [dir|]; [|apply Hplain; reflexivity].
  destruct (Js.truthy dir) eqn:Edir; [|apply Hplain; reflexivity].
  destruct (Hdone eq_refl) as (before & Hlog' & Hbefore).
  rewrite Hlog in Hlog'. apply app_inv_head in Hlog'. subst calls.
  (* the reset is made, last *)
  assert (Hreset : forall r,
            exists added,
              log (snd (r, {| this := this st2;
                              log := log st2 ++ [reset dir] |}))
              = log st ++ added
              /\ this (snd (r, {| this := this st2;
                                  log := log st2 ++ [reset dir] |}))
                 = this st
              /\ (fst (r, {| this := this st2;
                             log := log st2 ++ [reset dir] |})
                  = Normal Fulfilled -> In extracted added)
              /\ (forall p u g, In (E_chownSyncRecursive p u g) added ->
                  u = AndroidSdkInstaller.SUDO_UID h
                  /\ g = AndroidSdkInstaller.SUDO_GID h
                  /\ p <> ""
                  /\ exists before,
                       added = before ++ [E_chownSyncRecursive p u g]
                       /\ filter isOwnershipReset before = []
                       /\ In (E_existsSync p) before
                       /\ In extracted before)).
  { intros r.
    exists (probes ++ (before ++ [extracted]) ++ [reset dir]).
    cbn [snd fst this log].
    split; [rewrite Hlog; cbn [log st1]; now rewrite <- !app_assoc|].
    split; [exact Hthis|]. split.
    { intros _. apply in_or_app. right. apply in_or_app. left.
      apply in_or_app. right. now left. }
    intros p u g Hin.
    assert (Hp : E_chownSyncRecursive p u g = reset dir).
    { apply in_app_or in Hin. destruct Hin as [Hin|Hin];
        [exfalso; exact (Hno _ _ _ _ Hprobes Hin)|].
      apply in_app_or in Hin. destruct Hin as [Hin|[Hin|[]]]; [|now symmetry].
      exfalso. apply (Hno (before ++ [extracted]) p u g); [|exact Hin].
      rewrite filter_app, Hbefore. reflexivity. }
    injection Hp as -> -> ->.
    split; [reflexivity|]. split; [reflexivity|]. split.
    { intros ->. discriminate. }
    exists (probes ++ before ++ [extracted]).
    split; [now rewrite <- !app_assoc|]. split.
    { rewrite !filter_app, Hprobes, Hbefore. reflexivity. }
    split.
    - apply in_or_app. left. now apply Hfound.
    - apply in_or_app. right. apply in_or_app. right. now left. }
  unfold bind, AndroidSdkInstaller.call, ret.
  destruct (throws w (log st2) (reset dir)); apply Hreset.
Qed.

(** X7.  The Windows update-variables stage assigns the home directory of
    the SDK, [android-sdk-windows] under the destination, before it calls
    anything, so the assignment stands whatever happens next.  It then
    asks for [ANDROID_HOME] to be set, and extends the path with the
    [tools] and [platform-tools] directories of that home only once this
    has been fulfilled: a rejection or a promise never settled is returned
    as it is and the path is left alone.  The promise of the second call
    is the outcome of the stage; an exception of the first call is thrown
    by the stage, one of the second rejects its promise. *)
Theorem updateVariablesWin32_sets_home_then_path
  (h : Host) (w : World) (st : State) :
  let home :=
    path_join (path h) [installDestination (this st); "android-sdk-windows"] in
  let entries :=
    [ path_join (path h) [home; "tools"];
      path_join (path h) [home; "platform-tools"] ] in
  let setHome := E_setEnvironmentVariableIfNeededWin32 "ANDROID_HOME" home in
  let addToPath := E_addToPathIfNeededWin32 entries in
  let first := setEnvironmentVariableIfNeededWin32 w (log st) "ANDROID_HOME" home in
  let second := addToPathIfNeededWin32 w (log st ++ [setHome]) entries in
  let result := AndroidSdkInstaller.updateVariablesWin32 h w st in
  androidHomeValue (this (snd result)) = Some home
  /\ (log (snd result) = log st ++ [setHome; addToPath]
      \/ log (snd result) = log st ++ [setHome]
         /\ (throws w (log st) setHome <> None \/ first <> Fulfilled))
  /\ (forall e, throws w (log st) setHome = Some e -> fst result = Thrown e)
  /\ (throws w (log st) setHome = None ->
      match first with
      | Fulfilled =>
          log (snd result) = log st ++ [setHome; addToPath]
          /\ fst result
             = Normal (match throws w (log st ++ [setHome]) addToPath with
                       | Some e => Rejected e
                       | None => second
                       end)
      | unsettled => fst result = Normal unsettled
      end).
Proof.
  intros home entries setHome addToPath first second result.
  subst result.
  unfold AndroidSdkInstaller.updateVariablesWin32,
    AndroidSdkInstaller.set_androidHomeValue, AndroidSdkInstaller.call,
    AndroidSdkInstaller.ANDROID_HOME_NAME, then_, bind, get_this, get_log,
    ret, set_this.
  cbn [this log fst snd androidHomeValue].
  fold home. fold entries. fold setHome. fold addToPath. fold first.
  destruct (throws w (log st) setHome) as [e1|] eqn:E1; cbn [this log fst snd].
  { split; [reflexivity|]. split; [right; split; [reflexivity|left; discriminate]|].
    split; [intros e He; now injection He as <- | discriminate]. }
  destruct first eqn:Efirst; cbn [this log fst snd].
  - fold second.
    destruct (throws w (log st ++ [setHome]) addToPath) as [e2|] eqn:E2;
      cbn [this log fst snd];
      (split; [reflexivity|]);
      (split; [left; now rewrite <- app_assoc|]);
      (split; [discriminate|]); intros _;
      (split; [now rewrite <- app_assoc | reflexivity]).
  - split; [reflexivity|].
    split; [right; split; [reflexivity | right; discriminate]|].
    split; [discriminate | reflexivity].
  - split; [reflexivity|].
    split; [right; split; [reflexivity | right; discriminate]|].
    split; [discriminate | reflexivity].
Qed.

Section PostInstall.

Variable h : Host.
Variable w : World.

(** [addExecutePermission] once the home directory is known. *)
Lemma addExecutePermission_unfold (st : State) (home : string) :
  androidHomeValue (this st) = Some home ->
  let command := "chmod a+x " +++ path_join (path h) [home; "tools"; "android"] in
  let st1 := {| this := this st; log := log st ++ [E_exec command] |} in
  AndroidSdkInstaller.addExecutePermission h w st
  = match throws w (log st) (E_exec command) with
    | Some e => (Thrown e, st1)
    | None =>
        match exec w (log st) command with
        | ExecOk => (Normal Fulfilled, st1)
        | ExecFailed error =>
            (Normal (Rejected error),
             {| this := this st;
                log := log st
                       ++ [ E_exec command;
                            E_telemetry_add "error.description"
                              (TString "ErrorOnChildProcess on addExecutePermission")
                              false;
                            E_telemetry_addError error ] |})
        | ExecNoCallback => (Normal Pending, st1)
        end
    end.
Proof.
  intros Hhome command st1.
  unfold AndroidSdkInstaller.addExecutePermission.
  unfold bind at 1. unfold get_this at 1. cbn beta iota.
  unfold bind at 1. rewrite Hhome.
  pose proof (path_join_js_defined h [home; "tools"; "android"] st) as Hjoin.
  cbn [map] in Hjoin. rewrite Hjoin. clear Hjoin. cbn beta iota.
  fold command.
  unfold AndroidSdkInstaller.childProcess_exec, AndroidSdkInstaller.call,
    bind, get_log, emit, ret.
  fold st1.
  destruct (throws w (log st) (E_exec command)); [reflexivity|].
  destruct (exec w (log st) command); try reflexivity.
  cbn [this log st1]. now rewrite <- !app_assoc.
Qed.

(** [then] makes a rejection of what its callback throws. *)
Lemma then_fulfilled (p callback : M Promise) (st st1 : State) :
  p st = (Normal Fulfilled, st1) ->
  then_ p callback st = settled (callback st1).
Proof.
  intros Hp. rewrite then_unfold, Hp.
  destruct (callback st1) as [[q|e] st2]; reflexivity.
Qed.

Lemma then_unsettled (p callback : M Promise) (st : State) :
  fst (p st) <> Normal Fulfilled ->
  then_ p callback st = p st.
Proof.
  intros Hp. rewrite then_unfold.
  destruct (p st) as [[[|e|]|e] st1]; try reflexivity.
  now elim Hp.
Qed.

End PostInstall.

(** X8.  The Darwin post-install stage runs [chmod a+x] on the package
    manager first, and what follows hangs on its callback.  When the
    command fails the stage reports the failure to telemetry and rejects
    with the error of the command; when the callback never comes the
    promise is never settled; in both cases nothing is spawned.  Only when
    the command succeeds does the stage go on as [postInstallDefault], and
    then an exception of that step (a child that cannot be spawned) is
    turned into a rejection rather than thrown. *)
Theorem postInstallDarwin_chmod_gate
  (h : Host) (w : World) (st : State) (home : string) :
  let command := "chmod a+x " +++ path_join (path h) [home; "tools"; "android"] in
  let st1 := {| this := this st; log := log st ++ [E_exec command] |} in
  androidHomeValue (this st) = Some home ->
  throws w (log st) (E_exec command) = None ->
  AndroidSdkInstaller.postInstallDarwin h w st
  = match exec w (log st) command with
    | ExecOk => settled (AndroidSdkInstaller.postInstallDefault h w st1)
    | ExecFailed error =>
        (Normal (Rejected error),
         {| this := this st;
            log := log st
                   ++ [ E_exec command;
                        E_telemetry_add "error.description"
                          (TString "ErrorOnChildProcess on addExecutePermission")
                          false;
                        E_telemetry_addError error ] |})
    | ExecNoCallback => (Normal Pending, st1)
    end.
Proof.
  intros command st1 Hhome Hthrow.
  pose proof (addExecutePermission_unfold h w st home Hhome) as Hchmod.
  cbv zeta in Hchmod. fold command st1 in Hchmod. rewrite Hthrow in Hchmod.
  unfold AndroidSdkInstaller.postInstallDarwin.
  destruct (exec w (log st) command) as [|error|].
  - now apply then_fulfilled.
  - rewrite then_unsettled; rewrite Hchmod; [reflexivity | discriminate].
  - rewrite then_unsettled; rewrite Hchmod; [reflexivity | discriminate].
Qed.

(** X8 at work: the command fails; the stage rejects and no child has
    been spawned. *)
Lemma postInstallDarwin_chmod_gate_witness :
  AndroidSdkInstaller.postInstallDarwin Sample.darwin
    {| throws := fun _ _ => None;
       existsSync := fun _ _ => true;
       downloadFile := fun _ _ _ => Fulfilled;
       exec := fun _ _ => ExecFailed (ExternalError "EPERM");
       spawn := fun _ _ _ _ => [ChildExit 0];
       setEnvironmentVariableIfNeededWin32 := fun _ _ _ => Fulfilled;
       addToPathIfNeededWin32 := fun _ _ => Fulfilled |}
    Sample.ready
  = (Normal (Rejected (ExternalError "EPERM")),
     {| this := this Sample.ready;
        log := [ E_exec "chmod a+x /opt/sdk/android-sdk-macosx/tools/android";
                 E_telemetry_add "error.description"
                   (TString "ErrorOnChildProcess on addExecutePermission")
                   false;
                 E_telemetry_addError (ExternalError "EPERM") ] |}).
Proof.
  apply (postInstallDarwin_chmod_gate Sample.darwin
           {| throws := fun _ _ => None;
              existsSync := fun _ _ => true;
              downloadFile := fun _ _ _ => Fulfilled;
              exec := fun _ _ => ExecFailed (ExternalError "EPERM");
              spawn := fun _ _ _ _ => [ChildExit 0];
              setEnvironmentVariableIfNeededWin32 := fun _ _ _ => Fulfilled;
              addToPathIfNeededWin32 := fun _ _ => Fulfilled |}
           Sample.ready Sample.home); reflexivity.
Defined.

(** X9.  [postInstallDefault] spawns the package manager, and the
    [adb kill-server] child only after the package-installation step has
    resolved: these are its only children, in this order.  When the
    package step rejects, throws or is never settled, that is the outcome
    of [postInstallDefault] and adb is left alone; when it resolves, the
    outcome is that of [killAdb], except that what [killAdb] throws
    becomes a rejection. *)
Theorem postInstallDefault_kills_adb_after_packages
  (h : Host) (w : World) (st : State) (home : string) :
  let command :=
    path_join (path h) [home; "tools"; AndroidSdkInstaller.androidCommand h] in
  let options :=
    if (os_platform h =? "darwin")%string
    then Some {| uid := AndroidSdkInstaller.SUDO_UID h;
                 gid := AndroidSdkInstaller.SUDO_GID h |}
    else None in
  let android :=
    E_spawn command AndroidSdkInstaller.installAndroidPackages_args options in
  let adb :=
    E_spawn (path_join (path h) [home; "platform-tools"; "adb"])
      ["kill-server"] None in
  let packages := AndroidSdkInstaller.installAndroidPackages h w st in
  let result := AndroidSdkInstaller.postInstallDefault h w st in
  androidHomeValue (this st) = Some home ->
  (exists added,
     log (snd result) = log st ++ added
     /\ filter isSpawn added
        = if isFulfilled (fst packages) then [android; adb] else [android])
  /\ result = if isFulfilled (fst packages)
              then settled (AndroidSdkInstaller.killAdb h w (snd packages))
              else packages.
Proof.
  intros command options android adb packages result Hhome.
  assert (Hpack : exists c added,
            packages = (c, {| this := this st;
                              log := log st ++ android :: added |})
            /\ filter isSpawn added = []).
  { subst packages.
    rewrite (installAndroidPackages_unfold h w st home Hhome). cbv zeta.
    fold command options android.
    destruct (throws w (log st) android) as [e|].
    - exists (Thrown e), []. split; reflexivity.
    - unfold bind.
      match goal with
      | |- context [AndroidSdkInstaller.installAndroidPackages_listen h ?s ?evs ?st0] =>
          destruct (installAndroidPackages_listen_effects h evs s st0)
            as (s1 & added & -> & _ & _ & _ & _ & Hcalls & _)
      end.
      exists (Normal (AndroidSdkInstaller.deferred s1)), added.
      cbn [ret this log]. rewrite <- app_assoc.
      split; [reflexivity|].
      exact (filter_none _ _ _ listener_not_spawn Hcalls). }
  destruct Hpack as (c & added & Hpack & Hadded).
  assert (Hresult : result
                    = if isFulfilled (fst packages)
                      then settled (AndroidSdkInstaller.killAdb h w (snd packages))
                      else packages).
  { subst result. unfold AndroidSdkInstaller.postInstallDefault.
    fold packages.
    destruct (isFulfilled (fst packages)) eqn:Efulfilled.
    - apply then_fulfilled. fold packages.
      destruct packages as [[[|e|]|e] st2]; try discriminate. reflexivity.
    - apply then_unsettled. fold packages. intros Hf. rewrite Hf in Efulfilled.
      discriminate. }
  split; [|exact Hresult].
  rewrite Hresult. clearbody result packages. subst packages.
  cbn [fst snd].
  destruct (isFulfilled c).
  - set (st2 := {| this := this st; log := log st ++ android :: added |}).
    rewrite (killAdb_unfold h w st2 home Hhome). cbv zeta. fold adb.
    destruct (throws w (log st2) adb).
    + exists (android :: added ++ [adb]). cbn [settled snd log st2].
      split; [now rewrite <- app_assoc|].
      cbn [filter isSpawn]. rewrite filter_app, Hadded. reflexivity.
    + match goal with
      | |- context [AndroidSdkInstaller.killAdb_listen ?d ?evs ?st0] =>
          destruct (killAdb_listen_effects evs d st0)
            as (added2 & -> & Hcalls & _)
      end.
      exists (android :: added ++ adb :: added2).
      cbn [settled snd log st2 this].
      split; [now rewrite <- !app_assoc|].
      cbn [filter isSpawn]. rewrite filter_app, Hadded.
      cbn [filter isSpawn app].
      now rewrite (filter_none _ _ _ listener_not_spawn Hcalls).
  - exists (android :: added). cbn [snd log].
    split; [reflexivity|]. cbn [filter isSpawn]. now rewrite Hadded.
Qed.

(** X9 at work: the package manager complains, adb is left alone. *)
Lemma postInstallDefault_kills_adb_after_packages_witness :
  exists added,
    log (snd (AndroidSdkInstaller.postInstallDefault Sample.linux
                (Sample.quiet (fun _ => Sample.complains)) Sample.ready))
    = [] ++ added
    /\ filter isSpawn added
       = [ E_spawn "/opt/sdk/android-sdk-macosx/tools/android"
             AndroidSdkInstaller.installAndroidPackages_args None ].
Proof.
  destruct (postInstallDefault_kills_adb_after_packages Sample.linux
              (Sample.quiet (fun _ => Sample.complains)) Sample.ready
              Sample.home) as [(added & Hlog & Hspawn) _]; [reflexivity|].
  exists added. split; [exact Hlog | exact Hspawn].
Defined.

(* ===================================================================== *)
(** ** What a method may add to the log *)
(* ===================================================================== *)

Section AddsFacts.

Variable w : World.
Variable allowed : Event -> bool.

Lemma Adds_ret {A : Type} (a : A) : Adds allowed (ret a).
Proof. intros st. exists []. now rewrite app_nil_r. Qed.

Lemma Adds_throw {A : Type} (e : JsError) : Adds allowed (@throw A e).
Proof. intros st. exists []. now rewrite app_nil_r. Qed.

Lemma Adds_get_this : Adds allowed get_this.
Proof. intros st. exists []. now rewrite app_nil_r. Qed.

Lemma Adds_get_log : Adds allowed get_log.
Proof. intros st. exists []. now rewrite app_nil_r. Qed.

Lemma Adds_set_this (i : Installer) : Adds allowed (set_this i).
Proof. intros st. exists []. now rewrite app_nil_r. Qed.

Lemma Adds_emit (ev : Event) : allowed ev = true -> Adds allowed (emit ev).
Proof.
  intros Hev st. exists [ev]. split; [reflexivity|].
  cbn [forallb]. now rewrite Hev.
Qed.

Lemma Adds_call (ev : Event) :
  allowed ev = true -> Adds allowed (AndroidSdkInstaller.call w ev).
Proof.
  intros Hev st. exists [ev]. unfold AndroidSdkInstaller.call.
  split; [destruct (throws w (log st) ev); reflexivity|].
  cbn [forallb]. now rewrite Hev.
Qed.

Lemma Adds_existsSync (p : string) :
  allowed (E_existsSync p) = true ->
  Adds allowed (AndroidSdkInstaller.fs_existsSync w p).
Proof.
  intros Hev st. exists [E_existsSync p]. split; [reflexivity|].
  cbn [forallb]. now rewrite Hev.
Qed.

Lemma Adds_path_join_js (h : Host) (args : list (option string)) :
  Adds allowed (AndroidSdkInstaller.path_join_js h args).
Proof.
  unfold AndroidSdkInstaller.path_join_js.
  destruct (forallb _ args); [apply Adds_ret | apply Adds_throw].
Qed.

Lemma Adds_bind {A B : Type} (m : M A) (k : A -> M B) :
  Adds allowed m -> (forall a, Adds allowed (k a)) -> Adds allowed (bind m k).
Proof.
  intros Hm Hk st. unfold bind.
  destruct (Hm st) as (added & Hlog & Hadded).
  destruct (m st) as [[a|e] st1]; cbn [snd] in Hlog.
  - destruct (Hk a st1) as (added2 & Hlog2 & Hadded2).
    exists (added ++ added2).
    split; [now rewrite Hlog2, Hlog, app_assoc|].
    now rewrite forallb_app, Hadded, Hadded2.
  - exists added. now split.
Qed.

Lemma Adds_then (p callback : M Promise) :
  Adds allowed p -> Adds allowed callback -> Adds allowed (then_ p callback).
Proof.
  intros Hp Hcb. unfold then_. apply Adds_bind; [exact Hp|].
  intros [|e|]; try apply Adds_ret.
  intros st. destruct (Hcb st) as (added & Hlog & Hadded).
  exists added. split; [|exact Hadded].
  destruct (callback st) as [[q|e] st1]; exact Hlog.
Qed.

Lemma Adds_uncaught {A : Type} (fallback : A) (m : M A) :
  Adds allowed m -> Adds allowed (uncaught fallback m).
Proof.
  intros Hm st. destruct (Hm st) as (added & Hlog & Hadded).
  exists added. split; [|exact Hadded].
  unfold uncaught. destruct (m st) as [[a|e] st1]; exact Hlog.
Qed.

End AddsFacts.

(** Splits a method into its calls. *)
Ltac adds_step :=
  first
    [ apply Adds_ret | apply Adds_throw | apply Adds_get_this
    | apply Adds_get_log | apply Adds_set_this | apply Adds_path_join_js
    | apply Adds_emit; reflexivity
    | apply Adds_call; reflexivity
    | apply Adds_existsSync; reflexivity
    | apply Adds_then
    | apply Adds_uncaught
    | apply Adds_bind; [|intros ?]
    | match goal with
      | |- Adds _ (match ?x with _ => _ end) => destruct x
      end ].

Ltac adds := cbv zeta; repeat (adds_step; cbv beta zeta).

Section Telemetry.

Variable h : Host.
Variable w : World.

Lemma installAndroidPackages_listen_marks (events : list ChildEvent) :
  forall s, Adds marksTextOnly
              (AndroidSdkInstaller.installAndroidPackages_listen h s events).
Proof.
  induction events as [|ev events IH]; intros s;
    cbn [AndroidSdkInstaller.installAndroidPackages_listen];
    [apply Adds_ret|].
  apply Adds_bind; [|exact IH]. apply Adds_uncaught.
  unfold AndroidSdkInstaller.installAndroidPackages_on. adds.
Qed.

Lemma killAdb_listen_marks (events : list ChildEvent) :
  forall d, Adds marksTextOnly (AndroidSdkInstaller.killAdb_listen d events).
Proof.
  induction events as [|ev events IH]; intros d;
    cbn [AndroidSdkInstaller.killAdb_listen]; [apply Adds_ret|].
  apply Adds_bind; [|exact IH].
  unfold AndroidSdkInstaller.killAdb_on. adds.
Qed.

Lemma firstNonExistentDir_marks (segments : list string) :
  forall pathSoFar,
    Adds marksTextOnly
      (AndroidSdkInstaller.firstNonExistentDir h w segments pathSoFar).
Proof.
  induction segments as [|dir rest IH]; intros pathSoFar;
    cbn [AndroidSdkInstaller.firstNonExistentDir]; [apply Adds_ret|].
  cbv zeta. apply Adds_bind; [apply Adds_existsSync; reflexivity|].
  intros exists_. destruct (negb exists_); [apply Adds_ret | apply IH].
Qed.

Lemma downloadDefault_marks :
  Adds marksTextOnly (AndroidSdkInstaller.downloadDefault h w).
Proof.
  unfold AndroidSdkInstaller.downloadDefault,
    AndroidSdkInstaller.set_installerArchive,
    AndroidSdkInstaller.installerUtils_downloadFile.
  adds.
Qed.

Lemma installDefault_marks :
  Adds marksTextOnly (AndroidSdkInstaller.installDefault h w).
Proof. unfold AndroidSdkInstaller.installDefault. adds. Qed.

Lemma installDarwin_marks :
  Adds marksTextOnly (AndroidSdkInstaller.installDarwin h w).
Proof.
  unfold AndroidSdkInstaller.installDarwin.
  apply Adds_bind; [apply Adds_get_this|]. intros i. cbv zeta.
  apply Adds_bind; [apply firstNonExistentDir_marks|]. intros found.
  apply Adds_then; [apply installDefault_marks|]. adds.
Qed.

Lemma updateVariablesWin32_marks :
  Adds marksTextOnly (AndroidSdkInstaller.updateVariablesWin32 h w).
Proof.
  unfold AndroidSdkInstaller.updateVariablesWin32,
    AndroidSdkInstaller.set_androidHomeValue.
  adds.
Qed.

Lemma updateVariablesDarwin_marks :
  Adds marksTextOnly (AndroidSdkInstaller.updateVariablesDarwin h w).
Proof.
  unfold AndroidSdkInstaller.updateVariablesDarwin,
    AndroidSdkInstaller.set_androidHomeValue,
    AndroidSdkInstaller.childProcess_exec.
  adds.
Qed.

Lemma addExecutePermission_marks :
  Adds marksTextOnly (AndroidSdkInstaller.addExecutePermission h w).
Proof.
  unfold AndroidSdkInstaller.addExecutePermission,
    AndroidSdkInstaller.childProcess_exec.
  adds.
Qed.

Lemma installAndroidPackages_marks :
  Adds marksTextOnly (AndroidSdkInstaller.installAndroidPackages h w).
Proof.
  unfold AndroidSdkInstaller.installAndroidPackages,
    AndroidSdkInstaller.childProcess_spawn.
  apply Adds_bind; [apply Adds_get_this|]. intros i.
  apply Adds_bind; [apply Adds_path_join_js|]. intros command. cbv zeta.
  apply Adds_bind; [adds|]. intros events.
  apply Adds_bind; [apply installAndroidPackages_listen_marks|]. intros s.
  apply Adds_ret.
Qed.

Lemma killAdb_marks :
  Adds marksTextOnly (AndroidSdkInstaller.killAdb h w).
Proof.
  unfold AndroidSdkInstaller.killAdb, AndroidSdkInstaller.childProcess_spawn.
  apply Adds_bind; [apply Adds_get_this|]. intros i.
  apply Adds_bind; [apply Adds_path_join_js|]. intros adb.
  apply Adds_bind; [adds|]. intros events.
  apply killAdb_listen_marks.
Qed.

Lemma postInstallDefault_marks :
  Adds marksTextOnly (AndroidSdkInstaller.postInstallDefault h w).
Proof.
  apply Adds_then; [apply installAndroidPackages_marks | apply killAdb_marks].
Qed.

End Telemetry.

(** X10.  Whatever a stage of either platform does, in any state and
    whatever its collaborators answer, it only appends to the log of calls
    made, and every property it hands to telemetry is marked as personal
    exactly when its key is [error.message], the text captured from the
    package manager: descriptions and exit codes are never marked, and the
    captured text always is. *)
Theorem stages_mark_only_captured_text_personal
  (h : Host) (w : World) (stage : M Promise) (st : State) :
  In stage [ AndroidSdkInstaller.downloadWin32 h w;
             AndroidSdkInstaller.installWin32 h w;
             AndroidSdkInstaller.updateVariablesWin32 h w;
             AndroidSdkInstaller.postInstallWin32 h w;
             AndroidSdkInstaller.downloadDarwin h w;
             AndroidSdkInstaller.installDarwin h w;
             AndroidSdkInstaller.updateVariablesDarwin h w;
             AndroidSdkInstaller.postInstallDarwin h w ] ->
  exists added,
    log (snd (stage st)) = log st ++ added
    /\ forall key value isPii,
         In (E_telemetry_add key value isPii) added ->
         (isPii = true <-> key = "error.message").
Proof.
  intros Hin.
  assert (Hstage : Adds marksTextOnly stage).
  { cbn [In] in Hin.
    destruct Hin as [<-|[<-|[<-|[<-|[<-|[<-|[<-|[<-|[]]]]]]]]].
    - apply downloadDefault_marks.
    - apply installDefault_marks.
    - apply updateVariablesWin32_marks.
    - apply postInstallDefault_marks.
    - apply downloadDefault_marks.
    - apply installDarwin_marks.
    - apply updateVariablesDarwin_marks.
    - apply Adds_then;
        [apply addExecutePermission_marks | apply postInstallDefault_marks]. }
  destruct (Hstage st) as (added & Hlog & Hadded).
  exists added. split; [exact Hlog|].
  intros key value isPii Hev.
  rewrite forallb_forall in Hadded. specialize (Hadded _ Hev).
  cbn [marksTextOnly] in Hadded. apply Bool.eqb_prop in Hadded.
  rewrite Hadded. apply String.eqb_eq.
Qed.

(** X10 at work: the Darwin post-install stage with a package manager
    that complains. *)
Lemma stages_mark_only_captured_text_personal_witness :
  exists added,
    log (snd (AndroidSdkInstaller.postInstallDarwin Sample.darwin
                (Sample.quiet (fun _ => Sample.complains)) Sample.ready))
    = log Sample.ready ++ added
    /\ forall key value isPii,
         In (E_telemetry_add key value isPii) added ->
         (isPii = true <-> key = "error.message").
Proof.
  apply (stages_mark_only_captured_text_personal Sample.darwin
           (Sample.quiet (fun _ => Sample.complains))).
  cbn [In]. do 7 right. left. reflexivity.
Defined.

Section SpawnFirst.

Variable h : Host.
Variable w : World.

(** With the home directory known, the first thing the
    package-installation step does is to spawn the package manager. *)
Lemma installAndroidPackages_spawns_first (st : State) (home : string) :
  androidHomeValue (this st) = Some home ->
  exists options added,
    log (snd (AndroidSdkInstaller.installAndroidPackages h w st))
    = log st
      ++ E_spawn (path_join (path h)
                    [home; "tools"; AndroidSdkInstaller.androidCommand h])
           AndroidSdkInstaller.installAndroidPackages_args options :: added.
Proof.
  intros Hhome.
  rewrite (installAndroidPackages_unfold h w st home Hhome). cbv zeta.
  match goal with |- context [throws w (log st) ?ev] =>
    destruct (throws w (log st) ev) end.
  - eexists _, []. reflexivity.
  - unfold bind.
    match goal with
    | |- context [AndroidSdkInstaller.installAndroidPackages_listen h ?s ?evs ?st0] =>
        destruct (installAndroidPackages_listen_effects h evs s st0)
          as (s1 & added & -> & _)
    end.
    eexists _, added. cbn [ret snd log]. now rewrite <- app_assoc.
Qed.

(** What [then] returns has the log of its promise, extended. *)
Lemma then_log (p callback : M Promise) (st : State) :
  Adds (fun _ => true) callback ->
  exists more,
    log (snd (then_ p callback st)) = log (snd (p st)) ++ more.
Proof.
  intros Hcb. rewrite then_unfold.
  destruct (p st) as [[[|e|]|e] st1]; cbn [snd];
    try (exists []; now rewrite app_nil_r).
  destruct (Hcb st1) as (more & Hlog & _). exists more.
  destruct (callback st1) as [[q|e] st2]; exact Hlog.
Qed.

Lemma killAdb_appends : Adds (fun _ => true) (AndroidSdkInstaller.killAdb h w).
Proof.
  intros st. destruct (killAdb_post h w st) as (_ & (added & Hlog & _) & _).
  exists added. split; [exact Hlog|]. now apply forallb_forall.
Qed.

Lemma settled_state_kept (result : Completion Promise * State) :
  snd (settled result) = snd result.
Proof. destruct result as [[q|e] st]; reflexivity. Qed.

End SpawnFirst.

(** X11.  On a host other than Windows, the file the Darwin post-install
    stage makes executable is the very command it spawns next as the
    package manager, [tools/android] under the home directory of the SDK.
    (On Windows the command spawned would be [android.bat], and the two
    would differ.) *)
Theorem postInstallDarwin_spawns_what_it_made_executable
  (h : Host) (w : World) (st : State) (home : string) :
  let command := path_join (path h) [home; "tools"; "android"] in
  (os_platform h =? "win32")%string = false ->
  androidHomeValue (this st) = Some home ->
  throws w (log st) (E_exec ("chmod a+x " +++ command)) = None ->
  exec w (log st) ("chmod a+x " +++ command) = ExecOk ->
  exists options rest,
    log (snd (AndroidSdkInstaller.postInstallDarwin h w st))
    = log st
      ++ E_exec ("chmod a+x " +++ command)
      :: E_spawn command AndroidSdkInstaller.installAndroidPackages_args options
      :: rest.
Proof.
  intros command Hwin Hhome Hthrow Hexec.
  pose proof (addExecutePermission_unfold h w st home Hhome) as Hchmod.
  cbv zeta in Hchmod. fold command in Hchmod.
  rewrite Hthrow, Hexec in Hchmod.
  unfold AndroidSdkInstaller.postInstallDarwin.
  rewrite (then_fulfilled _ _ _ _ Hchmod), settled_state_kept.
  set (st1 := {| this := this st;
                 log := log st ++ [E_exec ("chmod a+x " +++ command)] |}).
  unfold AndroidSdkInstaller.postInstallDefault.
  destruct (then_log (AndroidSdkInstaller.installAndroidPackages h w)
              (AndroidSdkInstaller.killAdb h w) st1 (killAdb_appends h w))
    as (more & ->).
  destruct (installAndroidPackages_spawns_first h w st1 home Hhome)
    as (options & added & ->).
  exists options, (added ++ more).
  unfold AndroidSdkInstaller.androidCommand. rewrite Hwin. fold command.
  cbn [log st1]. now rewrite <- !app_assoc.
Qed.

(** X11 at work: the stage on a Darwin host, every call succeeding. *)
Lemma postInstallDarwin_spawns_what_it_made_executable_witness :
  exists options rest,
    log (snd (AndroidSdkInstaller.postInstallDarwin Sample.darwin
                (Sample.quiet (Sample.exits 0)) Sample.ready))
    = []
      ++ E_exec "chmod a+x /opt/sdk/android-sdk-macosx/tools/android"
      :: E_spawn "/opt/sdk/android-sdk-macosx/tools/android"
           AndroidSdkInstaller.installAndroidPackages_args options
      :: rest.
Proof.
  apply (postInstallDarwin_spawns_what_it_made_executable Sample.darwin
           (Sample.quiet (Sample.exits 0)) Sample.ready Sample.home);
    reflexivity.
Defined.

(** X13.  Each stage writes at most its own field of the installer.  No
    stage of either platform changes the settings the installer was
    constructed with (source, version, destination and the stages already
    satisfied); only the download stages assign the archive path; only the
    update-variables stages assign the home directory of the SDK.  This
    holds whatever the outcome: fulfilled, rejected, never settled or
    thrown. *)
Theorem stages_write_only_their_own_field
  (h : Host) (w : World) (st : State) :
  let after := fun stage : M Promise => this (snd (stage st)) in
  (forall stage,
     In stage [ AndroidSdkInstaller.downloadWin32 h w;
                AndroidSdkInstaller.downloadDarwin h w;
                AndroidSdkInstaller.installWin32 h w;
                AndroidSdkInstaller.installDarwin h w;
                AndroidSdkInstaller.updateVariablesWin32 h w;
                AndroidSdkInstaller.updateVariablesDarwin h w;
                AndroidSdkInstaller.postInstallWin32 h w;
                AndroidSdkInstaller.postInstallDarwin h w ] ->
     sameSettings (this st) (after stage))
  /\ (forall stage,
        In stage [ AndroidSdkInstaller.installWin32 h w;
                   AndroidSdkInstaller.installDarwin h w;
                   AndroidSdkInstaller.updateVariablesWin32 h w;
                   AndroidSdkInstaller.updateVariablesDarwin h w;
                   AndroidSdkInstaller.postInstallWin32 h w;
                   AndroidSdkInstaller.postInstallDarwin h w ] ->
        installerArchive (after stage) = installerArchive (this st))
  /\ (forall stage,
        In stage [ AndroidSdkInstaller.downloadWin32 h w;
                   AndroidSdkInstaller.downloadDarwin h w;
                   AndroidSdkInstaller.installWin32 h w;
                   AndroidSdkInstaller.installDarwin h w;
                   AndroidSdkInstaller.postInstallWin32 h w;
                   AndroidSdkInstaller.postInstallDarwin h w ] ->
        androidHomeValue (after stage) = androidHomeValue (this st)).
Proof.
  intros after. subst after. cbv beta.
  pose proof (download_effect h w st) as Hdownload.
  pose proof (installDefault_effect h w st) as Hinstall.
  pose proof (installDarwin_effect h w st) as HinstallDarwin.
  pose proof (updateVariablesWin32_effect h w st) as Hwin32.
  pose proof (updateVariablesDarwin_effect h w st) as Hdarwin.
  pose proof (post_effect h st _ (postInstallDefault_post h w st)) as Hpost.
  pose proof (post_effect h st _ (postInstallDarwin_post h w st)) as HpostDarwin.
  split; [|split]; intros stage Hin; cbn [In] in Hin.
  - destruct Hin as [<-|[<-|[<-|[<-|[<-|[<-|[<-|[<-|[]]]]]]]]];
      eapply effect_settings; eassumption.
  - destruct Hin as [<-|[<-|[<-|[<-|[<-|[<-|[]]]]]]];
      (eapply effect_archive_kept; [eassumption | discriminate]).
  - destruct Hin as [<-|[<-|[<-|[<-|[<-|[<-|[]]]]]]];
      (eapply effect_home_kept; [eassumption | discriminate]).
Qed.

(* ===================================================================== *)
(** ** The enum object *)
(* ===================================================================== *)

Section EnumFacts.

Import TacoErrorCode.

Lemma number_range (names : list string) :
  forall (next : Z) (name : string) (code : Z),
  In (name, code) (number names next) ->
  (next <= code < next + Z.of_nat (length names))%Z /\ In name names.
Proof.
  induction names as [|n rest IH]; intros next name code Hin; [destruct Hin|].
  cbn [number In length] in *. destruct Hin as [Heq|Hin].
  - injection Heq as <- <-. split; [lia | now left].
  - destruct (IH _ _ _ Hin) as [Hrange Hname]. split; [lia | now right].
Qed.

Lemma find_by_name (names : list string) :
  NoDup names ->
  forall (next : Z) (name : string) (code : Z),
  option_map snd (find (fun entry => (fst entry =? name)%string)
                    (number names next)) = Some code
  <-> In (name, code) (number names next).
Proof.
  induction 1 as [|n rest Hfresh _ IH]; intros next name code;
    cbn [number find fst In option_map].
  - split; [discriminate | intros []].
  - destruct (n =? name)%string eqn:E.
    + apply String.eqb_eq in E. subst n. cbn [option_map snd]. split.
      * intros Heq. injection Heq as <-. now left.
      * intros [Heq|Hin]; [now injection Heq as <-|].
        destruct (number_range _ _ _ _ Hin) as [_ Hname]. contradiction.
    + rewrite IH. split; [now right|].
      intros [Heq|Hin]; [|exact Hin].
      injection Heq as -> _. rewrite String.eqb_refl in E. discriminate.
Qed.

Lemma find_by_code (names : list string) :
  forall (next : Z) (name : string) (code : Z),
  option_map fst (find (fun entry => (snd entry =? code)%Z)
                    (number names next)) = Some name
  <-> In (name, code) (number names next).
Proof.
  induction names as [|n rest IH]; intros next name code;
    cbn [number find snd In option_map].
  - split; [discriminate | intros []].
  - destruct (next =? code)%Z eqn:E.
    + apply Z.eqb_eq in E. subst next. cbn [option_map fst]. split.
      * intros Heq. injection Heq as <-. now left.
      * intros [Heq|Hin]; [now injection Heq as <-|].
        destruct (number_range _ _ _ _ Hin) as [Hrange _]. lia.
    + rewrite IH. split; [now right|].
      intros [Heq|Hin]; [|exact Hin].
      injection Heq as _ ->. rewrite Z.eqb_refl in E. discriminate.
Qed.

Lemma distinct_NoDup (names : list string) :
  distinct names = true -> NoDup names.
Proof.
  induction names as [|n rest IH]; [constructor|].
  cbn [distinct]. intros H. apply andb_true_iff in H as [Hfresh Hrest].
  constructor; [|now apply IH].
  intros Hin. apply negb_true_iff in Hfresh.
  assert (Hex : existsb (String.eqb n) rest = true).
  { apply existsb_exists. exists n. split; [exact Hin | apply String.eqb_refl]. }
  congruence.
Qed.

End EnumFacts.

(** X12.  The enum object maps names to numbers and numbers back to
    names, and the two mappings are inverse to each other: a name has the
    number [code] exactly when [code] has that name.  The numbers are the
    46 consecutive ones from 0, none is shared by two members, and they
    follow the order of the names: of two members, the one whose name
    comes first, character by character, has the smaller number. *)
Theorem TacoErrorCode_numbers_and_names (name : string) (code : Z) :
  (TacoErrorCode.valueOf name = Some code
   <-> TacoErrorCode.nameOf code = Some name)
  /\ (TacoErrorCode.nameOf code <> None <-> (0 <= code <= 45)%Z)
  /\ (forall name' code',
        TacoErrorCode.valueOf name = Some code ->
        TacoErrorCode.valueOf name' = Some code' ->
        ((code < code')%Z <-> String.ltb name name' = true)
        /\ (code = code' <-> name = name')).
Proof.
  assert (Hdistinct : NoDup TacoErrorCode.members).
  { apply distinct_NoDup. vm_compute. reflexivity. }
  pose proof (find_by_name _ Hdistinct 0) as Hname.
  pose proof (find_by_code TacoErrorCode.members 0) as Hcode.
  fold TacoErrorCode.table in Hname, Hcode.
  split; [|split].
  - unfold TacoErrorCode.valueOf, TacoErrorCode.nameOf.
    now rewrite Hname, Hcode.
  - split.
    + destruct (TacoErrorCode.nameOf code) as [n|] eqn:E; [|congruence].
      intros _. apply Hcode in E.
      destruct (number_range _ _ _ _ E) as [Hrange _].
      change (Z.of_nat (length TacoErrorCode.members)) with 46%Z in Hrange.
      lia.
    + intros Hrange.
      assert (Hcases : In code (map Z.of_nat (seq 0 46))).
      { apply in_map_iff. exists (Z.to_nat code).
        split; [lia | apply in_seq; lia]. }
      cbn [seq map In] in Hcases.
      repeat (destruct Hcases as [<-|Hcases]; [vm_compute; discriminate|]).
      destruct Hcases.
  - intros name' code' Hn Hn'.
    apply Hname in Hn. apply Hname in Hn'.
    assert (Hall : forallb (fun e1 : string * Z =>
                     forallb (fun e2 : string * Z =>
                       Bool.eqb (snd e1 <? snd e2)%Z
                                (String.ltb (fst e1) (fst e2))
                       && Bool.eqb (snd e1 =? snd e2)%Z
                                   (fst e1 =? fst e2)%string)
                       TacoErrorCode.table) TacoErrorCode.table = true).
    { vm_compute. reflexivity. }
    rewrite forallb_forall in Hall. specialize (Hall _ Hn).
    rewrite forallb_forall in Hall. specialize (Hall _ Hn').
    cbn [fst snd] in Hall. apply andb_true_iff in Hall as [Hlt Heq].
    apply Bool.eqb_prop in Hlt, Heq. split.
    + rewrite <- Hlt. symmetry. apply Z.ltb_lt.
    + rewrite <- String.eqb_eq, <- Heq. symmetry. apply Z.eqb_eq.
Qed.
